(** * DFS-CRM: invoice-integration matching, reconciliation, link enrichment
      and the weekly activity report of [server-supabase.js]

    The development embeds the four request handlers
    [GET /integrations/match/:companyId], [GET /integrations/bulk-match],
    [POST /integrations/link] and the [byWeek] grouping of
    [GET /reports/activity] as Rocq functions, and states the properties of
    the specification about them.

    Conventions of the embedding.
    - A JavaScript string is a [string] of 8-bit characters.  [toLowerCase]
      folds the letters A-Z and [trim] strips the ASCII white space
      (9-13 and 32); this is what the JavaScript methods do on ASCII text.
    - A field that may be [null]/[undefined] is an [option]; [truthy] is
      JavaScript truthiness of such a field (present and not the empty string).
    - A numeric score is a [Z].
    - The relational store is the list of rows of the [companies] table, the
      invoicing store the lists of documents of its three collections, both in
      the order in which a query returns them. *)

From stdpp Require Import gmap strings list.
From Stdlib Require Import ZArith Lia Ascii String Sorting.Sorted.

Local Open Scope Z_scope.

(** ** JavaScript string primitives *)

Module Js.

(** [!!x] for a string-valued field. *)
Definition truthy (x : option string) : bool :=
  match x with
  | Some (String _ _) => true
  | _ => false
  end.

(** [s] used as a condition: a string is truthy when it is not empty. *)
Definition nonEmpty (s : string) : bool :=
  match s with
  | EmptyString => false
  | String _ _ => true
  end.

(** [x || ''] *)
Definition orEmpty (x : option string) : string :=
  if truthy x then default EmptyString x else EmptyString.

Definition lowerChar (c : ascii) : ascii :=
  let n := nat_of_ascii c in
  if ((65 <=? n) && (n <=? 90))%nat then ascii_of_nat (n + 32) else c.

Fixpoint toLowerCase (s : string) : string :=
  match s with
  | EmptyString => EmptyString
  | String c s' => String (lowerChar c) (toLowerCase s')
  end.

Fixpoint trimStart (s : string) : string :=
  match s with
  | String c s' => if Ascii.is_space c then trimStart s' else s
  | EmptyString => EmptyString
  end.

(** [trimEnd] keeps a character when it is not white space or when
    something remains after it. *)
Fixpoint trimEnd (s : string) : string :=
  match s with
  | EmptyString => EmptyString
  | String c s' =>
      match trimEnd s' with
      | EmptyString => if Ascii.is_space c then EmptyString else String c EmptyString
      | r => String c r
      end
  end.

Definition trim (s : string) : string := trimEnd (trimStart s).

(** [s.includes(sub)] *)
Fixpoint includes (s sub : string) : bool :=
  String.prefix sub s ||
  match s with
  | EmptyString => false
  | String _ s' => includes s' sub
  end.

Definition isDigit (c : ascii) : bool :=
  let n := nat_of_ascii c in ((48 <=? n) && (n <=? 57))%nat.

(** [s.replace(/\D/g, '')] *)
Fixpoint stripNonDigits (s : string) : string :=
  match s with
  | EmptyString => EmptyString
  | String c s' =>
      if isDigit c then String c (stripNonDigits s') else stripNonDigits s'
  end.

(** [s.slice(-n)]: the last [n] characters, the whole string when it is
    no longer than [n]. *)
Definition sliceLast (n : nat) (s : string) : string :=
  String.substring (String.length s - n)%nat n s.

(** [[a, b].filter(Boolean).join(' ')] *)
Definition joinNames (a b : option string) : string :=
  match truthy a, truthy b with
  | true, true => String.append (orEmpty a) (String " " (orEmpty b))
  | true, false => orEmpty a
  | false, true => orEmpty b
  | false, false => EmptyString
  end.

(** Relational comparison [a > b] of two strings: by code units. *)
Definition gtb (a b : string) : bool := String.ltb b a.

End Js.

(** ** Data model *)

(** An entry of a customer's [emailContacts]: a plain string, or an object
    with an [email] property. *)
Inductive EmailContact :=
| EmailStr (s : string)
| EmailObj (email : option string).

(** Truthiness of a value an [email] column can hold. *)
Definition emailTruthy (x : option EmailContact) : bool :=
  match x with
  | Some (EmailStr s) => Js.nonEmpty s
  | Some (EmailObj _) => true
  | None => false
  end.

Module Address.
Record t := mk {
  street : option string;
  city : option string;
  state : option string;
  zip : option string }.
End Address.

(** A row of the [companies] table, with the columns the four handlers read
    or write. *)
Module Company.
Record t := mk {
  id : string;
  name : option string;
  type : option string;
  contact_name : option string;
  address : option string;
  city : option string;
  state : option string;
  zip : option string;
  phone : option string;
  email : option EmailContact;
  last_order_date : option string;
  last_estimate_date : option string;
  invoice_customer_id : option string;
  updated_at : option string }.
End Company.

(** The data of a document of the [customers] collection. *)
Module Customer.
Record t := mk {
  firstName : option string;
  lastName : option string;
  companyName : option string;
  phone : option string;
  customerType : option string;
  address : option Address.t;
  emailContacts : option (list EmailContact) }.
End Customer.

(** The object bulk-match builds for each customer document. *)
Module InvoiceCustomer.
Record t := mk {
  id : string;
  firstName : option string;
  lastName : option string;
  companyName : string;
  phone : string;
  customerType : option string;
  name : string }.
End InvoiceCustomer.

(** A document of the [estimates] or [invoices] collection. *)
Module Doc.
Record t := mk {
  id : string;
  customerId : string;
  date : option string }.
End Doc.

Inductive Status := suggested | unmatched | linked.

Global Instance Status_eq_dec : EqDecision Status.
Proof. solve_decision. Defined.

(** [{ id: c.id, name: c.name }] *)
Module Match.
Record t := mk { id : string; name : option string }.
End Match.

Module Result.
Record t := mk {
  invoiceCustomer : InvoiceCustomer.t;
  match_ : option Match.t;
  score : Z;
  status : Status }.
End Result.

(** ** Scoring *)

(** [(x || '').toLowerCase().trim()] *)
Definition norm (s : string) : string := Js.trim (Js.toLowerCase s).

(** [x.replace(/\D/g, '').slice(-10)] *)
Definition last10 (s : string) : string := Js.sliceLast 10 (Js.stripNonDigits s).

(** The body of the [snapshot.forEach] of [GET /integrations/match/:companyId]:
    the score of one customer document against the company. *)
Definition matchScoreOf (company : Company.t) (data : Customer.t) : Z :=
  let companyName := norm (Js.orEmpty (Customer.companyName data)) in
  let fullName := norm (Js.joinNames (Customer.firstName data) (Customer.lastName data)) in
  let crmName := norm (Js.orEmpty (Company.name company)) in
  let crmContact := norm (Js.orEmpty (Company.contact_name company)) in
  if Js.nonEmpty companyName && Js.nonEmpty crmName && String.eqb companyName crmName then 100
  else if Js.nonEmpty companyName && Js.nonEmpty crmName
          && (Js.includes companyName crmName || Js.includes crmName companyName) then 80
  else if Js.nonEmpty fullName && Js.nonEmpty crmContact && String.eqb fullName crmContact then 70
  else if Js.truthy (Customer.phone data) && Js.truthy (Company.phone company) then
    let p1 := last10 (Js.orEmpty (Customer.phone data)) in
    let p2 := last10 (Js.orEmpty (Company.phone company)) in
    if Js.nonEmpty p1 && Js.nonEmpty p2 && String.eqb p1 p2 then 90 else 0
  else 0.

(** The body of the [companies.forEach] of [GET /integrations/bulk-match],
    after the guard on [invoice_customer_id]: the score of one company against
    the invoice customer [ic]. *)
Definition bulkScoreOf (ic : InvoiceCustomer.t) (c : Company.t) : Z :=
  let crmName := norm (Js.orEmpty (Company.name c)) in
  let crmContact := norm (Js.orEmpty (Company.contact_name c)) in
  let icCompany := norm (InvoiceCustomer.companyName ic) in
  let icName := norm (InvoiceCustomer.name ic) in
  let score :=
    if Js.nonEmpty icCompany && Js.nonEmpty crmName && String.eqb icCompany crmName then 100
    else if Js.nonEmpty icCompany && Js.nonEmpty crmName
            && (Js.includes icCompany crmName || Js.includes crmName icCompany) then 80
    else if Js.nonEmpty icName && Js.nonEmpty crmContact && String.eqb icName crmContact then 70
    else if Js.nonEmpty icName && Js.nonEmpty crmName && String.eqb icName crmName then 75
    else 0 in
  if Js.nonEmpty (InvoiceCustomer.phone ic) && Js.truthy (Company.phone c) then
    let p1 := last10 (InvoiceCustomer.phone ic) in
    let p2 := last10 (Js.orEmpty (Company.phone c)) in
    if Js.nonEmpty p1 && Js.nonEmpty p2 && String.eqb p1 p2 then Z.max score 90 else score
  else score.

(** The invoice customer built from a customer document. *)
Definition toInvoiceCustomer (doc : string * Customer.t) : InvoiceCustomer.t :=
  let d := doc.2 in
  InvoiceCustomer.mk doc.1 (Customer.firstName d) (Customer.lastName d)
    (Js.orEmpty (Customer.companyName d)) (Js.orEmpty (Customer.phone d))
    (Customer.customerType d)
    (Js.joinNames (Customer.firstName d) (Customer.lastName d)).

(** *** The scoring rules as the specification words them *)

Module Rules.
Section Pair.
Variables (ic : InvoiceCustomer.t) (c : Company.t).

Definition companyName := norm (InvoiceCustomer.companyName ic).
Definition fullName := norm (InvoiceCustomer.name ic).
Definition crmName := norm (Js.orEmpty (Company.name c)).
Definition crmContact := norm (Js.orEmpty (Company.contact_name c)).
Definition icPhone := last10 (InvoiceCustomer.phone ic).
Definition crmPhone := last10 (Js.orEmpty (Company.phone c)).

(** Two strings match when both are non-empty and equal. *)
Definition same (a b : string) : bool :=
  Js.nonEmpty a && Js.nonEmpty b && String.eqb a b.

Definition exact : bool := same companyName crmName.
Definition substring : bool :=
  Js.nonEmpty companyName && Js.nonEmpty crmName
  && (Js.includes companyName crmName || Js.includes crmName companyName).
Definition contact : bool := same fullName crmContact.
Definition soleProprietor : bool := same fullName crmName.
Definition phone : bool := same icPhone crmPhone.

Definition points (rule : bool) (n : Z) : Z := if rule then n else 0.

(** "Evaluate all applicable rules, keep the maximum". *)
Definition maxOfRules : Z :=
  Z.max (points exact 100)
    (Z.max (points substring 80)
       (Z.max (points contact 70)
          (Z.max (points soleProprietor 75) (points phone 90)))).

(** The first applicable name rule in the order of the code. *)
Definition firstNameRule : Z :=
  if exact then 100 else if substring then 80
  else if contact then 70 else if soleProprietor then 75 else 0.
End Pair.
End Rules.

(** ** The two stores and the handler monad *)

(** The invoicing store (Firestore): the documents of its collections, each
    customer document with its id. *)
Module Firestore.
Record t := mk {
  customers : list (string * Customer.t);
  estimates : list Doc.t;
  invoices : list Doc.t }.

(** [collection('customers').doc(id).get()]: the data when the document
    exists. *)
Definition getCustomer (fs : t) (id : string) : option Customer.t :=
  snd <$> List.find (fun d => String.eqb d.1 id) (customers fs).

(** [collection(..).where('customerId', '==', id).get()] *)
Definition whereCustomerId (docs : list Doc.t) (id : string) : list Doc.t :=
  List.filter (fun d => String.eqb (Doc.customerId d) id) docs.
End Firestore.

(** The rows of the [companies] table. *)
Definition Store := list Company.t.

Inductive Body :=
| Error (msg : string)
| Matched (matchScore : Z) (customerId : string) (isLinked : bool)
| NotMatched (company : option string)
| BulkResults (results : list Result.t)
    (crmCompanies : list (string * option string * option string))
| LinkedSuccessfully (autoUpdated : list string).

Record Response := mkResponse { code : Z; body : Body }.

(** [res.json(b)] answers with code 200. *)
Definition json (b : Body) : Response := mkResponse 200 b.

(** A handler step reads and writes the rows of the table and either goes on
    with a value or ends the request with a response ([return res...] and
    [throw]). *)
Definition M (A : Type) : Type := Store -> (Response + A) * Store.

Global Instance M_ret : MRet M := fun A a s => (inr a, s).
Global Instance M_bind : MBind M := fun A B f m s =>
  match m s with
  | (inl r, s') => (inl r, s')
  | (inr a, s') => f a s'
  end.

(** [return res.status(code).json(b)] *)
Definition reply {A} (r : Response) : M A := fun s => (inl r, s).

(** An exception reaches the [catch] of the handler, which answers
    [res.status(500).json({ error: err.message || fallback })]. *)
Definition throw {A} (msg : string) : M A := reply (mkResponse 500 (Error msg)).

Definition run (h : M Response) (s : Store) : Response * Store :=
  match h s with
  | (inl r, s') => (r, s')
  | (inr r, s') => (r, s')
  end.

Module Supabase.
(** The message of the error [.single()] reports when the query does not
    return exactly one row; the text is the store's. *)
Definition singleError : string := "JSON object requested, multiple (or no) rows returned".

(** [from('companies').select('*').eq('id', id).single()], followed by
    [if (compErr) throw compErr]. *)
Definition selectCompany (id : string) : M Company.t := fun s =>
  match List.filter (fun c => String.eqb (Company.id c) id) s with
  | [c] => (inr c, s)
  | _ => throw singleError s
  end.

(** [from('companies').select(..)] *)
Definition selectCompanies : M (list Company.t) := fun s => (inr s, s).

(** The table after the rows with the id [id] went through [f]. *)
Definition updateRows (id : string) (f : Company.t -> Company.t) (s : Store) : Store :=
  List.map (fun c => if String.eqb (Company.id c) id then f c else c) s.

(** [from('companies').update(..).eq('id', id)] with the row change [f]. *)
Definition updateCompany (id : string) (f : Company.t -> Company.t) : M unit := fun s =>
  (inr tt, updateRows id f s).

(** The table has exactly one row with the id [id], the row [c]. *)
Definition hasCompany (s : Store) (id : string) (c : Company.t) : Prop :=
  List.filter (fun c => String.eqb (Company.id c) id) s = [c].
End Supabase.

(** ** GET /integrations/match/:companyId *)

(** One round of the [snapshot.forEach]: the best customer so far and its
    score. *)
Definition matchStep (company : Company.t)
    (acc : option string * Z) (doc : string * Customer.t) : option string * Z :=
  let score := matchScoreOf company doc.2 in
  if acc.2 <? score then (Some doc.1, score) else acc.

Definition bestCustomer (company : Company.t) (docs : list (string * Customer.t))
    : option string * Z :=
  fold_left (matchStep company) docs (None, 0).

Definition notConfigured : Response :=
  mkResponse 503 (Error "Invoice integration not configured").

(** The response carries the score, the customer and the [linked] flag; the
    lists of estimates and invoices and their totals are left out. *)
Definition matchCompany (firestore : option Firestore.t) (companyId : string) : M Response :=
  match firestore with
  | None => reply notConfigured
  | Some fs =>
      company ← Supabase.selectCompany companyId;
      let search :=
        let '(match_, matchScore) := bestCustomer company (Firestore.customers fs) in
        match match_ with
        | Some id =>
            if matchScore <? 60 then mret (json (NotMatched (Company.name company)))
            else mret (json (Matched matchScore id false))
        | None => mret (json (NotMatched (Company.name company)))
        end in
      if Js.truthy (Company.invoice_customer_id company) then
        let customerId := Js.orEmpty (Company.invoice_customer_id company) in
        match Firestore.getCustomer fs customerId with
        | Some _ => mret (json (Matched 100 customerId true))
        | None => search
        end
      else search
  end.

(** ** GET /integrations/bulk-match *)

(** One round of the [companies.forEach]. *)
Definition bulkStep (ic : InvoiceCustomer.t)
    (acc : option Match.t * Z) (c : Company.t) : option Match.t * Z :=
  if Js.truthy (Company.invoice_customer_id c) then acc
  else
    let score := bulkScoreOf ic c in
    if acc.2 <? score then (Some (Match.mk (Company.id c) (Company.name c)), score)
    else acc.

(** [c.invoice_customer_id === ic.id] *)
Definition linksTo (ic : InvoiceCustomer.t) (c : Company.t) : bool :=
  bool_decide (Company.invoice_customer_id c = Some (InvoiceCustomer.id ic)).

(** The callback of [invoiceCustomers.map]. *)
Definition resultFor (companies : list Company.t) (ic : InvoiceCustomer.t) : Result.t :=
  match List.find (linksTo ic) companies with
  | Some linkedCompany =>
      Result.mk ic (Some (Match.mk (Company.id linkedCompany) (Company.name linkedCompany)))
        100 linked
  | None =>
      let '(bestMatch, bestScore) := fold_left (bulkStep ic) companies (None, 0) in
      Result.mk ic bestMatch bestScore (if 70 <=? bestScore then suggested else unmatched)
  end.

(** [const order = { suggested: 0, unmatched: 1, linked: 2 }] *)
Definition order (s : Status) : Z :=
  match s with
  | suggested => 0
  | unmatched => 1
  | linked => 2
  end.

(** The comparator of [results.sort]:
    [(order[a.status] ?? 9) - (order[b.status] ?? 9) || b.score - a.score];
    a status is always one of the three keys of [order], so the default 9
    is never taken. *)
Definition compareResults (a b : Result.t) : Z :=
  let d := order (Result.status a) - order (Result.status b) in
  if d =? 0 then Result.score b - Result.score a else d.

(** [Array.prototype.sort] is a stable sort by the comparator: an element is
    put before the first element of the sorted rest that it does not have to
    follow. *)
Section Sort.
Context {A : Type} (cmp : A -> A -> Z).

Fixpoint insertSorted (x : A) (l : list A) : list A :=
  match l with
  | [] => [x]
  | y :: l' => if cmp x y <=? 0 then x :: l else y :: insertSorted x l'
  end.

Definition sort (l : list A) : list A := foldr insertSorted [] l.
End Sort.

Definition bulkResults (companies : list Company.t)
    (customers : list (string * Customer.t)) : list Result.t :=
  let invoiceCustomers := List.map toInvoiceCustomer customers in
  sort compareResults (List.map (resultFor companies) invoiceCustomers).

Definition bulkMatch (firestore : option Firestore.t) : M Response :=
  match firestore with
  | None => reply notConfigured
  | Some fs =>
      companies ← Supabase.selectCompanies;
      let results := bulkResults companies (Firestore.customers fs) in
      mret (json (BulkResults results
        (List.map (fun c => (Company.id c, Company.name c, Company.invoice_customer_id c))
           companies)))
  end.

(** ** POST /integrations/link *)

(** The [updates] object: a property that was not assigned is [None]. *)
Module Updates.
Record t := mk {
  invoice_customer_id : string;
  updated_at : string;
  phone : option string;
  email : option EmailContact;
  contact_name : option string;
  address : option string;
  city : option string;
  state : option string;
  zip : option string;
  last_estimate_date : option string;
  last_order_date : option string;
  type : option string }.

(** [{ invoice_customer_id: invoiceCustomerId, updated_at: now }] *)
Definition init (invoiceCustomerId now : string) : t :=
  mk invoiceCustomerId now None None None None None None None None None None.

Definition setPhone (v : string) (u : t) : t :=
  mk (invoice_customer_id u) (updated_at u) (Some v) (email u) (contact_name u)
     (address u) (city u) (state u) (zip u) (last_estimate_date u) (last_order_date u) (type u).
Definition setEmail (v : EmailContact) (u : t) : t :=
  mk (invoice_customer_id u) (updated_at u) (phone u) (Some v) (contact_name u)
     (address u) (city u) (state u) (zip u) (last_estimate_date u) (last_order_date u) (type u).
Definition setContactName (v : string) (u : t) : t :=
  mk (invoice_customer_id u) (updated_at u) (phone u) (email u) (Some v)
     (address u) (city u) (state u) (zip u) (last_estimate_date u) (last_order_date u) (type u).
Definition setAddress (v : string) (u : t) : t :=
  mk (invoice_customer_id u) (updated_at u) (phone u) (email u) (contact_name u)
     (Some v) (city u) (state u) (zip u) (last_estimate_date u) (last_order_date u) (type u).
Definition setCity (v : string) (u : t) : t :=
  mk (invoice_customer_id u) (updated_at u) (phone u) (email u) (contact_name u)
     (address u) (Some v) (state u) (zip u) (last_estimate_date u) (last_order_date u) (type u).
Definition setState (v : string) (u : t) : t :=
  mk (invoice_customer_id u) (updated_at u) (phone u) (email u) (contact_name u)
     (address u) (city u) (Some v) (zip u) (last_estimate_date u) (last_order_date u) (type u).
Definition setZip (v : string) (u : t) : t :=
  mk (invoice_customer_id u) (updated_at u) (phone u) (email u) (contact_name u)
     (address u) (city u) (state u) (Some v) (last_estimate_date u) (last_order_date u) (type u).
Definition setLastEstimateDate (v : string) (u : t) : t :=
  mk (invoice_customer_id u) (updated_at u) (phone u) (email u) (contact_name u)
     (address u) (city u) (state u) (zip u) (Some v) (last_order_date u) (type u).
Definition setLastOrderDate (v : string) (u : t) : t :=
  mk (invoice_customer_id u) (updated_at u) (phone u) (email u) (contact_name u)
     (address u) (city u) (state u) (zip u) (last_estimate_date u) (Some v) (type u).
Definition setType (v : string) (u : t) : t :=
  mk (invoice_customer_id u) (updated_at u) (phone u) (email u) (contact_name u)
     (address u) (city u) (state u) (zip u) (last_estimate_date u) (last_order_date u) (Some v).
End Updates.

(** [e.email || e] for the first entry [e] of [emailContacts]. *)
Definition emailOf (e : EmailContact) : EmailContact :=
  match e with
  | EmailStr s => EmailStr s
  | EmailObj em => if Js.truthy em then EmailStr (Js.orEmpty em) else EmailObj em
  end.

(** "Auto-fill missing contact info from invoice customer": the four
    conditional statements, in the order of the code. *)
Definition fillPhone (company : Company.t) (custData : Customer.t) (u : Updates.t)
    : Updates.t :=
  if negb (Js.truthy (Company.phone company)) && Js.truthy (Customer.phone custData)
  then Updates.setPhone (Js.orEmpty (Customer.phone custData)) u else u.

Definition fillEmail (company : Company.t) (custData : Customer.t) (u : Updates.t)
    : Updates.t :=
  if negb (emailTruthy (Company.email company)) then
    match Customer.emailContacts custData with
    | Some (e :: _) => Updates.setEmail (emailOf e) u
    | _ => u
    end
  else u.

Definition fillContactName (company : Company.t) (custData : Customer.t) (u : Updates.t)
    : Updates.t :=
  if negb (Js.truthy (Company.contact_name company)) then
    let name := Js.joinNames (Customer.firstName custData) (Customer.lastName custData) in
    if Js.nonEmpty name then Updates.setContactName name u else u
  else u.

Definition fillAddress (company : Company.t) (custData : Customer.t) (u : Updates.t)
    : Updates.t :=
  if negb (Js.truthy (Company.address company)) then
    match Customer.address custData with
    | Some a =>
        let u :=
          if Js.truthy (Address.street a)
          then Updates.setAddress (Js.orEmpty (Address.street a)) u else u in
        let u :=
          if Js.truthy (Address.city a) && negb (Js.truthy (Company.city company))
          then Updates.setCity (Js.orEmpty (Address.city a)) u else u in
        let u :=
          if Js.truthy (Address.state a) && negb (Js.truthy (Company.state company))
          then Updates.setState (Js.orEmpty (Address.state a)) u else u in
        if Js.truthy (Address.zip a) && negb (Js.truthy (Company.zip company))
        then Updates.setZip (Js.orEmpty (Address.zip a)) u else u
    | None => u
    end
  else u.

Definition autoFill (company : Company.t) (custData : Customer.t) (u : Updates.t)
    : Updates.t :=
  let u := fillPhone company custData u in
  let u := fillEmail company custData u in
  let u := fillContactName company custData u in
  fillAddress company custData u.

(** One round of the [forEach] that finds the latest date. *)
Definition latestStep (latest : option string) (doc : Doc.t) : option string :=
  let d := Doc.date doc in
  if Js.truthy d && (negb (Js.truthy latest) || Js.gtb (Js.orEmpty d) (Js.orEmpty latest))
  then d else latest.

Definition latestDate (docs : list Doc.t) : option string :=
  fold_left latestStep docs None.

(** [company.type !== 'Customer'] *)
Definition notCustomer (ty : option string) : bool :=
  negb (bool_decide (ty = Some "Customer")).

(** "Check for invoices/estimates and auto-sync dates + type". *)
Definition syncDatesAndType (fs : Firestore.t) (company : Company.t)
    (invoiceCustomerId : string) (u : Updates.t) : Updates.t :=
  let estSnap := Firestore.whereCustomerId (Firestore.estimates fs) invoiceCustomerId in
  let invSnap := Firestore.whereCustomerId (Firestore.invoices fs) invoiceCustomerId in
  let latestEstDate := latestDate estSnap in
  let u := if Js.truthy latestEstDate
           then Updates.setLastEstimateDate (Js.orEmpty latestEstDate) u else u in
  let latestInvDate := latestDate invSnap in
  let u := if Js.truthy latestInvDate
           then Updates.setLastOrderDate (Js.orEmpty latestInvDate) u else u in
  match invSnap with
  | _ :: _ => if notCustomer (Company.type company) then Updates.setType "Customer" u else u
  | [] => u
  end.

Definition buildUpdates (firestore : option Firestore.t) (now : string)
    (company : Company.t) (invoiceCustomerId : string) : Updates.t :=
  let updates := Updates.init invoiceCustomerId now in
  match firestore with
  | Some fs =>
      let updates :=
        match Firestore.getCustomer fs invoiceCustomerId with
        | Some custData => autoFill company custData updates
        | None => updates
        end in
      syncDatesAndType fs company invoiceCustomerId updates
  | None => updates
  end.

(** The row after [update(updates)]: an assigned property replaces the
    column, the other columns stay. *)
Definition keep {A} (new old : option A) : option A :=
  match new with
  | Some v => Some v
  | None => old
  end.

Definition applyUpdates (u : Updates.t) (c : Company.t) : Company.t :=
  Company.mk (Company.id c) (Company.name c)
    (keep (Updates.type u) (Company.type c))
    (keep (Updates.contact_name u) (Company.contact_name c))
    (keep (Updates.address u) (Company.address c))
    (keep (Updates.city u) (Company.city c))
    (keep (Updates.state u) (Company.state c))
    (keep (Updates.zip u) (Company.zip c))
    (keep (Updates.phone u) (Company.phone c))
    (keep (Updates.email u) (Company.email c))
    (keep (Updates.last_order_date u) (Company.last_order_date c))
    (keep (Updates.last_estimate_date u) (Company.last_estimate_date c))
    (Some (Updates.invoice_customer_id u))
    (Some (Updates.updated_at u)).

(** "Build a summary of what was auto-updated". *)
Definition autoUpdated (updates : Updates.t) (company : Company.t) : list string :=
  let push (cond : bool) (entry : string) : list string := if cond then [entry] else [] in
  push (bool_decide (Updates.type updates = Some "Customer") && notCustomer (Company.type company))
       "type → Customer"
  ++ push (Js.truthy (Updates.last_order_date updates)) "last order date synced"
  ++ push (Js.truthy (Updates.last_estimate_date updates)) "last estimate date synced"
  ++ push (Js.truthy (Updates.phone updates) && negb (Js.truthy (Company.phone company)))
       "phone added"
  ++ push (emailTruthy (Updates.email updates) && negb (emailTruthy (Company.email company)))
       "email added"
  ++ push (Js.truthy (Updates.contact_name updates)
           && negb (Js.truthy (Company.contact_name company))) "contact name added"
  ++ push (Js.truthy (Updates.city updates) && negb (Js.truthy (Company.city company)))
       "address added".

(** [now] is the value of [new Date().toISOString()]. *)
Definition link (firestore : option Firestore.t) (now : string)
    (companyId invoiceCustomerId : option string) : M Response :=
  if negb (Js.truthy companyId) || negb (Js.truthy invoiceCustomerId) then
    reply (mkResponse 400 (Error "companyId and invoiceCustomerId required"))
  else
    let companyId := Js.orEmpty companyId in
    let invoiceCustomerId := Js.orEmpty invoiceCustomerId in
    company ← Supabase.selectCompany companyId;
    let updates := buildUpdates firestore now company invoiceCustomerId in
    _ ← Supabase.updateCompany companyId (applyUpdates updates);
    mret (json (LinkedSuccessfully (autoUpdated updates company))).

(** ** GET /reports/activity: the [byWeek] grouping *)

(** The [Date] object.  A time value is a number of milliseconds since
    1970-01-01T00:00:00Z; the host time zone is a fixed offset [tz], in
    minutes east of UTC (local time = UTC + [tz]). *)
Module JsDate.

Definition msPerDay : Z := 86400000.
Definition msPerMinute : Z := 60000.

(** Day number of a civil date (proleptic Gregorian calendar, day 0 is
    1970-01-01); a [d] outside the month runs into the neighbouring
    months, as in [MakeDay]. *)
Definition daysFromCivil (y m d : Z) : Z :=
  let y' := if m <=? 2 then y - 1 else y in
  let era := y' / 400 in
  let yoe := y' - era * 400 in
  let mp := (m + 9) mod 12 in
  let doy := (153 * mp + 2) / 5 + d - 1 in
  let doe := yoe * 365 + yoe / 4 - yoe / 100 + doy in
  era * 146097 + doe - 719468.

(** Year, month (1-12) and day of the month of a day number. *)
Definition civilFromDays (z : Z) : Z * Z * Z :=
  let z := z + 719468 in
  let era := z / 146097 in
  let doe := z - era * 146097 in
  let yoe := (doe - doe / 1460 + doe / 36524 - doe / 146096) / 365 in
  let doy := doe - (365 * yoe + yoe / 4 - yoe / 100) in
  let mp := (5 * doy + 2) / 153 in
  let d := doy - (153 * mp + 2) / 5 + 1 in
  let m := if mp <? 10 then mp + 3 else mp - 9 in
  (if m <=? 2 then yoe + era * 400 + 1 else yoe + era * 400, m, d).

Definition localTime (tz t : Z) : Z := t + tz * msPerMinute.
Definition utc (tz t : Z) : Z := t - tz * msPerMinute.

(** [Day(t)] and [TimeWithinDay(t)] *)
Definition day (t : Z) : Z := t / msPerDay.
Definition timeWithinDay (t : Z) : Z := t mod msPerDay.

(** [WeekDay(t)]: 0 is Sunday; 1970-01-01 was a Thursday. *)
Definition weekDay (t : Z) : Z := (day t + 4) mod 7.

(** [getDay()] and [getDate()] read the local time. *)
Definition getDay (tz t : Z) : Z := weekDay (localTime tz t).
Definition getDate (tz t : Z) : Z := (civilFromDays (day (localTime tz t))).2.

(** [setDate(dt)]: the day of the month of the local time becomes [dt],
    the local time within the day stays. *)
Definition setDate (tz t dt : Z) : Z :=
  let lt := localTime tz t in
  let '(y, m, _) := civilFromDays (day lt) in
  utc tz ((daysFromCivil y m 1 + dt - 1) * msPerDay + timeWithinDay lt).

(** *** Parsing *)

Definition digitVal (c : ascii) : option Z :=
  if Js.isDigit c then Some (Z.of_nat (nat_of_ascii c) - 48) else None.

Fixpoint number (acc : Z) (s : string) : option Z :=
  match s with
  | EmptyString => Some acc
  | String c s' =>
      match digitVal c with
      | Some d => number (10 * acc + d) s'
      | None => None
      end
  end.

(** The [len] digits of [s] from position [start]. *)
Definition field (start len : nat) (s : string) : option Z :=
  let f := String.substring start len s in
  if (String.length f =? len)%nat then number 0 f else None.

Definition charAt (i : nat) (s : string) : option ascii := String.get i s.

(** The date part [YYYY-MM-DD] at the head of [s]. *)
Definition parseDay (s : string) : option Z :=
  match field 0 4 s, charAt 4 s, field 5 2 s, charAt 7 s, field 8 2 s with
  | Some y, Some "-"%char, Some m, Some "-"%char, Some d =>
      if (1 <=? m) && (m <=? 12) && (1 <=? d) && (d <=? 31)
      then Some (daysFromCivil y m 1 + d - 1) else None
  | _, _, _, _, _ => None
  end.

(** The characters of [s] from position [n] on. *)
Fixpoint drop (n : nat) (s : string) : string :=
  match n, s with
  | O, _ => s
  | S n', String _ s' => drop n' s'
  | S _, EmptyString => EmptyString
  end.

(** Two digits at the head of [s]: their value, and what follows them. *)
Definition twoDigits (s : string) : option (Z * string) :=
  match s with
  | String a (String b rest) =>
      match digitVal a, digitVal b with
      | Some x, Some y => Some (10 * x + y, rest)
      | _, _ => None
      end
  | _ => None
  end.

(** The digits at the head of [s], and what follows them. *)
Fixpoint digits (s : string) : string * string :=
  match s with
  | EmptyString => (EmptyString, EmptyString)
  | String c s' =>
      if Js.isDigit c then (String c (digits s').1, (digits s').2) else (EmptyString, s)
  end.

(** The milliseconds of a fraction of a second: its first three digits,
    with zeros for the missing ones; further digits are dropped.  A
    fraction has up to nine digits. *)
Definition millis (frac : string) : option Z :=
  number 0 (String.substring 0 3 (String.append frac "00")).

(** The seconds [:ss] or [:ss.f...] at the head of [s], in milliseconds,
    and what follows them; a time without seconds has 0. *)
Definition parseSeconds (s : string) : option (Z * string) :=
  match s with
  | String ":" s' =>
      match twoDigits s' with
      | Some (sec, String "." f) =>
          let frac := (digits f).1 in
          match (if Js.nonEmpty frac && (String.length frac <=? 9)%nat
                 then millis frac else None) with
          | Some ms => if sec <=? 59 then Some (sec * 1000 + ms, (digits f).2) else None
          | None => None
          end
      | Some (sec, rest) => if sec <=? 59 then Some (sec * 1000, rest) else None
      | None => None
      end
  | _ => Some (0, s)
  end.

(** The time zone designator [s] that ends a date-time: none, [Z], or
    [+HH:mm] or [-HH:mm].  The value is the offset in minutes east of UTC,
    [None] without a designator. *)
Definition parseZone (s : string) : option (option Z) :=
  match s with
  | EmptyString => Some None
  | String c rest =>
      if Ascii.eqb c "Z" then
        match rest with
        | EmptyString => Some (Some 0)
        | _ => None
        end
      else if Ascii.eqb c "+" || Ascii.eqb c "-" then
        match twoDigits rest with
        | Some (h, String ":" rest') =>
            match twoDigits rest' with
            | Some (mi, EmptyString) =>
                if (h <=? 23) && (mi <=? 59)
                then Some (Some ((if Ascii.eqb c "+" then 1 else -1) * (h * 60 + mi)))
                else None
            | _ => None
            end
        | _ => None
        end
      else None
  end.

(** The time [HH:mm], [HH:mm:ss] or [HH:mm:ss.f...] at the head of [s], in
    milliseconds, and the time zone designator after it.  The hour 24 is
    read when nothing but zeros follows it. *)
Definition parseTime (s : string) : option (Z * option Z) :=
  match twoDigits s with
  | Some (h, String ":" s1) =>
      match twoDigits s1 with
      | Some (mi, s2) =>
          match parseSeconds s2 with
          | Some (sec, s3) =>
              let ms := (h * 60 + mi) * msPerMinute + sec in
              if (h <=? 24) && (mi <=? 59) && (ms <=? msPerDay)
              then (fun z => (ms, z)) <$> parseZone s3 else None
          | None => None
          end
      | None => None
      end
  | _ => None
  end.

(** What a date-time string says: the day number of its date, the time
    within the day in milliseconds, and the offset of its time zone
    designator in minutes east of UTC, [None] without a designator. *)
Record DateTime := mkDateTime { civilDay : Z; timeOfDay : Z; offset : option Z }.

(** The date-time string format of the language: the date [YYYY-MM-DD],
    alone or followed by [T], a time and a time zone designator.  A date
    alone is a time in UTC.  [None]: [s] is not in this format; what
    [new Date] makes of such a string (an invalid date, or the date a
    fallback of the implementation finds in it) is outside the model. *)
Definition read (s : string) : option DateTime :=
  match parseDay s with
  | None => None
  | Some d =>
      match drop 10 s with
      | EmptyString => Some (mkDateTime d 0 (Some 0))
      | String "T" t =>
          match parseTime t with
          | Some (ms, z) => Some (mkDateTime d ms z)
          | None => None
          end
      | _ => None
      end
  end.

(** [new Date(s)] for a string in the date-time format: the time value of
    the date and time [s] says, in the time zone of its designator, and in
    the time zone of the host when it has none. *)
Definition parse (tz : Z) (s : string) : option Z :=
  match read s with
  | Some p => Some (utc (default tz (offset p)) (civilDay p * msPerDay + timeOfDay p))
  | None => None
  end.

(** *** Formatting *)

Definition digitChar (d : Z) : ascii := ascii_of_nat (48 + Z.to_nat d).

(** The last [n] decimal digits of [z]. *)
Fixpoint pad (n : nat) (z : Z) : string :=
  match n with
  | O => EmptyString
  | S n' => String.append (pad n' (z / 10)) (String (digitChar (z mod 10)) EmptyString)
  end.

(** [toISOString().split('T')[0]]: the UTC date of the time value; the
    year has four digits from 0 to 9999 and a sign and six digits
    otherwise. *)
Definition isoDate (t : Z) : string :=
  let '(y, m, d) := civilFromDays (day t) in
  let year :=
    if (0 <=? y) && (y <=? 9999) then pad 4 y
    else String (if y <? 0 then "-"%char else "+"%char) (pad 6 (Z.abs y)) in
  String.append year
    (String "-" (String.append (pad 2 m) (String "-" (pad 2 d)))).
End JsDate.

(** A row of the [activities] table, with the columns the report reads;
    the flags are the integers 0 and 1 of the table. *)
Module Activity.
Record t := mk {
  type : string;
  answered : Z;
  interested : Z;
  date : string }.
End Activity.

Module Counters.
Record t := mk { calls : Z; emails : Z; answered : Z; interested : Z }.

(** [{ calls: 0, emails: 0, answered: 0, interested: 0 }] *)
Definition zero : t := mk 0 0 0 0.

(** The four conditional increments for the activity [a]. *)
Definition count (a : Activity.t) (k : t) : t :=
  mk (if String.eqb (Activity.type a) "call" then calls k + 1 else calls k)
     (if String.eqb (Activity.type a) "email" then emails k + 1 else emails k)
     (if Activity.answered a =? 0 then answered k else answered k + 1)
     (if Activity.interested a =? 0 then interested k else interested k + 1).
End Counters.

(** The key of the week of an activity: [new Date(a.date)], then
    [weekStart.setDate(date.getDate() - date.getDay())], then
    [weekStart.toISOString().split('T')[0]].  [None]: the date is not in
    the date-time format that [JsDate.read] covers (with an invalid date
    [toISOString] throws). *)
Definition weekKey (tz : Z) (date : string) : option string :=
  match JsDate.parse tz date with
  | Some t =>
      let weekStart := JsDate.setDate tz t (JsDate.getDate tz t - JsDate.getDay tz t) in
      Some (JsDate.isoDate weekStart)
  | None => None
  end.

(** One round of the [forEach] that fills [byWeek]. *)
Definition byWeekStep (tz : Z) (acc : option (gmap string Counters.t)) (a : Activity.t)
    : option (gmap string Counters.t) :=
  match acc, weekKey tz (Activity.date a) with
  | Some byWeek, Some k =>
      Some (<[k := Counters.count a (default Counters.zero (byWeek !! k))]> byWeek)
  | _, _ => None
  end.

(** The [byWeek] object of the report in a host of time zone [tz]; [None]
    when a row has no week key. *)
Definition byWeek (tz : Z) (activities : list Activity.t) : option (gmap string Counters.t) :=
  fold_left (byWeekStep tz) activities (Some ∅).

(** The week bucket as the specification words it: the calendar date of the
    activity minus its day-of-week offset, as a date string. *)
Definition sundayOfWeek (date : string) : option string :=
  match JsDate.parseDay date with
  | Some d => Some (JsDate.isoDate ((d - (d + 4) mod 7) * JsDate.msPerDay))
  | None => None
  end.

(** The [date] of a row of [activities] is the value of a [TIMESTAMP]
    column, which the store gives back as [YYYY-MM-DDTHH:mm:ss], followed by
    the fraction of the second when there is one, and without a time zone
    designator. *)
Module Timestamp.
Record t := mk {
  year : Z;
  month : Z;
  day : Z;
  hour : Z;
  minute : Z;
  second : Z;
  fraction : string }.

Fixpoint allDigits (s : string) : bool :=
  match s with
  | EmptyString => true
  | String c s' => Js.isDigit c && allDigits s'
  end.

(** The fields are in their ranges; [fraction] holds the digits after the
    point, up to six, and none for a whole second. *)
Definition valid (ts : t) : bool :=
  (0 <=? year ts) && (year ts <=? 9999) && (1 <=? month ts) && (month ts <=? 12)
  && (1 <=? day ts) && (day ts <=? 31) && (0 <=? hour ts) && (hour ts <=? 23)
  && (0 <=? minute ts) && (minute ts <=? 59) && (0 <=? second ts) && (second ts <=? 59)
  && allDigits (fraction ts) && (String.length (fraction ts) <=? 6)%nat.

(** The string of the row. *)
Definition print (ts : t) : string :=
  String.append (JsDate.pad 4 (year ts)) (String "-"
    (String.append (JsDate.pad 2 (month ts)) (String "-"
      (String.append (JsDate.pad 2 (day ts)) (String "T"
        (String.append (JsDate.pad 2 (hour ts)) (String ":"
          (String.append (JsDate.pad 2 (minute ts)) (String ":"
            (String.append (JsDate.pad 2 (second ts))
              (if Js.nonEmpty (fraction ts) then String "." (fraction ts)
               else EmptyString))))))))))).

(** The day number of the date, and the time within the day in
    milliseconds (the digits of the fraction after the third do not
    count). *)
Definition dayNumber (ts : t) : Z :=
  JsDate.daysFromCivil (year ts) (month ts) 1 + day ts - 1.

Definition timeOfDay (ts : t) : Z :=
  ((hour ts * 60 + minute ts) * 60 + second ts) * 1000
  + default 0 (JsDate.millis (fraction ts)).
End Timestamp.

(** ** Notions used in the statements *)

(** [x] may stand before [y] in a list sorted by the comparator [cmp]. *)
Definition before {A : Type} (cmp : A -> A -> Z) (x y : A) : Prop := cmp x y <= 0.

(** A candidate is an unlinked company of the table. *)
Definition candidateOf (companies : list Company.t) (m : Match.t) : Prop :=
  exists c, In c companies
            /\ Js.truthy (Company.invoice_customer_id c) = false
            /\ m = Match.mk (Company.id c) (Company.name c).

(** What the link copies from the customer document [d] into each contact
    column of the company: [None] when the column is not written. *)
Module Copy.
Section Fields.
Variables (company : Company.t) (d : Customer.t).

Definition phone : option string :=
  if negb (Js.truthy (Company.phone company)) && Js.truthy (Customer.phone d)
  then Some (Js.orEmpty (Customer.phone d)) else None.

Definition email : option EmailContact :=
  if negb (emailTruthy (Company.email company)) then
    match Customer.emailContacts d with
    | Some (e :: _) => Some (emailOf e)
    | _ => None
    end
  else None.

Definition contact_name : option string :=
  let name := Js.joinNames (Customer.firstName d) (Customer.lastName d) in
  if negb (Js.truthy (Company.contact_name company)) && Js.nonEmpty name
  then Some name else None.

(** A part [part] of the customer's address, for a company whose
    [address] column is empty and whose own column is [own]. *)
Definition addressPart (part : Address.t -> option string) (own : option string)
    : option string :=
  match Customer.address d with
  | Some a =>
      if negb (Js.truthy (Company.address company))
         && Js.truthy (part a) && negb (Js.truthy own)
      then Some (Js.orEmpty (part a)) else None
  | None => None
  end.

Definition address : option string := addressPart Address.street (Company.address company).
Definition city : option string := addressPart Address.city (Company.city company).
Definition state : option string := addressPart Address.state (Company.state company).
Definition zip : option string := addressPart Address.zip (Company.zip company).
End Fields.
End Copy.

(** What the link takes from the estimates and invoices of the customer. *)
Module Sync.
Section Fields.
Variables (fs : Firestore.t) (company : Company.t) (invoiceCustomerId : string).

Definition estSnap : list Doc.t :=
  Firestore.whereCustomerId (Firestore.estimates fs) invoiceCustomerId.
Definition invSnap : list Doc.t :=
  Firestore.whereCustomerId (Firestore.invoices fs) invoiceCustomerId.

Definition last_estimate_date : option string :=
  if Js.truthy (latestDate estSnap) then Some (Js.orEmpty (latestDate estSnap)) else None.
Definition last_order_date : option string :=
  if Js.truthy (latestDate invSnap) then Some (Js.orEmpty (latestDate invSnap)) else None.
Definition type : option string :=
  match invSnap with
  | _ :: _ => if notCustomer (Company.type company) then Some "Customer"%string else None
  | [] => None
  end.
End Fields.
End Sync.

(** The summary entries of the date sync: they depend on the invoicing store
    only. *)
Definition dateEntries (firestore : option Firestore.t) (invoiceCustomerId : string)
    : list string :=
  match firestore with
  | Some fs =>
      (if Js.truthy (latestDate (Sync.invSnap fs invoiceCustomerId))
       then ["last order date synced"%string] else [])
      ++ (if Js.truthy (latestDate (Sync.estSnap fs invoiceCustomerId))
          then ["last estimate date synced"%string] else [])
  | None => []
  end.

(** The row [c] with only the link and the time of the change written. *)
Definition setLink (invoiceCustomerId now : string) (c : Company.t) : Company.t :=
  Company.mk (Company.id c) (Company.name c) (Company.type c) (Company.contact_name c)
    (Company.address c) (Company.city c) (Company.state c) (Company.zip c)
    (Company.phone c) (Company.email c) (Company.last_order_date c)
    (Company.last_estimate_date c) (Some invoiceCustomerId) (Some now).

(** The row a link writes for [company]. *)
Definition linkedRow (firestore : option Firestore.t) (now : string)
    (company : Company.t) (invoiceCustomerId : string) : Company.t :=
  applyUpdates (buildUpdates firestore now company invoiceCustomerId) company.

(** ** Sample records *)

Module Sample.

(** A company row with a name, a contact, a phone and nothing else. *)
Definition company (id : string) (name contact phone invoiceCustomerId : option string)
    : Company.t :=
  Company.mk id name (Some "Prospect") contact None None None None phone None None None
    invoiceCustomerId None.

(** A customer document with names and a phone and nothing else. *)
Definition customer (first last companyName phone : option string) : Customer.t :=
  Customer.mk first last companyName phone None None None.

(** A sole proprietor: the company is named after its contact, and the
    customer document has no company name. *)
Definition johnCompany : Company.t :=
  company "c1" (Some "John Smith") (Some "John Smith") None None.
Definition johnCustomer : Customer.t :=
  customer (Some "John") (Some "Smith") None None.

(** A company whose name is part of the customer's, with the same phone
    number written in two ways. *)
Definition acmeCompany : Company.t :=
  company "c2" (Some "Acme") None (Some "302-555-1212") None.
Definition acmeCustomer : Customer.t :=
  customer None None (Some "Acme Fencing LLC") (Some "(302) 555-1212").

End Sample.

Module SampleBulk.

(** A company already linked to the customer k9. *)
Definition leeCompany : Company.t :=
  Sample.company "c3" (Some "Lee Farms") None None (Some "k9").

(** A company linked to a customer that the invoicing store does not
    list. *)
Definition strayCompany : Company.t :=
  Sample.company "c4" (Some "Nowhere Inc") None None (Some "k404").

Definition companies : list Company.t :=
  [Sample.acmeCompany; leeCompany; strayCompany].

Definition customers : list (string * Customer.t) :=
  [("k9", Sample.customer (Some "Pat") (Some "Lee") (Some "Lee Farms") None);
   ("k7", Sample.customer (Some "Zed") None (Some "Nowhere Inc") None);
   ("k2", Sample.acmeCustomer)].

End SampleBulk.

Module SampleLink.

(** A company with a street address and no city. *)
Definition mainStreet : Company.t :=
  Company.mk "c5" (Some "Dover Deck Co") (Some "Prospect") None (Some "1 Main St")
    None None None None None None None None None.

(** A company without any contact column filled. *)
Definition bare : Company.t :=
  Company.mk "c6" (Some "Bare Posts") (Some "Prospect") None None
    None None None None None None None None None.

(** A customer with a full address, a phone, and one e-mail contact. *)
Definition doverCustomer : Customer.t :=
  Customer.mk (Some "Dana") (Some "Reed") (Some "Dover Deck Company") (Some "302-555-0000")
    None (Some (Address.mk (Some "9 Elm Rd") (Some "Dover") (Some "DE") (Some "19901")))
    (Some [EmailObj (Some "dana@example.com")]).

(** The invoicing store: the customer k5 with one invoice and no
    estimate. *)
Definition store : Firestore.t :=
  Firestore.mk [("k5", doverCustomer)] [] [Doc.mk "i1" "k5" (Some "2024-01-15")].

Definition now : string := "2026-02-04T12:00:00.000Z".
Definition later : string := "2026-02-05T09:30:00.000Z".

End SampleLink.

Module SampleReport.

(** An e-mail of Wednesday 2024-03-06, logged with its day only: the
    [TIMESTAMP] column gives the day back as its midnight. *)
Definition wednesdayEmail : Activity.t := Activity.mk "email" 0 0 "2024-03-06T00:00:00".

(** An answered call late in the evening of the same day. *)
Definition wednesdayCall : Activity.t := Activity.mk "call" 1 0 "2024-03-06T21:30:00".

(** The dates of the two rows. *)
Definition midnight : Timestamp.t := Timestamp.mk 2024 3 6 0 0 0 "".
Definition evening : Timestamp.t := Timestamp.mk 2024 3 6 21 30 0 "".

(** US Eastern Standard Time and Central European Time, in minutes east of
    UTC. *)
Definition eastern : Z := -300.
Definition centralEuropean : Z := 60.

End SampleReport.

(** ** The other integration handlers *)

(** The answer of a handler that does not go through the rows of a match:
    [res.json(a)], or [res.status(code).json({ error })]. *)
Inductive Answer (A : Type) :=
| Ok (a : A)
| Fail (code : Z) (error : string).
Global Arguments Ok {A} a.
Global Arguments Fail {A} code error.

(** *** POST /integrations/unlink *)

(** [{ invoice_customer_id: null, updated_at: now }] applied to a row. *)
Definition clearLink (now : string) (c : Company.t) : Company.t :=
  Company.mk (Company.id c) (Company.name c) (Company.type c) (Company.contact_name c)
    (Company.address c) (Company.city c) (Company.state c) (Company.zip c)
    (Company.phone c) (Company.email c) (Company.last_order_date c)
    (Company.last_estimate_date c) None (Some now).

(** The answer is the message; an update that meets no row is not an
    error of the store. *)
Definition unlink (now : string) (companyId : option string) (s : Store)
    : Answer string * Store :=
  if negb (Js.truthy companyId) then (Fail 400 "companyId required", s)
  else (Ok "Unlinked successfully"%string,
        Supabase.updateRows (Js.orEmpty companyId) (clearLink now) s).

(** *** POST /integrations/sync/:companyId *)

(** [updates] of the sync applied to a row: a date of the request is
    written when it is truthy. *)
Definition syncRow (now : string) (last_estimate_date last_order_date : option string)
    (c : Company.t) : Company.t :=
  Company.mk (Company.id c) (Company.name c) (Company.type c) (Company.contact_name c)
    (Company.address c) (Company.city c) (Company.state c) (Company.zip c)
    (Company.phone c) (Company.email c)
    (if Js.truthy last_order_date then last_order_date else Company.last_order_date c)
    (if Js.truthy last_estimate_date then last_estimate_date
     else Company.last_estimate_date c)
    (Company.invoice_customer_id c) (Some now).

(** The dates of the request go into the [update] as they are, and it is
    the store that accepts or refuses them (a [TIMESTAMP] column does not
    take every string).  [error] is the outcome of the awaited [update]:
    [None] when the store has written the rows, the [message] of its error
    when it has not, in which case no row is written and the handler ends
    in its [catch]. *)
Definition sync (error : option (option string)) (now companyId : string)
    (last_estimate_date last_order_date : option string) (s : Store)
    : Answer string * Store :=
  match error with
  | Some message =>
      (Fail 500 (if Js.truthy message then Js.orEmpty message
                 else "Failed to sync dates"%string), s)
  | None =>
      (Ok "Dates synced successfully"%string,
       Supabase.updateRows companyId (syncRow now last_estimate_date last_order_date) s)
  end.

(** *** GET /integrations/invoice-customers *)

(** The object pushed for a customer document. *)
Module CustomerEntry.
Record t := mk {
  id : string;
  firstName : option string;
  lastName : option string;
  companyName : option string;
  phone : option string;
  customerType : option string;
  emailContacts : list EmailContact;
  address : option Address.t }.
End CustomerEntry.

(** The document passes the [search] filter: no search, or the lower-cased
    search is part of the lower-cased full name or company name. *)
Definition searchHit (search : option string) (data : Customer.t) : bool :=
  let fullName := Js.joinNames (Customer.firstName data) (Customer.lastName data) in
  let companyName := Js.orEmpty (Customer.companyName data) in
  if Js.truthy search then
    let s := Js.toLowerCase (Js.orEmpty search) in
    negb (negb (Js.includes (Js.toLowerCase fullName) s)
          && negb (Js.includes (Js.toLowerCase companyName) s))
  else true.

Definition toCustomerEntry (doc : string * Customer.t) : CustomerEntry.t :=
  let data := doc.2 in
  CustomerEntry.mk doc.1 (Customer.firstName data) (Customer.lastName data)
    (Customer.companyName data) (Customer.phone data) (Customer.customerType data)
    (default [] (Customer.emailContacts data)) (Customer.address data).

Definition invoiceCustomers (firestore : option Firestore.t) (search : option string)
    : Answer (list CustomerEntry.t) :=
  match firestore with
  | None => Fail 503 "Invoice integration not configured"
  | Some fs =>
      Ok (List.map toCustomerEntry
            (List.filter (fun doc => searchHit search doc.2) (Firestore.customers fs)))
  end.

(** ** The other reports *)

(** Truthiness of an integer flag column. *)
Definition flagSet (x : Z) : bool := negb (x =? 0).

(** A JavaScript object used as a map is a [gmap]; it behaves like one for
    the keys that [Object.prototype] does not define.  For the other keys
    [obj[key]] is never undefined, and the object is outside the model. *)
Definition prototypeKeys : list string :=
  ["__proto__"; "constructor"; "hasOwnProperty"; "isPrototypeOf"; "propertyIsEnumerable";
   "toLocaleString"; "toString"; "valueOf"; "__defineGetter__"; "__defineSetter__";
   "__lookupGetter__"; "__lookupSetter__"]%string.

Definition plainKey (k : string) : bool := negb (existsb (String.eqb k) prototypeKeys).

(** *** GET /reports/activity: [byDate], [byMonth] and the answer *)

(** [s.split('T')[0]] *)
Fixpoint beforeT (s : string) : string :=
  match s with
  | EmptyString => EmptyString
  | String c s' => if Ascii.eqb c "T" then EmptyString else String c (beforeT s')
  end.

(** [a.date?.split('T')[0] || 'unknown'] *)
Definition dateKey (a : Activity.t) : string :=
  let d := beforeT (Activity.date a) in
  if Js.nonEmpty d then d else "unknown"%string.

(** [a.date?.substring(0, 7) || 'unknown'] *)
Definition monthKey (a : Activity.t) : string :=
  let m := String.substring 0 7 (Activity.date a) in
  if Js.nonEmpty m then m else "unknown"%string.

(** One round of a [forEach] that fills the buckets of the keys [key]. *)
Definition groupStep (key : Activity.t -> string) (acc : gmap string Counters.t)
    (a : Activity.t) : gmap string Counters.t :=
  <[key a := Counters.count a (default Counters.zero (acc !! key a))]> acc.

Definition byDate (activities : list Activity.t) : gmap string Counters.t :=
  fold_left (groupStep dateKey) activities ∅.

Definition byMonth (activities : list Activity.t) : gmap string Counters.t :=
  fold_left (groupStep monthKey) activities ∅.

Module ActivityReport.
Record t := mk {
  byDate : gmap string Counters.t;
  byWeek : gmap string Counters.t;
  byMonth : gmap string Counters.t;
  total : nat }.
End ActivityReport.

(** The answer over the rows [activities] that the query returned, in a
    host of time zone [tz]; [None] when a row has no week key (with an
    invalid date the week grouping throws and the handler answers 500). *)
Definition activityReport (tz : Z) (activities : list Activity.t)
    : option ActivityReport.t :=
  match byWeek tz activities with
  | Some w =>
      Some (ActivityReport.mk (byDate activities) w (byMonth activities)
              (List.length activities))
  | None => None
  end.

(** *** GET /reports/funnel *)

(** The columns [company_id, answered, interested, type] of an activity. *)
Module FunnelActivity.
Record t := mk { company_id : string; answered : Z; interested : Z; type : string }.
End FunnelActivity.

(** The columns [id, is_customer, created_at] of a company. *)
Module FunnelCompany.
Record t := mk { id : string; is_customer : Z; created_at : option string }.
End FunnelCompany.

Module Funnel.
Record t := mk {
  totalCompanies : nat;
  contacted : nat;
  answered : nat;
  interested : nat;
  customers : nat }.
End Funnel.

Definition funnel (companies : list FunnelCompany.t) (activities : list FunnelActivity.t)
    : Funnel.t :=
  let contactedCompanies : gset string :=
    list_to_set (List.map FunnelActivity.company_id activities) in
  let answeredCompanies : gset string :=
    list_to_set (List.map FunnelActivity.company_id
                   (List.filter (fun a => flagSet (FunnelActivity.answered a)) activities)) in
  let interestedCompanies : gset string :=
    list_to_set (List.map FunnelActivity.company_id
                   (List.filter (fun a => flagSet (FunnelActivity.interested a)) activities)) in
  let customerCompanies : gset string :=
    list_to_set (List.map FunnelCompany.id
                   (List.filter (fun c => flagSet (FunnelCompany.is_customer c)) companies)) in
  Funnel.mk (List.length companies) (size contactedCompanies) (size answeredCompanies)
    (size interestedCompanies) (size customerCompanies).

(** *** GET /reports/pipeline: [byType] and [byStatus] *)

(** The columns [id, type, is_customer] of a company (the [tags] column
    feeds the [byTag] grouping, which is not modelled). *)
Module PipelineCompany.
Record t := mk { id : string; type : option string; is_customer : Z }.
End PipelineCompany.

(** The columns [company_id, interested, follow_up] of an activity. *)
Module PipelineActivity.
Record t := mk { company_id : string; interested : Z; follow_up : Z }.
End PipelineActivity.

Module TypeCount.
Record t := mk { total : nat; customers : nat; prospects : nat }.
End TypeCount.

(** [c.type || 'Unknown'] *)
Definition typeKey (c : PipelineCompany.t) : string :=
  if Js.truthy (PipelineCompany.type c) then Js.orEmpty (PipelineCompany.type c)
  else "Unknown"%string.

(** One round of the [forEach] that fills [byType]. *)
Definition byTypeStep (acc : gmap string TypeCount.t) (c : PipelineCompany.t)
    : gmap string TypeCount.t :=
  let cur := default (TypeCount.mk 0 0 0) (acc !! typeKey c) in
  <[typeKey c :=
      TypeCount.mk (S (TypeCount.total cur))
        (if flagSet (PipelineCompany.is_customer c)
         then S (TypeCount.customers cur) else TypeCount.customers cur)
        (if flagSet (PipelineCompany.is_customer c)
         then TypeCount.prospects cur else S (TypeCount.prospects cur))]> acc.

Definition byType (companies : list PipelineCompany.t) : gmap string TypeCount.t :=
  fold_left byTypeStep companies ∅.

Module Flags.
Record t := mk { contacted : bool; interested : bool; followUp : bool }.
End Flags.

(** One round of the [forEach] that fills [companyStatuses]. *)
Definition statusStep (acc : gmap string Flags.t) (a : PipelineActivity.t)
    : gmap string Flags.t :=
  let cur := default (Flags.mk false false false) (acc !! PipelineActivity.company_id a) in
  <[PipelineActivity.company_id a :=
      Flags.mk true
        (if flagSet (PipelineActivity.interested a) then true else Flags.interested cur)
        (if flagSet (PipelineActivity.follow_up a) then true else Flags.followUp cur)]> acc.

Definition companyStatuses (activities : list PipelineActivity.t) : gmap string Flags.t :=
  fold_left statusStep activities ∅.

Module ByStatus.
Record t := mk {
  notContacted : nat;
  contacted : nat;
  interested : nat;
  needsFollowUp : nat;
  customers : nat }.
End ByStatus.

(** One round of the [forEach] that counts the companies by status. *)
Definition byStatusStep (statuses : gmap string Flags.t) (acc : ByStatus.t)
    (c : PipelineCompany.t) : ByStatus.t :=
  let '(ByStatus.mk n co i f cu) := acc in
  if flagSet (PipelineCompany.is_customer c) then ByStatus.mk n co i f (S cu)
  else
    match statuses !! PipelineCompany.id c with
    | None => ByStatus.mk (S n) co i f cu
    | Some status =>
        if Flags.interested status then ByStatus.mk n co (S i) f cu
        else if Flags.followUp status then ByStatus.mk n co i (S f) cu
        else ByStatus.mk n (S co) i f cu
    end.

Definition byStatus (companies : list PipelineCompany.t)
    (activities : list PipelineActivity.t) : ByStatus.t :=
  fold_left (byStatusStep (companyStatuses activities)) companies (ByStatus.mk 0 0 0 0 0).

(** *** GET /follow-ups *)

(** The columns [id, name, type, follow_up_date, follow_up_note]. *)
Module FollowUp.
Record t := mk {
  id : string;
  name : option string;
  type : option string;
  follow_up_date : option string;
  follow_up_note : option string }.
End FollowUp.

(** [c.follow_up_date && c.follow_up_date.split('T')[0] < now] *)
Definition isOverdue (now : string) (c : FollowUp.t) : bool :=
  Js.truthy (FollowUp.follow_up_date c)
  && String.ltb (beforeT (Js.orEmpty (FollowUp.follow_up_date c))) now.

(** [c.follow_up_date && c.follow_up_date.split('T')[0] >= now]; on strings
    [a >= b] is the negation of [a < b]. *)
Definition isUpcoming (now : string) (c : FollowUp.t) : bool :=
  Js.truthy (FollowUp.follow_up_date c)
  && negb (String.ltb (beforeT (Js.orEmpty (FollowUp.follow_up_date c))) now).

(** The answer [{ overdue, upcoming }] over the rows [data] of the query;
    [now] is today's date, [new Date().toISOString().split('T')[0]]. *)
Definition followUps (now : string) (data : list FollowUp.t)
    : list FollowUp.t * list FollowUp.t :=
  (List.filter (isOverdue now) data, List.filter (isUpcoming now) data).

(** ** Further notions used in the statements *)

(** The shape of the two searches for a best match: an element that is not
    skipped replaces the best so far when its score is strictly higher. *)
Definition bestStep {A B : Type} (score : A -> Z) (skip : A -> bool) (tag : A -> B)
    (acc : option B * Z) (x : A) : option B * Z :=
  if skip x then acc
  else if acc.2 <? score x then (Some (tag x), score x) else acc.

(** A company without a customer id set. *)
Definition unlinked (c : Company.t) : bool :=
  negb (Js.truthy (Company.invoice_customer_id c)).

(** The sum of a counter over the buckets of a grouping. *)
Definition sumOf {A : Type} (f : A -> Z) (m : gmap string A) : Z :=
  map_fold (fun _ v acc => f v + acc) 0 m.

(** The number of elements of a list that pass a test, as an integer. *)
Definition countIf {A : Type} (p : A -> bool) (l : list A) : Z :=
  Z.of_nat (List.length (List.filter p l)).

Module SampleMore.

(** Two customers that score 80 and 100 against Acme, and one that scores
    nothing. *)
Definition customers : list (string * Customer.t) :=
  [("k1", Sample.johnCustomer); ("k2", Sample.acmeCustomer);
   ("k3", Sample.customer None None (Some "ACME") None)].

Definition store : Firestore.t := Firestore.mk customers [] [].

Definition table : Store := [Sample.acmeCompany; Sample.johnCompany].

Definition followUps : list FollowUp.t :=
  [FollowUp.mk "c1" (Some "A") None (Some "2026-02-01T00:00:00") None;
   FollowUp.mk "c2" (Some "B") None (Some "2026-02-04") None;
   FollowUp.mk "c3" (Some "C") None (Some "2026-03-01") (Some "call back")].

Definition funnelCompanies : list FunnelCompany.t :=
  [FunnelCompany.mk "c1" 1 None; FunnelCompany.mk "c2" 0 None; FunnelCompany.mk "c3" 0 None].

Definition funnelActivities : list FunnelActivity.t :=
  [FunnelActivity.mk "c1" 1 1 "call"; FunnelActivity.mk "c1" 0 0 "email";
   FunnelActivity.mk "c2" 0 1 "email"].

Definition pipelineCompanies : list PipelineCompany.t :=
  [PipelineCompany.mk "c1" (Some "Fence") 1; PipelineCompany.mk "c2" None 0;
   PipelineCompany.mk "c3" (Some "Fence") 0; PipelineCompany.mk "c4" (Some "") 0].

Definition pipelineActivities : list PipelineActivity.t :=
  [PipelineActivity.mk "c1" 1 0; PipelineActivity.mk "c2" 0 1;
   PipelineActivity.mk "c2" 1 0; PipelineActivity.mk "c3" 0 0].

Definition activities : list Activity.t :=
  [Activity.mk "call" 1 0 "2024-03-05T09:30:00"; Activity.mk "email" 0 0 "2024-03-07T10:00:00";
   Activity.mk "call" 1 1 "2024-04-01T14:05:10.25"; Activity.mk "visit" 0 1 "2024-04-01T16:00:00"].

Definition estimates : list Doc.t :=
  [Doc.mk "e1" "k5" (Some "2024-01-15"); Doc.mk "e2" "k5" None;
   Doc.mk "e3" "k5" (Some "2024-03-02"); Doc.mk "e4" "k5" (Some "2023-12-31")].


End SampleMore.

(** The answer of the search over the customers. *)
Definition searchAnswer (company : Company.t) (customers : list (string * Customer.t))
    : Response :=
  match bestCustomer company customers with
  | (Some id, matchScore) =>
      if matchScore <? 60 then json (NotMatched (Company.name company))
      else json (Matched matchScore id false)
  | (None, _) => json (NotMatched (Company.name company))
  end.

(** The company has no link that the invoicing store can follow: no
    customer id, or the id of no customer document. *)
Definition noLiveLink (fs : Firestore.t) (company : Company.t) : Prop :=
  Js.truthy (Company.invoice_customer_id company) = false
  \/ Firestore.getCustomer fs (Js.orEmpty (Company.invoice_customer_id company)) = None.

(** Two rows agree on the id and on every column of the company profile. *)
Definition sameProfile (a b : Company.t) : Prop :=
  Company.id a = Company.id b /\ Company.name a = Company.name b
  /\ Company.type a = Company.type b /\ Company.contact_name a = Company.contact_name b
  /\ Company.address a = Company.address b /\ Company.city a = Company.city b
  /\ Company.state a = Company.state b /\ Company.zip a = Company.zip b
  /\ Company.phone a = Company.phone b /\ Company.email a = Company.email b.

(** Two rows agree on the two synced dates. *)
Definition sameDates (a b : Company.t) : Prop :=
  Company.last_order_date a = Company.last_order_date b
  /\ Company.last_estimate_date a = Company.last_estimate_date b.

(** The counters of a list of activities counted into one bucket. *)
Definition tally (l : list Activity.t) : Counters.t :=
  fold_left (fun k a => Counters.count a k) l Counters.zero.

(** The bucket of the key [k] in a grouping by [key]: absent when no
    activity has the key, else the counters of the activities that have
    it. *)
Definition bucketOf (key : Activity.t -> string) (activities : list Activity.t)
    (k : string) : option Counters.t :=
  match List.filter (fun a => String.eqb (key a) k) activities with
  | [] => None
  | l => Some (tally l)
  end.

(** The week key of an activity that has one. *)
Definition weekKeyOr (tz : Z) (a : Activity.t) : string :=
  default EmptyString (weekKey tz (Activity.date a)).

Definition isCall (a : Activity.t) : bool := String.eqb (Activity.type a) "call".
Definition isEmail (a : Activity.t) : bool := String.eqb (Activity.type a) "email".
Definition isAnswered (a : Activity.t) : bool := flagSet (Activity.answered a).
Definition isInterested (a : Activity.t) : bool := flagSet (Activity.interested a).

(** The sums of the four counters over the buckets of a grouping are the
    numbers of calls, e-mails, answered and interested activities. *)
Definition accountsFor (g : gmap string Counters.t) (activities : list Activity.t) : Prop :=
  sumOf Counters.calls g = countIf isCall activities
  /\ sumOf Counters.emails g = countIf isEmail activities
  /\ sumOf Counters.answered g = countIf isAnswered activities
  /\ sumOf Counters.interested g = countIf isInterested activities.

(** The status of a company in the pipeline, read off the activities of the
    company. *)
Inductive PipelineStatus := NotContacted | Contacted | Interested | NeedsFollowUp | Customers.

Global Instance PipelineStatus_eq_dec : EqDecision PipelineStatus.
Proof. solve_decision. Defined.

Definition activitiesOf (activities : list PipelineActivity.t) (id : string)
    : list PipelineActivity.t :=
  List.filter (fun a => String.eqb (PipelineActivity.company_id a) id) activities.

Definition statusOf (activities : list PipelineActivity.t) (c : PipelineCompany.t)
    : PipelineStatus :=
  if flagSet (PipelineCompany.is_customer c) then Customers
  else
    match activitiesOf activities (PipelineCompany.id c) with
    | [] => NotContacted
    | mine =>
        if existsb (fun a => flagSet (PipelineActivity.interested a)) mine then Interested
        else if existsb (fun a => flagSet (PipelineActivity.follow_up a)) mine
             then NeedsFollowUp
             else Contacted
    end.

Definition countStatus (st : PipelineStatus) (companies : list PipelineCompany.t)
    (activities : list PipelineActivity.t) : nat :=
  List.length (List.filter (fun c => bool_decide (statusOf activities c = st)) companies).

(** The companies of the type key [k]. *)
Definition ofType (k : string) (companies : list PipelineCompany.t)
    : list PipelineCompany.t :=
  List.filter (fun c => String.eqb (typeKey c) k) companies.

(** The activity has a week key. *)
Definition validDate (tz : Z) (a : Activity.t) : bool :=
  match weekKey tz (Activity.date a) with
  | Some _ => true
  | None => false
  end.

(** The shape of the three accumulations into an object used as a map: the
    value under the key of the element is updated, from [init] when the key
    is new. *)
Definition accStep {V A : Type} (key : A -> string) (upd : A -> V -> V) (init : V)
    (acc : gmap string V) (x : A) : gmap string V :=
  <[key x := upd x (default init (acc !! key x))]> acc.

(** The update of the flags of a company by one activity. *)
Definition flagsUpd (a : PipelineActivity.t) (cur : Flags.t) : Flags.t :=
  Flags.mk true
    (if flagSet (PipelineActivity.interested a) then true else Flags.interested cur)
    (if flagSet (PipelineActivity.follow_up a) then true else Flags.followUp cur).

(** The update of the counts of a type by one company. *)
Definition typeUpd (c : PipelineCompany.t) (cur : TypeCount.t) : TypeCount.t :=
  TypeCount.mk (S (TypeCount.total cur))
    (if flagSet (PipelineCompany.is_customer c)
     then S (TypeCount.customers cur) else TypeCount.customers cur)
    (if flagSet (PipelineCompany.is_customer c)
     then TypeCount.prospects cur else S (TypeCount.prospects cur)).

Definition isCustomer (c : PipelineCompany.t) : bool := flagSet (PipelineCompany.is_customer c).

(** * Properties *)

(** ** The primitives on concrete inputs *)

Example toLowerCase_ex : Js.toLowerCase "ACME Fence Co" = "acme fence co".
Proof. reflexivity. Qed.

Example trim_ex : Js.trim "  Acme  Co  " = "Acme  Co".
Proof. reflexivity. Qed.

Example includes_ex : Js.includes "acme fencing llc" "acme" = true.
Proof. reflexivity. Qed.

Example phone_ex : Js.sliceLast 10 (Js.stripNonDigits "+1 (302) 555-1212") = "3025551212".
Proof. reflexivity. Qed.

Example sliceLast_short : Js.sliceLast 10 "5551212" = "5551212".
Proof. reflexivity. Qed.

Example parse_date_only : JsDate.parse (-300) "2024-03-06" = Some (19788 * 86400000).
Proof. reflexivity. Qed.

Example parse_local_midnight :
  JsDate.parse (-300) "2024-03-06T00:00:00" = Some (19788 * 86400000 + 5 * 3600000).
Proof. reflexivity. Qed.

Example isoDate_ex : JsDate.isoDate (19788 * 86400000) = "2024-03-06".
Proof. reflexivity. Qed.

Example weekDay_ex : JsDate.weekDay (19788 * 86400000) = 3.
Proof. reflexivity. Qed.

Example weekKey_utc_host : weekKey 0 "2024-03-05" = Some "2024-03-03".
Proof. reflexivity. Qed.

Example sundayOfWeek_ex : sundayOfWeek "2024-03-07" = Some "2024-03-03".
Proof. reflexivity. Qed.

(** ** Scoring *)

Lemma last10_empty : last10 EmptyString = EmptyString.
Proof. reflexivity. Qed.

Lemma orEmpty_falsy (x : option string) : Js.truthy x = false -> Js.orEmpty x = EmptyString.
Proof. unfold Js.orEmpty. by intros ->. Qed.

Lemma nonEmpty_false (s : string) : Js.nonEmpty s = false -> s = EmptyString.
Proof. by destruct s. Qed.

(** The phone test of bulk-match, with its guard on the raw phone fields, is
    the phone rule: the guard only excludes phones without any digit. *)
Lemma bulk_phone_guard (ic : InvoiceCustomer.t) (c : Company.t) :
  (if Js.nonEmpty (InvoiceCustomer.phone ic) && Js.truthy (Company.phone c)
   then Rules.phone ic c else false) = Rules.phone ic c.
Proof.
  unfold Rules.phone, Rules.same, Rules.icPhone, Rules.crmPhone.
  destruct (Js.nonEmpty (InvoiceCustomer.phone ic)) eqn:E1; simpl.
  - destruct (Js.truthy (Company.phone c)) eqn:E2; [done|].
    rewrite (orEmpty_falsy _ E2), last10_empty. simpl. by rewrite andb_false_r.
  - by rewrite (nonEmpty_false _ E1), last10_empty.
Qed.

Lemma bulkScoreOf_first_rule (ic : InvoiceCustomer.t) (c : Company.t) :
  bulkScoreOf ic c = Z.max (Rules.firstNameRule ic c) (Rules.points (Rules.phone ic c) 90).
Proof.
  pose proof (bulk_phone_guard ic c) as G.
  unfold bulkScoreOf, Rules.firstNameRule, Rules.points.
  fold (Rules.crmName c) (Rules.crmContact c) (Rules.companyName ic) (Rules.fullName ic).
  fold (Rules.icPhone ic) (Rules.crmPhone c).
  fold (Rules.same (Rules.companyName ic) (Rules.crmName c)).
  fold (Rules.same (Rules.fullName ic) (Rules.crmContact c)).
  fold (Rules.same (Rules.fullName ic) (Rules.crmName c)).
  fold (Rules.same (Rules.icPhone ic) (Rules.crmPhone c)).
  fold (Rules.exact ic c) (Rules.substring ic c) (Rules.contact ic c)
       (Rules.soleProprietor ic c) (Rules.phone ic c).
  destruct (Js.nonEmpty (InvoiceCustomer.phone ic) && Js.truthy (Company.phone c)).
  - destruct (Rules.phone ic c); [done|].
    rewrite Z.max_l; [done|].
    repeat case_match; lia.
  - rewrite <- G. rewrite Z.max_l; [done|]. repeat case_match; lia.
Qed.

Lemma nonEmpty_orEmpty (x : option string) : Js.nonEmpty (Js.orEmpty x) = Js.truthy x.
Proof. by destruct x as [[|]|]. Qed.

(** The single-company match is one chain of rules, the phone test last,
    and has no rule for the sole proprietor. *)
Lemma matchScoreOf_chain (id : string) (company : Company.t) (data : Customer.t) :
  matchScoreOf company data =
  let ic := toInvoiceCustomer (id, data) in
  if Rules.exact ic company then 100
  else if Rules.substring ic company then 80
  else if Rules.contact ic company then 70
  else if Rules.phone ic company then 90 else 0.
Proof.
  pose proof (bulk_phone_guard (toInvoiceCustomer (id, data)) company) as G.
  cbn [toInvoiceCustomer InvoiceCustomer.phone fst snd] in G.
  rewrite nonEmpty_orEmpty in G.
  unfold matchScoreOf. cbv zeta.
  unfold Rules.exact, Rules.substring, Rules.contact, Rules.same, Rules.companyName,
    Rules.fullName, Rules.crmName, Rules.crmContact.
  cbn [toInvoiceCustomer InvoiceCustomer.companyName InvoiceCustomer.name fst snd].
  repeat (case_match; [reflexivity|]).
  rewrite <- G.
  unfold Rules.phone, Rules.same, Rules.icPhone, Rules.crmPhone.
  cbn [toInvoiceCustomer InvoiceCustomer.phone fst snd].
  by repeat case_match.
Qed.

(** C1 (as amended).  In bulk reconciliation the score of a pair is the
    score of the first applicable name rule, in the order exact name (100),
    name contained in the other (80), full name equal to the contact name
    (70), full name equal to the company name (75), raised to at least 90 by
    equal last-10-digit phones.  It is the maximum over all applicable rules
    except when the 70 and the 75 rule both apply and neither the 100 nor
    the 80 rule does: there the name part is 70.  The single-company match
    has the first three name rules only: for a pair whose phones do not
    match, its score is the score of the first applicable of them. *)
Theorem C1_bulk_score_first_name_rule_then_phone :
  (forall (ic : InvoiceCustomer.t) (c : Company.t),
      bulkScoreOf ic c = Z.max (Rules.firstNameRule ic c) (Rules.points (Rules.phone ic c) 90)
      /\ bulkScoreOf ic c =
           if Rules.contact ic c && Rules.soleProprietor ic c
              && negb (Rules.exact ic c) && negb (Rules.substring ic c)
           then Z.max 70 (Rules.points (Rules.phone ic c) 90)
           else Rules.maxOfRules ic c)
  /\ (forall (id : string) (company : Company.t) (data : Customer.t),
        let ic := toInvoiceCustomer (id, data) in
        Rules.phone ic company = false ->
        matchScoreOf company data =
          if Rules.exact ic company then 100
          else if Rules.substring ic company then 80
          else if Rules.contact ic company then 70 else 0).
Proof.
  split.
  - intros ic c. split; [apply bulkScoreOf_first_rule|].
    rewrite bulkScoreOf_first_rule.
    unfold Rules.firstNameRule, Rules.maxOfRules, Rules.points.
    destruct (Rules.exact ic c), (Rules.substring ic c), (Rules.contact ic c),
      (Rules.soleProprietor ic c), (Rules.phone ic c); simpl; lia.
  - intros id company data ic Hp. subst ic. rewrite (matchScoreOf_chain id). cbv zeta.
    by rewrite Hp.
Qed.

Lemma C1_witness : matchScoreOf Sample.johnCompany Sample.johnCustomer = 70.
Proof.
  exact (proj2 C1_bulk_score_first_name_rule_then_phone
           "k1"%string Sample.johnCompany Sample.johnCustomer eq_refl).
Defined.

(** C1 (as stated) fails: for the sole proprietor John Smith both the 70 and
    the 75 rule apply; the code answers 70, the maximum is 75. *)
Lemma C1_score_is_not_max_of_rules :
  ~ (forall (ic : InvoiceCustomer.t) (c : Company.t),
       bulkScoreOf ic c = Rules.maxOfRules ic c).
Proof.
  intros H.
  specialize (H (toInvoiceCustomer ("k1"%string, Sample.johnCustomer)) Sample.johnCompany).
  vm_compute in H. discriminate H.
Qed.

Example john_bulk_score :
  bulkScoreOf (toInvoiceCustomer ("k1"%string, Sample.johnCustomer)) Sample.johnCompany = 70
  /\ Rules.maxOfRules (toInvoiceCustomer ("k1"%string, Sample.johnCustomer)) Sample.johnCompany = 75.
Proof. split; reflexivity. Qed.

(** In bulk reconciliation equal last-10-digit phones give at least 90, and
    an exact name keeps 100. *)
Lemma bulkScoreOf_phone_at_least_90 (ic : InvoiceCustomer.t) (c : Company.t) :
  Rules.phone ic c = true ->
  90 <= bulkScoreOf ic c /\ (Rules.exact ic c = true -> bulkScoreOf ic c = 100).
Proof.
  intros Hp. rewrite bulkScoreOf_first_rule, Hp. unfold Rules.firstNameRule, Rules.points.
  split; [lia|]. by intros ->.
Qed.

(** C2 fails on the single-company match: the phone test is the last branch
    of the rule chain there, so the name contained in the other name stops
    the chain at 80 although the last-10-digit phones are equal and not
    empty. *)
Theorem C2_match_phone_not_reached_after_name :
  last10 (Js.orEmpty (Customer.phone Sample.acmeCustomer)) = "3025551212"%string
  /\ last10 (Js.orEmpty (Company.phone Sample.acmeCompany)) = "3025551212"%string
  /\ matchScoreOf Sample.acmeCompany Sample.acmeCustomer = 80
  /\ bulkScoreOf (toInvoiceCustomer ("k2"%string, Sample.acmeCustomer)) Sample.acmeCompany = 90.
Proof. repeat split; reflexivity. Qed.

(** ** The handlers without the invoicing store *)

Lemma nonEmpty_truthy (s : string) : Js.nonEmpty s = true -> Js.truthy (Some s) = true.
Proof. by destruct s. Qed.

Lemma orEmpty_Some (s : string) : Js.orEmpty (Some s) = s.
Proof. by destruct s. Qed.

(** A link with both ids, on a table that has the company, reads the row,
    writes the updates built from it and answers with the summary. *)
Lemma link_run (firestore : option Firestore.t) (now cid icid : string)
    (s : Store) (company : Company.t) :
  Js.nonEmpty cid = true -> Js.nonEmpty icid = true -> Supabase.hasCompany s cid company ->
  let updates := buildUpdates firestore now company icid in
  run (link firestore now (Some cid) (Some icid)) s =
    (json (LinkedSuccessfully (autoUpdated updates company)),
     Supabase.updateRows cid (applyUpdates updates) s).
Proof.
  intros Hc Hi Hs. unfold link, run.
  rewrite (nonEmpty_truthy _ Hc), (nonEmpty_truthy _ Hi), !orEmpty_Some. simpl.
  unfold mbind, M_bind, Supabase.selectCompany.
  unfold Supabase.hasCompany in Hs. rewrite Hs. reflexivity.
Qed.

Lemma applyUpdates_init (icid now : string) (c : Company.t) :
  applyUpdates (Updates.init icid now) c = setLink icid now c.
Proof. reflexivity. Qed.

(** C3 (as amended).  Without the invoicing store the single match and the
    bulk reconciliation answer 503 "Invoice integration not configured" and
    leave the table as it is, whatever the table holds.  The link does not
    fail: for a company of the table it writes the link and the time of the
    change onto the row, changes no other column, and answers with an empty
    summary. *)
Theorem C3_unconfigured_match_and_bulk_fail_link_writes :
  (forall (companyId : string) (s : Store),
      run (matchCompany None companyId) s = (notConfigured, s))
  /\ (forall s : Store, run (bulkMatch None) s = (notConfigured, s))
  /\ (forall (now cid icid : string) (s : Store) (company : Company.t),
        Js.nonEmpty cid = true -> Js.nonEmpty icid = true ->
        Supabase.hasCompany s cid company ->
        run (link None now (Some cid) (Some icid)) s =
          (json (LinkedSuccessfully []), Supabase.updateRows cid (setLink icid now) s)).
Proof.
  split; [done|]. split; [done|].
  intros now cid icid s company Hc Hi Hs.
  rewrite (link_run None now cid icid s company Hc Hi Hs).
  reflexivity.
Qed.

Lemma C3_witness :
  run (link None "2026-02-04T12:00:00.000Z" (Some "c1") (Some "k1")) [Sample.johnCompany] =
    (json (LinkedSuccessfully []),
     [setLink "k1" "2026-02-04T12:00:00.000Z" Sample.johnCompany]).
Proof.
  apply (proj2 (proj2 C3_unconfigured_match_and_bulk_fail_link_writes)
           "2026-02-04T12:00:00.000Z"%string "c1"%string "k1"%string
           [Sample.johnCompany] Sample.johnCompany); reflexivity.
Defined.

(** C3 (as stated) fails: without the invoicing store the link of John
    Smith's company answers 200 and writes the customer id onto the row. *)
Lemma C3_link_does_not_fail_unconfigured :
  ~ (forall (now : string) (companyId invoiceCustomerId : option string) (s : Store),
       run (link None now companyId invoiceCustomerId) s = (notConfigured, s)).
Proof.
  intros H.
  specialize (H "2026-02-04T12:00:00.000Z"%string (Some "c1"%string) (Some "k1"%string)
                [Sample.johnCompany]).
  vm_compute in H. discriminate H.
Qed.

(** ** The stable sort *)

Section SortFacts.
Context {A : Type} (cmp : A -> A -> Z).
Hypothesis cmp_total : forall x y, 0 < cmp x y -> cmp y x <= 0.
Hypothesis cmp_trans : forall x y z, cmp x y <= 0 -> cmp y z <= 0 -> cmp x z <= 0.

Lemma insertSorted_perm (x : A) (l : list A) : insertSorted cmp x l ≡ₚ x :: l.
Proof.
  induction l as [|y l IH]; simpl; [done|].
  destruct (cmp x y <=? 0); [done|].
  rewrite IH. apply Permutation_swap.
Qed.

Lemma sort_perm (l : list A) : sort cmp l ≡ₚ l.
Proof.
  induction l as [|x l IH]; simpl; [done|].
  unfold sort in IH |- *. simpl. rewrite insertSorted_perm. by rewrite IH.
Qed.

Lemma insertSorted_sorted (x : A) (l : list A) :
  StronglySorted (before cmp) l -> StronglySorted (before cmp) (insertSorted cmp x l).
Proof.
  unfold before. induction 1 as [|y l Hl IH Hy]; simpl.
  - repeat constructor.
  - destruct (Z.leb_spec (cmp x y) 0) as [Hxy|Hxy].
    + constructor; [by constructor|].
      constructor; [done|].
      eapply Forall_impl; [exact Hy|]. intros z Hz. by apply (cmp_trans x y z).
    + constructor; [done|].
      rewrite insertSorted_perm. constructor; [|done].
      by apply cmp_total.
Qed.

Lemma sort_sorted (l : list A) : StronglySorted (before cmp) (sort cmp l).
Proof.
  induction l as [|x l IH]; [constructor|].
  by apply insertSorted_sorted.
Qed.

(** In a sorted list an earlier element is before a later one. *)
Lemma sorted_lookup (l : list A) (i j : nat) (a b : A) :
  StronglySorted (before cmp) l -> l !! i = Some a -> l !! j = Some b -> (i < j)%nat ->
  before cmp a b.
Proof.
  intros Hs. revert i j. induction Hs as [|x l Hl IH Hx]; intros i j Hi Hj Hij.
  - done.
  - destruct j as [|j]; [lia|]. destruct i as [|i]; simpl in *.
    + injection Hi as <-. rewrite Forall_forall in Hx. apply Hx.
      apply list_elem_of_lookup. eauto.
    + apply (IH i j); [done|done|lia].
Qed.
End SortFacts.

(** ** The order of the bulk reconciliation results *)

Lemma compareResults_le (a b : Result.t) :
  compareResults a b <= 0 <->
  order (Result.status a) < order (Result.status b)
  \/ (order (Result.status a) = order (Result.status b) /\ Result.score b <= Result.score a).
Proof.
  unfold compareResults.
  destruct (Z.eqb_spec (order (Result.status a) - order (Result.status b)) 0); lia.
Qed.

Lemma compareResults_total (x y : Result.t) :
  0 < compareResults x y -> compareResults y x <= 0.
Proof.
  unfold compareResults.
  destruct (Z.eqb_spec (order (Result.status x) - order (Result.status y)) 0),
    (Z.eqb_spec (order (Result.status y) - order (Result.status x)) 0); lia.
Qed.

Lemma compareResults_trans (x y z : Result.t) :
  compareResults x y <= 0 -> compareResults y z <= 0 -> compareResults x z <= 0.
Proof. rewrite !compareResults_le. lia. Qed.

Lemma order_inj (s1 s2 : Status) : order s1 = order s2 -> s1 = s2.
Proof. by destruct s1, s2. Qed.

(** The rows of the answer are the rows built for the customers. *)
Lemma bulkResults_perm (companies : list Company.t) (customers : list (string * Customer.t)) :
  bulkResults companies customers
    ≡ₚ List.map (resultFor companies) (List.map toInvoiceCustomer customers).
Proof. apply sort_perm. Qed.

(** C4.  In the list of results of the bulk reconciliation, of two rows the
    later one is "suggested" only if the earlier one is, the earlier one is
    "linked" only if the later one is (so the suggested rows come first, the
    linked rows last and the unmatched rows between them), and two rows of
    one status have scores that do not increase. *)
Theorem C4_bulk_results_in_triage_order
    (companies : list Company.t) (customers : list (string * Customer.t))
    (i j : nat) (a b : Result.t) :
  bulkResults companies customers !! i = Some a ->
  bulkResults companies customers !! j = Some b ->
  (i < j)%nat ->
  (Result.status b = suggested -> Result.status a = suggested)
  /\ (Result.status a = linked -> Result.status b = linked)
  /\ (Result.status a = unmatched -> Result.status b <> suggested)
  /\ (Result.status a = Result.status b -> Result.score b <= Result.score a).
Proof.
  intros Hi Hj Hij.
  pose proof (sorted_lookup compareResults _ i j a b
                (sort_sorted compareResults compareResults_total compareResults_trans _)
                Hi Hj Hij) as H.
  unfold before in H. apply compareResults_le in H.
  destruct (Result.status a), (Result.status b); simpl in H;
    repeat split; intros; try done; lia.
Qed.

Example bulk_sample_statuses :
  List.map (fun r => (InvoiceCustomer.id (Result.invoiceCustomer r),
                      Match.id <$> Result.match_ r, Result.score r, Result.status r))
    (bulkResults SampleBulk.companies SampleBulk.customers)
  = [("k2", Some "c2", 90, suggested); ("k7", None, 0, unmatched);
     ("k9", Some "c3", 100, linked)]%string.
Proof. reflexivity. Qed.

Lemma C4_witness :
  exists a b : Result.t,
    bulkResults SampleBulk.companies SampleBulk.customers !! 0%nat = Some a
    /\ bulkResults SampleBulk.companies SampleBulk.customers !! 2%nat = Some b
    /\ (Result.status b = suggested -> Result.status a = suggested)
    /\ (Result.status a = linked -> Result.status b = linked)
    /\ (Result.status a = unmatched -> Result.status b <> suggested)
    /\ (Result.status a = Result.status b -> Result.score b <= Result.score a).
Proof.
  eexists. eexists. split; [reflexivity|]. split; [reflexivity|].
  apply (C4_bulk_results_in_triage_order SampleBulk.companies SampleBulk.customers 0 2);
    [reflexivity | reflexivity | lia].
Defined.

(** ** Candidates and linked rows of the bulk reconciliation *)

Lemma bulkResults_In (companies : list Company.t) (customers : list (string * Customer.t))
    (r : Result.t) :
  In r (bulkResults companies customers) <->
  exists doc, In doc customers /\ r = resultFor companies (toInvoiceCustomer doc).
Proof.
  rewrite <- !list_elem_of_In, (bulkResults_perm companies customers), !list_elem_of_In.
  rewrite in_map_iff. split.
  - intros (ic & <- & Hic). apply in_map_iff in Hic as (doc & <- & Hdoc). eauto.
  - intros (doc & Hdoc & ->). exists (toInvoiceCustomer doc). split; [done|].
    apply in_map_iff. eauto.
Qed.

Lemma bulkStep_fold_candidate (ic : InvoiceCustomer.t) (companies l : list Company.t)
    (acc : option Match.t * Z) :
  incl l companies ->
  (forall m, acc.1 = Some m -> candidateOf companies m) ->
  forall m, (fold_left (bulkStep ic) l acc).1 = Some m -> candidateOf companies m.
Proof.
  revert acc. induction l as [|c l IH]; intros acc Hl Hacc; simpl; [done|].
  apply IH; [by intros x Hx; apply Hl; right|].
  unfold bulkStep. destruct (Js.truthy (Company.invoice_customer_id c)) eqn:E; [done|].
  destruct (acc.2 <? bulkScoreOf ic c); [|done].
  simpl. intros m [= <-]. exists c. split; [apply Hl; by left|done].
Qed.

(** The search for a candidate only sees the unlinked companies. *)
Lemma bulkStep_fold_skips_linked (ic : InvoiceCustomer.t) (l : list Company.t)
    (acc : option Match.t * Z) :
  fold_left (bulkStep ic) l acc =
  fold_left (bulkStep ic)
    (List.filter (fun c => negb (Js.truthy (Company.invoice_customer_id c))) l) acc.
Proof.
  revert acc. induction l as [|c l IH]; intros acc; simpl; [done|].
  destruct (Js.truthy (Company.invoice_customer_id c)) eqn:E; simpl.
  - rewrite <- IH. unfold bulkStep at 2. by rewrite E.
  - apply IH.
Qed.

Lemma linksTo_spec (ic : InvoiceCustomer.t) (c : Company.t) :
  linksTo ic c = true <-> Company.invoice_customer_id c = Some (InvoiceCustomer.id ic).
Proof. unfold linksTo. by rewrite bool_decide_eq_true. Qed.

(** The two shapes of a row. *)
Lemma resultFor_cases (companies : list Company.t) (ic : InvoiceCustomer.t) :
  (exists lc, List.find (linksTo ic) companies = Some lc
              /\ In lc companies
              /\ Company.invoice_customer_id lc = Some (InvoiceCustomer.id ic)
              /\ resultFor companies ic =
                   Result.mk ic (Some (Match.mk (Company.id lc) (Company.name lc))) 100 linked)
  \/ ((forall c, In c companies ->
         Company.invoice_customer_id c <> Some (InvoiceCustomer.id ic))
      /\ Result.invoiceCustomer (resultFor companies ic) = ic
      /\ Result.status (resultFor companies ic) <> linked
      /\ forall m, Result.match_ (resultFor companies ic) = Some m -> candidateOf companies m).
Proof.
  unfold resultFor. destruct (List.find (linksTo ic) companies) as [lc|] eqn:F.
  - left. exists lc. apply find_some in F as [Hin Hl]. apply linksTo_spec in Hl. done.
  - right. split.
    { intros c Hc Hl. apply linksTo_spec in Hl.
      pose proof (find_none _ _ F c Hc). congruence. }
    destruct (fold_left (bulkStep ic) companies (None, 0)) as [bestMatch bestScore] eqn:E.
    simpl. split; [done|]. split; [by destruct (70 <=? bestScore)|].
    intros m ->.
    apply (bulkStep_fold_candidate ic companies companies (None, 0));
      [apply incl_refl | by intros m' [=] | by rewrite E].
Qed.

(** With unique ids a row of the table is determined by its id. *)
Lemma same_id_same_row (companies : list Company.t) (c c' : Company.t) :
  NoDup (List.map Company.id companies) ->
  In c companies -> In c' companies -> Company.id c = Company.id c' -> c = c'.
Proof.
  induction companies as [|x l IH]; simpl; [done|].
  rewrite NoDup_cons. intros [Hx Hnd] [->|Hc] [->|Hc'] Hid; try done.
  - exfalso. apply Hx. rewrite Hid. apply list_elem_of_In, in_map, Hc'.
  - exfalso. apply Hx. rewrite <- Hid. apply list_elem_of_In, in_map, Hc.
  - by apply IH.
Qed.

(** C5.  In the results of a bulk reconciliation over a table with unique
    ids: the candidate of a row that is not "linked" is never a company with
    a customer id set; every customer that a company links to is emitted as
    the row of the first such company with score 100 and status "linked",
    whatever its names and phone are; and every row of such a customer is
    that row. *)
Theorem C5_linked_company_never_candidate_linked_customer_emitted
    (companies : list Company.t) (customers : list (string * Customer.t)) :
  NoDup (List.map Company.id companies) ->
  (forall (r : Result.t) (c : Company.t) (m : Match.t),
      In r (bulkResults companies customers) -> In c companies ->
      Js.truthy (Company.invoice_customer_id c) = true ->
      Result.status r <> linked -> Result.match_ r = Some m ->
      Match.id m <> Company.id c)
  /\ (forall (doc : string * Customer.t) (c : Company.t),
        In doc customers -> In c companies ->
        Company.invoice_customer_id c = Some doc.1 ->
        exists lc, List.find (linksTo (toInvoiceCustomer doc)) companies = Some lc
                   /\ Company.invoice_customer_id lc = Some doc.1
                   /\ In (Result.mk (toInvoiceCustomer doc)
                            (Some (Match.mk (Company.id lc) (Company.name lc))) 100 linked)
                         (bulkResults companies customers))
  /\ (forall (r : Result.t) (c : Company.t),
        In r (bulkResults companies customers) -> In c companies ->
        Company.invoice_customer_id c
          = Some (InvoiceCustomer.id (Result.invoiceCustomer r)) ->
        Result.status r = linked /\ Result.score r = 100).
Proof.
  intros Hnd. split; [|split].
  - intros r c m Hr Hc Hset Hst Hm Hid.
    apply bulkResults_In in Hr as (doc & _ & ->).
    destruct (resultFor_cases companies (toInvoiceCustomer doc))
      as [(lc & _ & _ & _ & E)|(_ & _ & _ & Hcand)].
    + rewrite E in Hst. done.
    + destruct (Hcand m Hm) as (c' & Hc' & Hfree & ->). simpl in Hid.
      rewrite (same_id_same_row companies c' c Hnd Hc' Hc Hid) in Hfree. congruence.
  - intros doc c Hdoc Hc Hl.
    destruct (resultFor_cases companies (toInvoiceCustomer doc))
      as [(lc & F & _ & Hlc & E)|(Hno & _)].
    + exists lc. split; [done|]. split; [done|].
      rewrite <- E. apply bulkResults_In. eauto.
    + exfalso. by apply (Hno c Hc).
  - intros r c Hr Hc Hl.
    apply bulkResults_In in Hr as (doc & _ & ->).
    destruct (resultFor_cases companies (toInvoiceCustomer doc))
      as [(lc & _ & _ & _ & E)|(Hno & Hic & _)].
    + by rewrite E.
    + exfalso. rewrite Hic in Hl. by apply (Hno c Hc).
Qed.

Lemma SampleBulk_ids_unique : NoDup (List.map Company.id SampleBulk.companies).
Proof. compute_done. Defined.

Lemma C5_witness :
  (forall (r : Result.t) (c : Company.t) (m : Match.t),
      In r (bulkResults SampleBulk.companies SampleBulk.customers) ->
      In c SampleBulk.companies ->
      Js.truthy (Company.invoice_customer_id c) = true ->
      Result.status r <> linked -> Result.match_ r = Some m ->
      Match.id m <> Company.id c)
  /\ (forall (doc : string * Customer.t) (c : Company.t),
        In doc SampleBulk.customers -> In c SampleBulk.companies ->
        Company.invoice_customer_id c = Some doc.1 ->
        exists lc, List.find (linksTo (toInvoiceCustomer doc)) SampleBulk.companies = Some lc
                   /\ Company.invoice_customer_id lc = Some doc.1
                   /\ In (Result.mk (toInvoiceCustomer doc)
                            (Some (Match.mk (Company.id lc) (Company.name lc))) 100 linked)
                         (bulkResults SampleBulk.companies SampleBulk.customers))
  /\ (forall (r : Result.t) (c : Company.t),
        In r (bulkResults SampleBulk.companies SampleBulk.customers) ->
        In c SampleBulk.companies ->
        Company.invoice_customer_id c
          = Some (InvoiceCustomer.id (Result.invoiceCustomer r)) ->
        Result.status r = linked /\ Result.score r = 100).
Proof.
  exact (C5_linked_company_never_candidate_linked_customer_emitted
           SampleBulk.companies SampleBulk.customers SampleBulk_ids_unique).
Defined.

(** C10.  A company with a customer id set takes no part in the search for
    a candidate, for any customer: the search over the table is the search
    over its unlinked rows.  So, in a table with unique ids, when no customer
    of the input has the id the company points to, no row of the result names
    the company, neither a "linked" row nor a candidate. *)
Theorem C10_linked_company_of_absent_customer_in_no_row
    (companies : list Company.t) (customers : list (string * Customer.t))
    (c : Company.t) :
  NoDup (List.map Company.id companies) ->
  In c companies ->
  Js.truthy (Company.invoice_customer_id c) = true ->
  (forall doc, In doc customers -> Company.invoice_customer_id c <> Some doc.1) ->
  (forall ic : InvoiceCustomer.t,
      fold_left (bulkStep ic) companies (None, 0) =
      fold_left (bulkStep ic)
        (List.filter (fun c => negb (Js.truthy (Company.invoice_customer_id c))) companies)
        (None, 0))
  /\ (forall (r : Result.t) (m : Match.t),
        In r (bulkResults companies customers) -> Result.match_ r = Some m ->
        Match.id m <> Company.id c).
Proof.
  intros Hnd Hc Hset Habsent. split; [intros ic; apply bulkStep_fold_skips_linked|].
  intros r m Hr Hm Hid.
  apply bulkResults_In in Hr as (doc & Hdoc & ->).
  destruct (resultFor_cases companies (toInvoiceCustomer doc))
    as [(lc & _ & Hlc & Hl & E)|(_ & _ & _ & Hcand)].
  - rewrite E in Hm. injection Hm as <-. simpl in Hid.
    rewrite (same_id_same_row companies lc c Hnd Hlc Hc Hid) in Hl.
    by apply (Habsent doc Hdoc).
  - destruct (Hcand m Hm) as (c' & Hc' & Hfree & ->). simpl in Hid.
    rewrite (same_id_same_row companies c' c Hnd Hc' Hc Hid) in Hfree. congruence.
Qed.

Lemma C10_witness :
  (forall ic : InvoiceCustomer.t,
      fold_left (bulkStep ic) SampleBulk.companies (None, 0) =
      fold_left (bulkStep ic)
        (List.filter (fun c => negb (Js.truthy (Company.invoice_customer_id c)))
           SampleBulk.companies)
        (None, 0))
  /\ (forall (r : Result.t) (m : Match.t),
        In r (bulkResults SampleBulk.companies SampleBulk.customers) ->
        Result.match_ r = Some m ->
        Match.id m <> Company.id SampleBulk.strayCompany).
Proof.
  apply (C10_linked_company_of_absent_customer_in_no_row
           SampleBulk.companies SampleBulk.customers SampleBulk.strayCompany
           SampleBulk_ids_unique).
  - simpl. tauto.
  - reflexivity.
  - simpl. intros doc [<-|[<-|[<-|[]]]]; discriminate.
Defined.

(** ** Link enrichment *)

Lemma truthy_Some_orEmpty (x : option string) : Js.truthy x = true -> Some (Js.orEmpty x) = x.
Proof. by destruct x as [[|]|]. Qed.

Lemma keep_None {A} (x : option A) : keep x None = x.
Proof. by destruct x. Qed.

(** Each statement of the auto-fill writes its own properties and leaves
    the others. *)
Lemma fillPhone_eq (company : Company.t) (d : Customer.t) (u : Updates.t) :
  fillPhone company d u =
  Updates.mk (Updates.invoice_customer_id u) (Updates.updated_at u)
    (keep (Copy.phone company d) (Updates.phone u)) (Updates.email u)
    (Updates.contact_name u) (Updates.address u) (Updates.city u) (Updates.state u)
    (Updates.zip u) (Updates.last_estimate_date u) (Updates.last_order_date u)
    (Updates.type u).
Proof. unfold fillPhone, Copy.phone. destruct u. by destruct (_ && _). Qed.

Lemma fillEmail_eq (company : Company.t) (d : Customer.t) (u : Updates.t) :
  fillEmail company d u =
  Updates.mk (Updates.invoice_customer_id u) (Updates.updated_at u)
    (Updates.phone u) (keep (Copy.email company d) (Updates.email u))
    (Updates.contact_name u) (Updates.address u) (Updates.city u) (Updates.state u)
    (Updates.zip u) (Updates.last_estimate_date u) (Updates.last_order_date u)
    (Updates.type u).
Proof.
  unfold fillEmail, Copy.email. destruct u.
  destruct (negb _); [|done]. by destruct (Customer.emailContacts d) as [[|e rest]|].
Qed.

Lemma fillContactName_eq (company : Company.t) (d : Customer.t) (u : Updates.t) :
  fillContactName company d u =
  Updates.mk (Updates.invoice_customer_id u) (Updates.updated_at u)
    (Updates.phone u) (Updates.email u)
    (keep (Copy.contact_name company d) (Updates.contact_name u))
    (Updates.address u) (Updates.city u) (Updates.state u)
    (Updates.zip u) (Updates.last_estimate_date u) (Updates.last_order_date u)
    (Updates.type u).
Proof.
  unfold fillContactName, Copy.contact_name. destruct u.
  destruct (negb _); [|done]. simpl. by destruct (Js.nonEmpty _).
Qed.

Lemma fillAddress_eq (company : Company.t) (d : Customer.t) (u : Updates.t) :
  fillAddress company d u =
  Updates.mk (Updates.invoice_customer_id u) (Updates.updated_at u)
    (Updates.phone u) (Updates.email u) (Updates.contact_name u)
    (keep (Copy.address company d) (Updates.address u))
    (keep (Copy.city company d) (Updates.city u))
    (keep (Copy.state company d) (Updates.state u))
    (keep (Copy.zip company d) (Updates.zip u))
    (Updates.last_estimate_date u) (Updates.last_order_date u) (Updates.type u).
Proof.
  unfold fillAddress, Copy.address, Copy.city, Copy.state, Copy.zip, Copy.addressPart.
  destruct u. destruct (Customer.address d) as [a|]; [|by destruct (negb _)].
  destruct (Js.truthy (Company.address company)); simpl.
  - done.
  - destruct (Js.truthy (Address.street a)), (Js.truthy (Address.city a)),
      (Js.truthy (Address.state a)), (Js.truthy (Address.zip a)),
      (Js.truthy (Company.city company)), (Js.truthy (Company.state company)),
      (Js.truthy (Company.zip company)); reflexivity.
Qed.

Lemma autoFill_init (company : Company.t) (d : Customer.t) (icid now : string) :
  autoFill company d (Updates.init icid now) =
  Updates.mk icid now (Copy.phone company d) (Copy.email company d)
    (Copy.contact_name company d) (Copy.address company d) (Copy.city company d)
    (Copy.state company d) (Copy.zip company d) None None None.
Proof.
  unfold autoFill. rewrite fillPhone_eq, fillEmail_eq, fillContactName_eq, fillAddress_eq.
  simpl. by rewrite !keep_None.
Qed.

Lemma syncDatesAndType_eq (fs : Firestore.t) (company : Company.t) (icid : string)
    (u : Updates.t) :
  syncDatesAndType fs company icid u =
  Updates.mk (Updates.invoice_customer_id u) (Updates.updated_at u)
    (Updates.phone u) (Updates.email u) (Updates.contact_name u)
    (Updates.address u) (Updates.city u) (Updates.state u) (Updates.zip u)
    (keep (Sync.last_estimate_date fs icid) (Updates.last_estimate_date u))
    (keep (Sync.last_order_date fs icid) (Updates.last_order_date u))
    (keep (Sync.type fs company icid) (Updates.type u)).
Proof.
  unfold syncDatesAndType, Sync.last_estimate_date, Sync.last_order_date, Sync.type,
    Sync.estSnap, Sync.invSnap.
  destruct u.
  destruct (Js.truthy (latestDate (Firestore.whereCustomerId (Firestore.estimates fs) icid))),
    (Js.truthy (latestDate (Firestore.whereCustomerId (Firestore.invoices fs) icid))),
    (Firestore.whereCustomerId (Firestore.invoices fs) icid);
    simpl; try reflexivity; by destruct (notCustomer _).
Qed.

(** The updates of a link with the invoicing store, column by column. *)
Lemma buildUpdates_Some (fs : Firestore.t) (now : string) (company : Company.t)
    (icid : string) :
  buildUpdates (Some fs) now company icid =
  Updates.mk icid now
    (Firestore.getCustomer fs icid ≫= Copy.phone company)
    (Firestore.getCustomer fs icid ≫= Copy.email company)
    (Firestore.getCustomer fs icid ≫= Copy.contact_name company)
    (Firestore.getCustomer fs icid ≫= Copy.address company)
    (Firestore.getCustomer fs icid ≫= Copy.city company)
    (Firestore.getCustomer fs icid ≫= Copy.state company)
    (Firestore.getCustomer fs icid ≫= Copy.zip company)
    (Sync.last_estimate_date fs icid) (Sync.last_order_date fs icid)
    (Sync.type fs company icid).
Proof.
  unfold buildUpdates. simpl. rewrite syncDatesAndType_eq.
  destruct (Firestore.getCustomer fs icid) as [d|]; simpl.
  - rewrite autoFill_init. simpl. by rewrite !keep_None.
  - by rewrite !keep_None.
Qed.

Ltac link_columns :=
  unfold Copy.phone, Copy.email, Copy.contact_name, Copy.address, Copy.city, Copy.state,
    Copy.zip, Copy.addressPart.

(** C6 (as amended).  The link copies the phone, the first e-mail contact,
    the contact name and the parts of the address of the customer document
    only into columns of the company that are empty, and leaves a column
    that is not empty as it is.  The parts of the address are copied only
    when the [address] column of the company is empty: then the street goes
    to [address], and the city, the state and the zip each go to their
    column when that column is empty; with a populated [address] column the
    city, the state and the zip stay as they are, empty or not. *)
Theorem C6_link_fills_empty_columns_address_under_one_guard
    (firestore : option Firestore.t) (now : string) (company : Company.t) (icid : string) :
  let row := linkedRow firestore now company icid in
  ((Js.truthy (Company.phone company) = true -> Company.phone row = Company.phone company)
   /\ (emailTruthy (Company.email company) = true ->
       Company.email row = Company.email company)
   /\ (Js.truthy (Company.contact_name company) = true ->
       Company.contact_name row = Company.contact_name company)
   /\ (Js.truthy (Company.address company) = true ->
       Company.address row = Company.address company)
   /\ (Js.truthy (Company.city company) = true -> Company.city row = Company.city company)
   /\ (Js.truthy (Company.state company) = true -> Company.state row = Company.state company)
   /\ (Js.truthy (Company.zip company) = true -> Company.zip row = Company.zip company))
  /\ (Js.truthy (Company.address company) = true ->
      Company.city row = Company.city company
      /\ Company.state row = Company.state company
      /\ Company.zip row = Company.zip company)
  /\ (forall (fs : Firestore.t) (d : Customer.t),
        firestore = Some fs -> Firestore.getCustomer fs icid = Some d ->
        (Js.truthy (Company.phone company) = false -> Js.truthy (Customer.phone d) = true ->
         Company.phone row = Customer.phone d)
        /\ (emailTruthy (Company.email company) = false ->
            forall e rest, Customer.emailContacts d = Some (e :: rest) ->
            Company.email row = Some (emailOf e))
        /\ (Js.truthy (Company.contact_name company) = false ->
            Js.nonEmpty (Js.joinNames (Customer.firstName d) (Customer.lastName d)) = true ->
            Company.contact_name row
              = Some (Js.joinNames (Customer.firstName d) (Customer.lastName d)))
        /\ (forall a : Address.t,
              Customer.address d = Some a -> Js.truthy (Company.address company) = false ->
              (Js.truthy (Address.street a) = true -> Company.address row = Address.street a)
              /\ (Js.truthy (Address.city a) = true ->
                  Js.truthy (Company.city company) = false ->
                  Company.city row = Address.city a)
              /\ (Js.truthy (Address.state a) = true ->
                  Js.truthy (Company.state company) = false ->
                  Company.state row = Address.state a)
              /\ (Js.truthy (Address.zip a) = true ->
                  Js.truthy (Company.zip company) = false ->
                  Company.zip row = Address.zip a))).
Proof.
  unfold linkedRow. destruct firestore as [fs|].
  2:{ simpl. repeat split; done. }
  rewrite buildUpdates_Some. simpl.
  destruct (Firestore.getCustomer fs icid) as [d|] eqn:Hd; simpl.
  2:{ repeat split; try done; intros; congruence. }
  split; [|split].
  - link_columns. destruct (Customer.address d) as [a|];
      repeat split; intros ->; simpl; rewrite ?andb_false_r; done.
  - link_columns. intros ->. by destruct (Customer.address d).
  - intros fs' d' [= <-] Hd'. rewrite Hd in Hd'. injection Hd' as <-.
    split; [|split; [|split]].
    + link_columns. intros -> E. simpl. rewrite E. simpl. by apply truthy_Some_orEmpty.
    + link_columns. intros -> e rest ->. done.
    + link_columns. intros -> ->. done.
    + intros a Ha Hadr. link_columns. rewrite Ha, Hadr. simpl.
      repeat split.
      * intros E. rewrite E. simpl. by apply truthy_Some_orEmpty.
      * intros E ->. rewrite E. simpl. by apply truthy_Some_orEmpty.
      * intros E ->. rewrite E. simpl. by apply truthy_Some_orEmpty.
      * intros E ->. rewrite E. simpl. by apply truthy_Some_orEmpty.
Qed.

Lemma C6_witness :
  Company.city (linkedRow (Some SampleLink.store) SampleLink.now SampleLink.bare "k5")
  = Some "Dover"%string.
Proof.
  destruct (C6_link_fills_empty_columns_address_under_one_guard
              (Some SampleLink.store) SampleLink.now SampleLink.bare "k5"%string)
    as (_ & _ & H).
  destruct (H SampleLink.store SampleLink.doverCustomer eq_refl eq_refl)
    as (_ & _ & _ & Ha).
  destruct (Ha _ eq_refl eq_refl) as (_ & Hcity & _).
  exact (Hcity eq_refl eq_refl).
Defined.

(** C6 (as stated) fails: the company has a street address and no city, the
    customer document has the city Dover; the link leaves the city empty. *)
Lemma C6_city_not_filled_with_address_populated :
  ~ (forall (fs : Firestore.t) (now : string) (company : Company.t) (icid : string)
            (d : Customer.t) (a : Address.t),
       Firestore.getCustomer fs icid = Some d -> Customer.address d = Some a ->
       Js.truthy (Address.city a) = true -> Js.truthy (Company.city company) = false ->
       Company.city (linkedRow (Some fs) now company icid) = Address.city a).
Proof.
  intros H.
  specialize (H SampleLink.store SampleLink.now SampleLink.mainStreet "k5"%string
                SampleLink.doverCustomer _ eq_refl eq_refl eq_refl eq_refl).
  vm_compute in H. discriminate H.
Qed.

Example mainStreet_linked_city :
  Company.address (linkedRow (Some SampleLink.store) SampleLink.now SampleLink.mainStreet "k5")
    = Some "1 Main St"%string
  /\ Company.city (linkedRow (Some SampleLink.store) SampleLink.now SampleLink.mainStreet "k5")
    = None.
Proof. split; reflexivity. Qed.

(** ** A second link with the same customer *)

Lemma updateRows_hasCompany (s : Store) (cid : string) (f : Company.t -> Company.t)
    (company : Company.t) :
  (forall c, Company.id (f c) = Company.id c) ->
  Supabase.hasCompany s cid company ->
  Supabase.hasCompany (Supabase.updateRows cid f s) cid (f company).
Proof.
  intros Hid. unfold Supabase.hasCompany, Supabase.updateRows.
  assert (forall l,
    List.filter (fun c => String.eqb (Company.id c) cid)
      (List.map (fun c => if String.eqb (Company.id c) cid then f c else c) l)
    = List.map f (List.filter (fun c => String.eqb (Company.id c) cid) l)) as E.
  { induction l as [|c l IH]; simpl; [done|].
    destruct (String.eqb (Company.id c) cid) eqn:Ec; simpl.
    - by rewrite Hid, Ec, IH.
    - by rewrite Ec, IH. }
  rewrite E. by intros ->.
Qed.

Lemma truthy_sync_date (x : option string) :
  Js.truthy (if Js.truthy x then Some (Js.orEmpty x) else None) = Js.truthy x.
Proof. by destruct x as [[|]|]. Qed.

(** After a link the type is "Customer" whenever the customer has an
    invoice, so a second link does not set it. *)
Lemma second_type (fs : Firestore.t) (company company' : Company.t) (icid : string) :
  Company.type company' = keep (Sync.type fs company icid) (Company.type company) ->
  bool_decide (Sync.type fs company' icid = Some "Customer"%string)
  && notCustomer (Company.type company') = false.
Proof.
  intros E. unfold Sync.type in *. destruct (Sync.invSnap fs icid); [done|].
  destruct (notCustomer (Company.type company)) eqn:N; simpl in E.
  - rewrite E. done.
  - rewrite E, N. done.
Qed.

Lemma second_phone (company company' : Company.t) (d : Customer.t) :
  Company.phone company' = keep (Copy.phone company d) (Company.phone company) ->
  Js.truthy (Copy.phone company' d) && negb (Js.truthy (Company.phone company')) = false.
Proof.
  unfold Copy.phone. intros ->.
  by destruct (Company.phone company) as [[|]|], (Customer.phone d) as [[|]|].
Qed.

Lemma second_email (company company' : Company.t) (d : Customer.t) :
  Company.email company' = keep (Copy.email company d) (Company.email company) ->
  emailTruthy (Copy.email company' d) && negb (emailTruthy (Company.email company')) = false.
Proof.
  unfold Copy.email. intros ->.
  destruct (Company.email company) as [[[|]|]|],
    (Customer.emailContacts d) as [[|[[|]|[[|]|]] rest]|]; reflexivity.
Qed.

Lemma second_contact_name (company company' : Company.t) (d : Customer.t) :
  Company.contact_name company'
    = keep (Copy.contact_name company d) (Company.contact_name company) ->
  Js.truthy (Copy.contact_name company' d)
  && negb (Js.truthy (Company.contact_name company')) = false.
Proof.
  unfold Copy.contact_name. intros ->.
  destruct (Js.joinNames (Customer.firstName d) (Customer.lastName d)) as [|ch name];
    by destruct (Company.contact_name company) as [[|]|].
Qed.

Lemma second_city (company company' : Company.t) (d : Customer.t) :
  Company.address company' = keep (Copy.address company d) (Company.address company) ->
  Company.city company' = keep (Copy.city company d) (Company.city company) ->
  Js.truthy (Copy.city company' d) && negb (Js.truthy (Company.city company')) = false.
Proof.
  link_columns. intros -> ->.
  destruct (Customer.address d) as [[street city state zip]|]; simpl.
  - by destruct (Company.address company) as [[|]|], (Company.city company) as [[|]|],
      street as [[|]|], city as [[|]|].
  - reflexivity.
Qed.

(** The summary of a link of the row that a first link with the same
    customer wrote: the two date entries, when the customer has dated
    invoices and estimates, and nothing else. *)
Lemma second_link_summary (firestore : option Firestore.t) (now now' : string)
    (company : Company.t) (icid : string) :
  let company' := linkedRow firestore now company icid in
  autoUpdated (buildUpdates firestore now' company' icid) company'
  = dateEntries firestore icid.
Proof.
  unfold linkedRow. destruct firestore as [fs|]; [|reflexivity].
  set (company' := applyUpdates (buildUpdates (Some fs) now company icid) company).
  assert (Company.type company' = keep (Sync.type fs company icid) (Company.type company)
          /\ Company.phone company'
             = keep (Firestore.getCustomer fs icid ≫= Copy.phone company) (Company.phone company)
          /\ Company.email company'
             = keep (Firestore.getCustomer fs icid ≫= Copy.email company) (Company.email company)
          /\ Company.contact_name company'
             = keep (Firestore.getCustomer fs icid ≫= Copy.contact_name company)
                 (Company.contact_name company)
          /\ Company.address company'
             = keep (Firestore.getCustomer fs icid ≫= Copy.address company)
                 (Company.address company)
          /\ Company.city company'
             = keep (Firestore.getCustomer fs icid ≫= Copy.city company) (Company.city company))
    as (Hty & Hph & Hem & Hcn & Had & Hci).
  { subst company'. rewrite buildUpdates_Some. done. }
  rewrite buildUpdates_Some. unfold autoUpdated, dateEntries.
  cbn [Updates.type Updates.last_order_date Updates.last_estimate_date Updates.phone
       Updates.email Updates.contact_name Updates.city].
  rewrite (second_type fs company company' icid Hty).
  unfold Sync.last_order_date, Sync.last_estimate_date. rewrite !truthy_sync_date.
  destruct (Firestore.getCustomer fs icid) as [d|]; cbn [mbind option_bind] in *.
  - rewrite (second_phone company company' d Hph), (second_email company company' d Hem),
      (second_contact_name company company' d Hcn), (second_city company company' d Had Hci).
    by rewrite !app_nil_r.
  - simpl. by rewrite !app_nil_r.
Qed.

(** C7 (as amended).  A second link of a company with the same customer,
    after a first link has written its row, reports no type change and no
    added phone, e-mail, contact name or address; it reports "last order
    date synced" when the customer has a dated invoice and "last estimate
    date synced" when it has a dated estimate, as the first link did. *)
Theorem C7_second_link_reports_only_the_date_syncs
    (firestore : option Firestore.t) (now now' cid icid : string)
    (s : Store) (company : Company.t) :
  Js.nonEmpty cid = true -> Js.nonEmpty icid = true -> Supabase.hasCompany s cid company ->
  let s1 := (run (link firestore now (Some cid) (Some icid)) s).2 in
  Supabase.hasCompany s1 cid (linkedRow firestore now company icid)
  /\ (run (link firestore now' (Some cid) (Some icid)) s1).1
     = json (LinkedSuccessfully (dateEntries firestore icid)).
Proof.
  intros Hc Hi Hs.
  rewrite (link_run firestore now cid icid s company Hc Hi Hs). simpl.
  assert (Supabase.hasCompany
            (Supabase.updateRows cid (applyUpdates (buildUpdates firestore now company icid)) s)
            cid (linkedRow firestore now company icid)) as Hs1.
  { by apply updateRows_hasCompany. }
  split; [exact Hs1|].
  rewrite (link_run firestore now' cid icid _ _ Hc Hi Hs1). simpl.
  by rewrite second_link_summary.
Qed.

Lemma C7_witness :
  Supabase.hasCompany
    (run (link (Some SampleLink.store) SampleLink.now (Some "c6") (Some "k5"))
       [SampleLink.bare]).2
    "c6" (linkedRow (Some SampleLink.store) SampleLink.now SampleLink.bare "k5")
  /\ (run (link (Some SampleLink.store) SampleLink.later (Some "c6") (Some "k5"))
        (run (link (Some SampleLink.store) SampleLink.now (Some "c6") (Some "k5"))
           [SampleLink.bare]).2).1
     = json (LinkedSuccessfully (dateEntries (Some SampleLink.store) "k5")).
Proof.
  apply (C7_second_link_reports_only_the_date_syncs (Some SampleLink.store)
           SampleLink.now SampleLink.later "c6" "k5" [SampleLink.bare] SampleLink.bare);
    reflexivity.
Defined.

(** C7 (as stated) fails: the customer k5 has an invoice of 2024-01-15; the
    first link of the company reports the type change, the date sync and the
    added columns, and the second link reports the date sync again. *)
Lemma C7_second_link_summary_not_empty :
  ~ (forall (firestore : option Firestore.t) (now now' cid icid : string)
            (s : Store) (company : Company.t),
       Js.nonEmpty cid = true -> Js.nonEmpty icid = true ->
       Supabase.hasCompany s cid company ->
       (run (link firestore now' (Some cid) (Some icid))
          (run (link firestore now (Some cid) (Some icid)) s).2).1
       = json (LinkedSuccessfully [])).
Proof.
  intros H.
  specialize (H (Some SampleLink.store) SampleLink.now SampleLink.later
                "c6"%string "k5"%string [SampleLink.bare] SampleLink.bare
                eq_refl eq_refl eq_refl).
  vm_compute in H. discriminate H.
Qed.

Example two_links_of_bare :
  (run (link (Some SampleLink.store) SampleLink.now (Some "c6") (Some "k5"))
     [SampleLink.bare]).1
  = json (LinkedSuccessfully
      ["type → Customer"; "last order date synced"; "phone added"; "email added";
       "contact name added"; "address added"]%string)
  /\ (run (link (Some SampleLink.store) SampleLink.later (Some "c6") (Some "k5"))
        (run (link (Some SampleLink.store) SampleLink.now (Some "c6") (Some "k5"))
           [SampleLink.bare]).2).1
     = json (LinkedSuccessfully ["last order date synced"%string]).
Proof. split; reflexivity. Qed.

(** ** A link with a customer id that the invoicing store does not have *)




Example link_of_missing_customer :
  run (link (Some SampleLink.store) SampleLink.now (Some "c6") (Some "k404"))
    [SampleLink.bare]
  = (json (LinkedSuccessfully []), [setLink "k404" SampleLink.now SampleLink.bare]).
Proof. reflexivity. Qed.

(** ** The week of an activity *)

(** The two calendar functions agree: the day number of the civil date of
    a day number is that day number. *)
Lemma civil_round_trip (z : Z) :
  JsDate.daysFromCivil (JsDate.civilFromDays z).1.1 (JsDate.civilFromDays z).1.2 1
  + (JsDate.civilFromDays z).2 - 1 = z.
Proof.
  unfold JsDate.civilFromDays. cbv zeta.
  set (era := (z + 719468) / 146097).
  set (doe := z + 719468 - era * 146097).
  assert (0 <= doe < 146097) as Hdoe by (subst doe era; Z.div_mod_to_equations; lia).
  assert (z = era * 146097 + doe - 719468) as Hz by (subst doe; lia).
  clearbody doe era.
  set (yoe := (doe - doe / 1460 + doe / 36524 - doe / 146096) / 365).
  set (doy := doe - (365 * yoe + yoe / 4 - yoe / 100)).
  assert (0 <= yoe <= 399) as Hyoe by (subst yoe; Z.div_mod_to_equations; lia).
  assert (0 <= doy <= 365) as Hdoy by (subst doy yoe; Z.div_mod_to_equations; lia).
  assert (doe = 365 * yoe + yoe / 4 - yoe / 100 + doy) as Hdoe' by (subst doy; lia).
  clearbody doy yoe.
  set (mp := (5 * doy + 2) / 153).
  assert (0 <= mp <= 11) as Hmp by (subst mp; Z.div_mod_to_equations; lia).
  clearbody mp.
  cbn [fst snd].
  unfold JsDate.daysFromCivil. cbv zeta.
  destruct (Z.ltb_spec mp 10) as [Hlt|Hge].
  - destruct (Z.leb_spec (mp + 3) 2) as [?|_]; [lia|].
    replace ((mp + 3 + 9) mod 12) with mp by (Z.div_mod_to_equations; lia).
    replace ((yoe + era * 400) / 400) with era by (Z.div_mod_to_equations; lia).
    subst z. rewrite Hdoe'. Z.div_mod_to_equations; lia.
  - destruct (Z.leb_spec (mp - 9) 2) as [_|?]; [|lia].
    replace ((mp - 9 + 9) mod 12) with mp by (Z.div_mod_to_equations; lia).
    replace ((yoe + era * 400 + 1 - 1) / 400) with era by (Z.div_mod_to_equations; lia).
    subst z. rewrite Hdoe'. Z.div_mod_to_equations; lia.
Qed.

(** [setDate] moves the time value by whole days. *)
Lemma setDate_shift (tz t dt : Z) :
  JsDate.setDate tz t dt = t + (dt - JsDate.getDate tz t) * JsDate.msPerDay.
Proof.
  unfold JsDate.setDate, JsDate.getDate. cbv zeta.
  pose proof (civil_round_trip (JsDate.day (JsDate.localTime tz t))) as R.
  destruct (JsDate.civilFromDays (JsDate.day (JsDate.localTime tz t))) as [[y m] d].
  cbn [fst snd] in *.
  unfold JsDate.utc, JsDate.timeWithinDay, JsDate.day, JsDate.localTime, JsDate.msPerDay,
    JsDate.msPerMinute in *.
  Z.div_mod_to_equations; lia.
Qed.

(** The week start of the code is the time value minus as many days as the
    local day of the week says. *)
Lemma weekKey_parsed (tz : Z) (date : string) (t : Z) :
  JsDate.parse tz date = Some t ->
  weekKey tz date = Some (JsDate.isoDate (t - JsDate.getDay tz t * JsDate.msPerDay)).
Proof.
  intros E. unfold weekKey. rewrite E, setDate_shift. do 2 f_equal. lia.
Qed.

Lemma drop_length (s : string) (n : nat) :
  String.length s = n -> JsDate.drop n s = EmptyString.
Proof.
  revert n. induction s as [|c s IH]; intros [|n]; simpl; try done.
  intros [= E]. by apply IH.
Qed.

Lemma parse_date_only_length (tz : Z) (date : string) :
  String.length date = 10%nat ->
  JsDate.parse tz date = (fun d => d * JsDate.msPerDay) <$> JsDate.parseDay date.
Proof.
  intros E. unfold JsDate.parse, JsDate.read. rewrite (drop_length _ _ E).
  destruct (JsDate.parseDay date); [|done]. simpl. unfold JsDate.utc. f_equal. lia.
Qed.

(** In a host on UTC or east of it the bucket of a date-only string is the
    Sunday of its week. *)
Lemma weekKey_date_only_east (tz : Z) (date : string) :
  0 <= tz < 1440 -> String.length date = 10%nat ->
  weekKey tz date = sundayOfWeek date.
Proof.
  intros Htz E. unfold sundayOfWeek.
  destruct (JsDate.parseDay date) as [d|] eqn:P.
  - rewrite (weekKey_parsed tz date (d * JsDate.msPerDay))
      by (by rewrite parse_date_only_length, P).
    do 2 f_equal.
    unfold JsDate.getDay, JsDate.weekDay, JsDate.day, JsDate.localTime, JsDate.msPerDay,
      JsDate.msPerMinute.
    replace ((d * 86400000 + tz * 60000) / 86400000) with d
      by (Z.div_mod_to_equations; lia).
    lia.
  - unfold weekKey. by rewrite parse_date_only_length, P.
Qed.

(** In a host west of UTC the bucket of a date-only string is a Monday,
    whatever the date: the Monday after the Sunday of the week of the day
    before. *)
Lemma weekKey_date_only_west (tz : Z) (date : string) (d : Z) :
  -1440 < tz < 0 -> String.length date = 10%nat -> JsDate.parseDay date = Some d ->
  let monday := (d - (d + 3) mod 7) * JsDate.msPerDay in
  weekKey tz date = Some (JsDate.isoDate monday) /\ JsDate.weekDay monday = 1.
Proof.
  intros Htz E P. cbv zeta. split.
  - rewrite (weekKey_parsed tz date (d * JsDate.msPerDay))
      by (by rewrite parse_date_only_length, P).
    do 2 f_equal.
    unfold JsDate.getDay, JsDate.weekDay, JsDate.day, JsDate.localTime, JsDate.msPerDay,
      JsDate.msPerMinute.
    replace ((d * 86400000 + tz * 60000) / 86400000) with (d - 1)
      by (Z.div_mod_to_equations; lia).
    replace (d - 1 + 4) with (d + 3) by lia. lia.
  - unfold JsDate.weekDay, JsDate.day, JsDate.msPerDay.
    rewrite Z.div_mul by lia. Z.div_mod_to_equations; lia.
Qed.

(** *** The dates of the rows *)

Lemma digitVal_digitChar (k : Z) :
  0 <= k <= 9 -> JsDate.digitVal (JsDate.digitChar k) = Some k.
Proof.
  intros H.
  assert (k = 0 \/ k = 1 \/ k = 2 \/ k = 3 \/ k = 4 \/ k = 5 \/ k = 6 \/ k = 7 \/ k = 8
          \/ k = 9) as Hk by lia.
  repeat destruct Hk as [->|Hk]; try reflexivity. by subst.
Qed.

Lemma digitVal_isDigit (c : ascii) :
  Js.isDigit c = true -> exists v, JsDate.digitVal c = Some v /\ 0 <= v <= 9.
Proof.
  intros H. unfold JsDate.digitVal. rewrite H. eexists. split; [done|].
  unfold Js.isDigit in H. cbv zeta in H.
  apply andb_true_iff in H as [H1 H2].
  apply Nat.leb_le in H1, H2. lia.
Qed.

Lemma number_digit (acc k : Z) (s : string) :
  0 <= k <= 9 ->
  JsDate.number acc (String (JsDate.digitChar k) s) = JsDate.number (10 * acc + k) s.
Proof. intros H. cbn [JsDate.number]. by rewrite digitVal_digitChar. Qed.

Lemma twoDigits_digits (a b : Z) (rest : string) :
  0 <= a <= 9 -> 0 <= b <= 9 ->
  JsDate.twoDigits (String (JsDate.digitChar a) (String (JsDate.digitChar b) rest))
  = Some (10 * a + b, rest).
Proof. intros Ha Hb. unfold JsDate.twoDigits. by rewrite !digitVal_digitChar. Qed.

Lemma pad2_eq (z : Z) :
  JsDate.pad 2 z
  = String (JsDate.digitChar (z / 10 mod 10)) (String (JsDate.digitChar (z mod 10)) EmptyString).
Proof. reflexivity. Qed.

Lemma pad4_eq (z : Z) :
  JsDate.pad 4 z
  = String (JsDate.digitChar (z / 10 / 10 / 10 mod 10))
      (String (JsDate.digitChar (z / 10 / 10 mod 10))
         (String (JsDate.digitChar (z / 10 mod 10))
            (String (JsDate.digitChar (z mod 10)) EmptyString))).
Proof. reflexivity. Qed.

Lemma digits_all (s : string) :
  Timestamp.allDigits s = true -> JsDate.digits s = (s, EmptyString).
Proof.
  induction s as [|c s IH]; simpl; [done|].
  intros [Hc Hs]%andb_true_iff. rewrite Hc, (IH Hs). done.
Qed.

Lemma millis_all (s : string) :
  Timestamp.allDigits s = true -> exists v, JsDate.millis s = Some v /\ 0 <= v <= 999.
Proof.
  unfold JsDate.millis.
  destruct s as [|c1 [|c2 [|c3 r]]]; simpl.
  - intros _. exists 0. split; [reflexivity|lia].
  - intros [H1 _]%andb_true_iff.
    destruct (digitVal_isDigit c1 H1) as (v1 & E1 & ?).
    rewrite E1. eexists. split; [reflexivity|].
    change (Z.of_nat (nat_of_ascii "0") - 48) with 0. lia.
  - intros [H1 [H2 _]%andb_true_iff]%andb_true_iff.
    destruct (digitVal_isDigit c1 H1) as (v1 & E1 & ?), (digitVal_isDigit c2 H2) as (v2 & E2 & ?).
    rewrite E1, E2. eexists. split; [reflexivity|].
    change (Z.of_nat (nat_of_ascii "0") - 48) with 0. lia.
  - intros [H1 [H2 [H3 _]%andb_true_iff]%andb_true_iff]%andb_true_iff.
    destruct (digitVal_isDigit c1 H1) as (v1 & E1 & ?), (digitVal_isDigit c2 H2) as (v2 & E2 & ?),
      (digitVal_isDigit c3 H3) as (v3 & E3 & ?).
    rewrite E1, E2, E3.
    replace (String.substring 0 0 (String.append r "00")) with EmptyString
      by (by destruct (String.append r "00")).
    eexists. split; [reflexivity|lia].
Qed.

Lemma valid_ranges (ts : Timestamp.t) :
  Timestamp.valid ts = true ->
  0 <= Timestamp.year ts <= 9999 /\ 1 <= Timestamp.month ts <= 12
  /\ 1 <= Timestamp.day ts <= 31 /\ 0 <= Timestamp.hour ts <= 23
  /\ 0 <= Timestamp.minute ts <= 59 /\ 0 <= Timestamp.second ts <= 59
  /\ Timestamp.allDigits (Timestamp.fraction ts) = true
  /\ (String.length (Timestamp.fraction ts) <= 6)%nat.
Proof. unfold Timestamp.valid. rewrite !andb_true_iff, !Z.leb_le, Nat.leb_le. tauto. Qed.

Lemma append_String (c : ascii) (s t : string) :
  String.append (String c s) t = String c (String.append s t).
Proof. reflexivity. Qed.

Lemma append_Empty (t : string) : String.append EmptyString t = t.
Proof. reflexivity. Qed.

Lemma substring_0_0 (s : string) : String.substring 0 0 s = EmptyString.
Proof. by destruct s. Qed.

Lemma parseDay_chars (c0 c1 c2 c3 c5 c6 c8 c9 : ascii) (v0 v1 v2 v3 v5 v6 v8 v9 : Z)
    (rest : string) :
  JsDate.digitVal c0 = Some v0 -> JsDate.digitVal c1 = Some v1 ->
  JsDate.digitVal c2 = Some v2 -> JsDate.digitVal c3 = Some v3 ->
  JsDate.digitVal c5 = Some v5 -> JsDate.digitVal c6 = Some v6 ->
  JsDate.digitVal c8 = Some v8 -> JsDate.digitVal c9 = Some v9 ->
  JsDate.parseDay
    (String c0 (String c1 (String c2 (String c3 (String "-" (String c5 (String c6
       (String "-" (String c8 (String c9 rest))))))))))
  = (let y := 10 * (10 * (10 * (10 * 0 + v0) + v1) + v2) + v3 in
     let m := 10 * (10 * 0 + v5) + v6 in
     let d := 10 * (10 * 0 + v8) + v9 in
     if (1 <=? m) && (m <=? 12) && (1 <=? d) && (d <=? 31)
     then Some (JsDate.daysFromCivil y m 1 + d - 1) else None).
Proof.
  intros E0 E1 E2 E3 E5 E6 E8 E9.
  unfold JsDate.parseDay, JsDate.field, JsDate.charAt.
  cbn [String.substring String.length Nat.eqb String.get JsDate.number].
  rewrite substring_0_0.
  cbn [String.substring String.length Nat.eqb String.get JsDate.number].
  rewrite E0, E1, E2, E3, E5, E6, E8, E9. reflexivity.
Qed.

Lemma parseDay_print (ts : Timestamp.t) :
  Timestamp.valid ts = true ->
  JsDate.parseDay (Timestamp.print ts) = Some (Timestamp.dayNumber ts).
Proof.
  intros (Hy & Hm & Hd & _)%valid_ranges.
  destruct ts as [y m d h mi sec frac].
  cbn [Timestamp.year Timestamp.month Timestamp.day] in Hy, Hm, Hd.
  unfold Timestamp.print, Timestamp.dayNumber.
  cbn [Timestamp.year Timestamp.month Timestamp.day Timestamp.hour Timestamp.minute
       Timestamp.second Timestamp.fraction].
  rewrite pad4_eq, !pad2_eq, !append_String, !append_Empty.
  erewrite parseDay_chars; try (apply digitVal_digitChar; Z.div_mod_to_equations; lia).
  cbv zeta.
  replace (10 * (10 * 0 + m / 10 mod 10) + m mod 10) with m
    by (Z.div_mod_to_equations; lia).
  replace (10 * (10 * 0 + d / 10 mod 10) + d mod 10) with d
    by (Z.div_mod_to_equations; lia).
  replace (10 * (10 * (10 * (10 * 0 + y / 10 / 10 / 10 mod 10) + y / 10 / 10 mod 10)
                 + y / 10 mod 10) + y mod 10) with y
    by (Z.div_mod_to_equations; lia).
  destruct (Z.leb_spec 1 m); [|lia]. destruct (Z.leb_spec m 12); [|lia].
  destruct (Z.leb_spec 1 d); [|lia]. destruct (Z.leb_spec d 31); [|lia].
  reflexivity.
Qed.

Lemma parseSeconds_print (sec : Z) (frac : string) :
  0 <= sec <= 59 -> Timestamp.allDigits frac = true -> (String.length frac <= 6)%nat ->
  JsDate.parseSeconds
    (String ":" (String.append (JsDate.pad 2 sec)
                   (if Js.nonEmpty frac then String "." frac else EmptyString)))
  = Some (sec * 1000 + default 0 (JsDate.millis frac), EmptyString).
Proof.
  intros Hs Hf Hlen. rewrite pad2_eq, !append_String, append_Empty.
  unfold JsDate.parseSeconds.
  rewrite twoDigits_digits by (Z.div_mod_to_equations; lia).
  replace (10 * (sec / 10 mod 10) + sec mod 10) with sec by (Z.div_mod_to_equations; lia).
  destruct (Z.leb_spec sec 59); [|lia].
  destruct frac as [|c f].
  - change (default 0 (JsDate.millis EmptyString)) with 0. cbn [Js.nonEmpty].
    do 2 f_equal. lia.
  - replace (Js.nonEmpty (String c f)) with true by reflexivity.
    rewrite (digits_all _ Hf). cbn [fst snd].
    replace (Js.nonEmpty (String c f)) with true by reflexivity.
    replace (String.length (String c f) <=? 9)%nat with true
      by (symmetry; apply Nat.leb_le; lia).
    cbn [andb].
    destruct (millis_all _ Hf) as (v & -> & _). reflexivity.
Qed.

Lemma timeOfDay_range (ts : Timestamp.t) :
  Timestamp.valid ts = true -> 0 <= Timestamp.timeOfDay ts < JsDate.msPerDay.
Proof.
  intros (_ & _ & _ & Hh & Hmi & Hs & Hf & _)%valid_ranges.
  unfold Timestamp.timeOfDay, JsDate.msPerDay.
  destruct (millis_all _ Hf) as (v & -> & Hv). simpl. lia.
Qed.

(** The row date is read as it was printed: its date and time, and no time
    zone designator. *)
Lemma read_print (ts : Timestamp.t) :
  Timestamp.valid ts = true ->
  JsDate.read (Timestamp.print ts)
  = Some (JsDate.mkDateTime (Timestamp.dayNumber ts) (Timestamp.timeOfDay ts) None).
Proof.
  intros Hv. unfold JsDate.read. rewrite (parseDay_print ts Hv).
  pose proof (timeOfDay_range ts Hv) as Hms.
  destruct (valid_ranges ts Hv) as (_ & _ & _ & Hh & Hmi & Hs & Hf & Hlen).
  unfold Timestamp.timeOfDay in *. unfold Timestamp.print.
  destruct ts as [y m d h mi sec frac].
  cbn [Timestamp.year Timestamp.month Timestamp.day Timestamp.hour Timestamp.minute
       Timestamp.second Timestamp.fraction] in *.
  rewrite pad4_eq, (pad2_eq m), (pad2_eq d), (pad2_eq h), (pad2_eq mi).
  rewrite !append_String, !append_Empty. cbn [JsDate.drop].
  unfold JsDate.parseTime.
  rewrite !twoDigits_digits by (Z.div_mod_to_equations; lia).
  rewrite (parseSeconds_print sec frac Hs Hf Hlen).
  replace (10 * (h / 10 mod 10) + h mod 10) with h by (Z.div_mod_to_equations; lia).
  replace (10 * (mi / 10 mod 10) + mi mod 10) with mi by (Z.div_mod_to_equations; lia).
  cbv zeta.
  replace ((h * 60 + mi) * JsDate.msPerMinute + (sec * 1000 + default 0 (JsDate.millis frac)))
    with (((h * 60 + mi) * 60 + sec) * 1000 + default 0 (JsDate.millis frac))
    by (unfold JsDate.msPerMinute; lia).
  destruct (Z.leb_spec h 24); [|lia]. destruct (Z.leb_spec mi 59); [|lia].
  destruct (Z.leb_spec (((h * 60 + mi) * 60 + sec) * 1000 + default 0 (JsDate.millis frac))
              JsDate.msPerDay); [|lia].
  reflexivity.
Qed.

(** The date that [isoDate] prints is that of the day of the time value. *)
Lemma isoDate_day (t : Z) :
  JsDate.isoDate t = JsDate.isoDate (JsDate.day t * JsDate.msPerDay).
Proof.
  unfold JsDate.isoDate.
  replace (JsDate.day (JsDate.day t * JsDate.msPerDay)) with (JsDate.day t); [done|].
  unfold JsDate.day, JsDate.msPerDay. by rewrite Z.div_mul.
Qed.

(** The week key of a date-time without time zone designator: the local day
    goes back to its Sunday, the local time of the day stays, and the date
    printed is the UTC date of that local time. *)
Lemma weekKey_local (tz : Z) (date : string) (d ms : Z) :
  JsDate.read date = Some (JsDate.mkDateTime d ms None) -> 0 <= ms < JsDate.msPerDay ->
  weekKey tz date
  = Some (JsDate.isoDate
            ((d - (d + 4) mod 7) * JsDate.msPerDay + ms - tz * JsDate.msPerMinute)).
Proof.
  intros R Hms.
  rewrite (weekKey_parsed tz date (JsDate.utc tz (d * JsDate.msPerDay + ms)))
    by (unfold JsDate.parse; by rewrite R).
  do 2 f_equal.
  unfold JsDate.getDay, JsDate.weekDay, JsDate.day, JsDate.localTime, JsDate.utc,
    JsDate.msPerDay, JsDate.msPerMinute in *.
  replace ((d * 86400000 + ms - tz * 60000 + tz * 60000) / 86400000) with d
    by (Z.div_mod_to_equations; lia).
  lia.
Qed.

Lemma isoDate_shift (day t : Z) :
  day * JsDate.msPerDay <= t < (day + 1) * JsDate.msPerDay ->
  JsDate.isoDate t = JsDate.isoDate (day * JsDate.msPerDay).
Proof.
  intros H. rewrite (isoDate_day t). do 2 f_equal.
  unfold JsDate.day, JsDate.msPerDay in *. Z.div_mod_to_equations; lia.
Qed.

(** C8 fails.  The date of a row is a date and time without time zone
    designator, which [new Date] reads as a time of the host.  The week key
    is the UTC date of the local time of the row moved back to the local
    Sunday.  It is the Sunday of the week of the row only when that local
    time is on the same date in UTC.  In a host east of UTC a row of the
    first hours of a day, and so every row that holds a day only, by its
    midnight, is in the bucket of the Saturday before that Sunday; in a
    host west of UTC a row of the last hours of a day is in the bucket of
    the Monday after it. *)
Theorem C8_week_bucket_of_a_row_leaves_the_week_of_the_row
    (tz : Z) (ts : Timestamp.t) :
  Timestamp.valid ts = true -> -1440 < tz < 1440 ->
  let date := Timestamp.print ts in
  let sunday := Timestamp.dayNumber ts - (Timestamp.dayNumber ts + 4) mod 7 in
  let shift := Timestamp.timeOfDay ts - tz * JsDate.msPerMinute in
  sundayOfWeek date = Some (JsDate.isoDate (sunday * JsDate.msPerDay))
  /\ JsDate.weekDay (sunday * JsDate.msPerDay) = 0
  /\ (0 <= shift < JsDate.msPerDay -> weekKey tz date = sundayOfWeek date)
  /\ (shift < 0 ->
      weekKey tz date = Some (JsDate.isoDate ((sunday - 1) * JsDate.msPerDay))
      /\ JsDate.weekDay ((sunday - 1) * JsDate.msPerDay) = 6)
  /\ (JsDate.msPerDay <= shift ->
      weekKey tz date = Some (JsDate.isoDate ((sunday + 1) * JsDate.msPerDay))
      /\ JsDate.weekDay ((sunday + 1) * JsDate.msPerDay) = 1).
Proof.
  intros Hv Htz. cbv zeta.
  pose proof (timeOfDay_range ts Hv) as Hms.
  rewrite (weekKey_local tz _ _ _ (read_print ts Hv) Hms).
  unfold sundayOfWeek. rewrite (parseDay_print ts Hv).
  set (d := Timestamp.dayNumber ts) in *. set (ms := Timestamp.timeOfDay ts) in *.
  clearbody d ms.
  assert (forall k, JsDate.weekDay (k * JsDate.msPerDay) = (k + 4) mod 7) as W.
  { intros k. unfold JsDate.weekDay, JsDate.day, JsDate.msPerDay. by rewrite Z.div_mul. }
  rewrite !W.
  split; [done|]. split; [Z.div_mod_to_equations; lia|].
  split; [|split].
  - intros H. f_equal. apply isoDate_shift.
    unfold JsDate.msPerDay, JsDate.msPerMinute in *. lia.
  - intros H. split; [|Z.div_mod_to_equations; lia].
    f_equal. apply isoDate_shift.
    unfold JsDate.msPerDay, JsDate.msPerMinute in *. lia.
  - intros H. split; [|Z.div_mod_to_equations; lia].
    f_equal. apply isoDate_shift.
    unfold JsDate.msPerDay, JsDate.msPerMinute in *. lia.
Qed.

Lemma C8_witness :
  weekKey SampleReport.centralEuropean "2024-03-06T00:00:00" = Some "2024-03-02"%string
  /\ sundayOfWeek "2024-03-06T00:00:00" = Some "2024-03-03"%string
  /\ weekKey SampleReport.eastern "2024-03-06T21:30:00" = Some "2024-03-04"%string.
Proof.
  destruct (C8_week_bucket_of_a_row_leaves_the_week_of_the_row
              SampleReport.centralEuropean SampleReport.midnight eq_refl)
    as (Hsun & _ & _ & Hsat & _); [unfold SampleReport.centralEuropean; lia|].
  destruct (C8_week_bucket_of_a_row_leaves_the_week_of_the_row
              SampleReport.eastern SampleReport.evening eq_refl)
    as (_ & _ & _ & _ & Hmon); [unfold SampleReport.eastern; lia|].
  split; [|split].
  - exact (proj1 (Hsat eq_refl)).
  - exact Hsun.
  - exact (proj1 (Hmon ltac:(vm_compute; discriminate))).
Defined.

(** The report over the row of the e-mail of Wednesday 2024-03-06 in a host
    on Central European Time, and over the row of the evening call in a host
    on US Eastern Standard Time; in a host on UTC both rows are in the
    bucket of Sunday 2024-03-03. *)
Example week_bucket_is_saturday_east_of_utc :
  byWeek SampleReport.centralEuropean [SampleReport.wednesdayEmail]
  = Some {[ "2024-03-02"%string := Counters.mk 0 1 0 0 ]}
  /\ byWeek SampleReport.eastern [SampleReport.wednesdayCall]
     = Some {[ "2024-03-04"%string := Counters.mk 1 0 1 0 ]}
  /\ byWeek 0 [SampleReport.wednesdayEmail; SampleReport.wednesdayCall]
     = Some {[ "2024-03-03"%string := Counters.mk 1 1 1 0 ]}
  /\ weekKey SampleReport.eastern "2024-03-06T00:00:00" = Some "2024-03-03"%string.
Proof. repeat split; vm_compute; reflexivity. Qed.

(** Scenario 3 of the specification, in a host on UTC. *)
Example week_of_two_activities_utc :
  byWeek 0 [Activity.mk "call" 1 0 "2024-03-05T00:00:00";
            Activity.mk "email" 0 0 "2024-03-07T00:00:00"]
  = Some {[ "2024-03-03"%string := Counters.mk 1 1 1 0 ]}.
Proof. vm_compute. reflexivity. Qed.

(** The forms of the date-time format that the rows do not have: a
    fraction of any length, a time zone designator, a time without
    seconds. *)
Example parse_forms :
  JsDate.parse 60 "2024-03-06T10:15:30.123456" = Some (19788 * 86400000 + 33330123)
  /\ JsDate.parse 60 "2024-03-06T10:15:30.5Z" = Some (19788 * 86400000 + 36930500)
  /\ JsDate.parse 60 "2024-03-06T10:15:30+05:30" = Some (19788 * 86400000 + 17130000)
  /\ JsDate.parse 60 "2024-03-06T10:15" = Some (19788 * 86400000 + 33300000)
  /\ JsDate.parse 60 "2024-03-06T24:00:00Z" = Some (19789 * 86400000).
Proof. repeat split; vm_compute; reflexivity. Qed.

(** * Further properties of the handlers *)

(** ** The search for a best match *)

Section Best.
Context {A B : Type} (score : A -> Z) (skip : A -> bool) (tag : A -> B).

(** The fold keeps the start value when no element beats it, and otherwise
    ends on the first element with the highest score. *)
Lemma best_fold (l : list A) (o : option B) (b : Z) :
  (fold_left (bestStep score skip tag) l (o, b) = (o, b)
   /\ forall x, In x l -> skip x = false -> score x <= b)
  \/ exists l1 x l2,
       l = l1 ++ x :: l2 /\ skip x = false /\ b < score x
       /\ fold_left (bestStep score skip tag) l (o, b) = (Some (tag x), score x)
       /\ (forall y, In y l1 -> skip y = false -> score y < score x)
       /\ (forall y, In y l2 -> skip y = false -> score y <= score x).
Proof.
  revert o b. induction l as [|a l IH]; intros o b; simpl.
  - left. split; [done|]. intros x [].
  - unfold bestStep at 2 4. simpl. destruct (skip a) eqn:Ha.
    + destruct (IH o b) as [[E Hle]|(l1 & x & l2 & -> & Hx & Hb & E & H1 & H2)].
      * left. split; [done|]. intros x [<-|Hin] Hs; [congruence|by apply Hle].
      * right. exists (a :: l1), x, l2.
        split; [done|]. split; [done|]. split; [done|]. split; [done|]. split; [|done].
        intros y [<-|Hin] Hs; [congruence|by apply H1].
    + destruct (Z.ltb_spec b (score a)) as [Hlt|Hge].
      * destruct (IH (Some (tag a)) (score a))
          as [[E Hle]|(l1 & x & l2 & -> & Hx & Hb & E & H1 & H2)].
        -- right. exists [], a, l.
           split; [done|]. split; [done|]. split; [done|]. split; [done|].
           split; [intros y []|done].
        -- right. exists (a :: l1), x, l2.
           split; [done|]. split; [done|]. split; [lia|]. split; [done|]. split; [|done].
           intros y [<-|Hin] Hs; [done|by apply H1].
      * destruct (IH o b) as [[E Hle]|(l1 & x & l2 & -> & Hx & Hb & E & H1 & H2)].
        -- left. split; [done|]. intros x [<-|Hin] Hs; [done|by apply Hle].
        -- right. exists (a :: l1), x, l2.
           split; [done|]. split; [done|]. split; [done|]. split; [done|]. split; [|done].
           intros y [<-|Hin] Hs; [lia|by apply H1].
Qed.
End Best.

Lemma fold_left_ext {A B : Type} (f g : A -> B -> A) (l : list B) (a : A) :
  (forall a b, f a b = g a b) -> fold_left f l a = fold_left g l a.
Proof. intros E. revert a. induction l as [|b l IH]; intros a; simpl; [done|]. by rewrite E. Qed.

Lemma bulk_fold_is_best (ic : InvoiceCustomer.t) (l : list Company.t) (acc : option Match.t * Z) :
  fold_left (bulkStep ic) l acc =
  fold_left (bestStep (bulkScoreOf ic) (fun c => negb (unlinked c))
               (fun c => Match.mk (Company.id c) (Company.name c))) l acc.
Proof.
  apply fold_left_ext. intros a c. unfold bulkStep, bestStep, unlinked.
  by rewrite negb_involutive.
Qed.

Lemma match_fold_is_best (company : Company.t) (l : list (string * Customer.t))
    (acc : option string * Z) :
  fold_left (matchStep company) l acc =
  fold_left (bestStep (fun doc => matchScoreOf company doc.2) (fun _ => false) fst) l acc.
Proof. by apply fold_left_ext. Qed.

(** The values a score can take. *)
Lemma bulkScoreOf_values (ic : InvoiceCustomer.t) (c : Company.t) :
  bulkScoreOf ic c = 0 \/ 70 <= bulkScoreOf ic c <= 100.
Proof.
  rewrite bulkScoreOf_first_rule. unfold Rules.firstNameRule, Rules.points.
  destruct (Rules.exact ic c), (Rules.substring ic c), (Rules.contact ic c),
    (Rules.soleProprietor ic c), (Rules.phone ic c); simpl; lia.
Qed.

Lemma matchScoreOf_values (company : Company.t) (data : Customer.t) :
  matchScoreOf company data = 0 \/ 70 <= matchScoreOf company data <= 100.
Proof.
  rewrite (matchScoreOf_chain EmptyString). cbv zeta.
  repeat case_match; lia.
Qed.

(** ** More on the bulk reconciliation *)

Lemma resultFor_invoiceCustomer (companies : list Company.t) (ic : InvoiceCustomer.t) :
  Result.invoiceCustomer (resultFor companies ic) = ic.
Proof.
  destruct (resultFor_cases companies ic) as [(lc & _ & _ & _ & ->)|(_ & E & _)]; done.
Qed.

(** X1.  The bulk reconciliation answers with exactly one row for each
    customer document: the customers of the rows are the customers of the
    invoicing store, in some order. *)
Theorem X1_bulk_one_row_per_customer
    (companies : list Company.t) (customers : list (string * Customer.t)) :
  List.map Result.invoiceCustomer (bulkResults companies customers)
    ≡ₚ List.map toInvoiceCustomer customers.
Proof.
  change (List.map Result.invoiceCustomer (bulkResults companies customers))
    with (Result.invoiceCustomer <$> bulkResults companies customers).
  rewrite bulkResults_perm.
  change (Result.invoiceCustomer
            <$> List.map (resultFor companies) (List.map toInvoiceCustomer customers))
    with (List.map Result.invoiceCustomer
            (List.map (resultFor companies) (List.map toInvoiceCustomer customers))).
  rewrite List.map_map.
  erewrite List.map_ext; [by rewrite List.map_id|].
  intros ic. apply resultFor_invoiceCustomer.
Qed.

(** The row of a customer that no company links to. *)
Lemma resultFor_search (companies : list Company.t) (ic : InvoiceCustomer.t) :
  List.find (linksTo ic) companies = None ->
  (resultFor companies ic = Result.mk ic None 0 unmatched
   /\ forall c, In c companies -> unlinked c = true -> bulkScoreOf ic c <= 0)
  \/ exists l1 c l2,
       companies = l1 ++ c :: l2 /\ unlinked c = true /\ 70 <= bulkScoreOf ic c <= 100
       /\ resultFor companies ic
          = Result.mk ic (Some (Match.mk (Company.id c) (Company.name c)))
              (bulkScoreOf ic c) suggested
       /\ (forall c', In c' l1 -> unlinked c' = true -> bulkScoreOf ic c' < bulkScoreOf ic c)
       /\ (forall c', In c' l2 -> unlinked c' = true -> bulkScoreOf ic c' <= bulkScoreOf ic c).
Proof.
  intros F. unfold resultFor. rewrite F, bulk_fold_is_best.
  destruct (best_fold (bulkScoreOf ic) (fun c => negb (unlinked c))
              (fun c => Match.mk (Company.id c) (Company.name c)) companies None 0)
    as [[-> Hle]|(l1 & c & l2 & E & Hc & Hpos & -> & H1 & H2)].
  - left. split; [done|]. intros c Hin Hu. apply Hle; [done|]. by rewrite Hu.
  - right. exists l1, c, l2.
    assert (70 <= bulkScoreOf ic c <= 100) as Hv
      by (destruct (bulkScoreOf_values ic c); lia).
    split; [done|]. split; [by destruct (unlinked c)|]. split; [done|].
    split.
    + destruct (Z.leb_spec 70 (bulkScoreOf ic c)); [done|lia].
    + split; intros c' Hin Hu; [apply H1|apply H2]; try done; by rewrite Hu.
Qed.

(** X2.  A row of the bulk reconciliation has one of three shapes: an
    "unmatched" row has score 0 and no candidate; a "suggested" row has a
    candidate and a score from 70 to 100; a "linked" row has score 100 and
    names a company. *)
Theorem X2_bulk_row_shapes
    (companies : list Company.t) (customers : list (string * Customer.t)) (r : Result.t) :
  In r (bulkResults companies customers) ->
  match Result.status r with
  | unmatched => Result.score r = 0 /\ Result.match_ r = None
  | suggested => 70 <= Result.score r <= 100 /\ exists m, Result.match_ r = Some m
  | linked => Result.score r = 100 /\ exists m, Result.match_ r = Some m
  end.
Proof.
  intros Hr. apply bulkResults_In in Hr as (doc & _ & ->).
  destruct (List.find (linksTo (toInvoiceCustomer doc)) companies) as [lc|] eqn:F.
  - unfold resultFor. rewrite F. simpl. eauto.
  - destruct (resultFor_search companies _ F)
      as [[-> _]|(l1 & c & l2 & _ & _ & Hv & -> & _)]; simpl; eauto.
Qed.

Lemma X2_witness :
  Forall (fun r =>
            match Result.status r with
            | unmatched => Result.score r = 0 /\ Result.match_ r = None
            | suggested => 70 <= Result.score r <= 100 /\ exists m, Result.match_ r = Some m
            | linked => Result.score r = 100 /\ exists m, Result.match_ r = Some m
            end)
         (bulkResults SampleBulk.companies SampleBulk.customers).
Proof.
  apply Forall_forall. intros r Hr.
  apply (X2_bulk_row_shapes SampleBulk.companies SampleBulk.customers r).
  by apply list_elem_of_In.
Defined.

(** X3.  The candidate of a row that is not "linked" is the first unlinked
    company of the table with the highest score against the customer of the
    row: no unlinked company scores higher than the row, and the unlinked
    companies before the candidate score strictly lower. *)
Theorem X3_bulk_candidate_is_first_best
    (companies : list Company.t) (customers : list (string * Customer.t)) (r : Result.t) :
  In r (bulkResults companies customers) ->
  Result.status r <> linked ->
  let ic := Result.invoiceCustomer r in
  (forall c, In c companies -> unlinked c = true -> bulkScoreOf ic c <= Result.score r)
  /\ (forall m, Result.match_ r = Some m ->
      exists l1 c l2,
        companies = l1 ++ c :: l2 /\ unlinked c = true
        /\ m = Match.mk (Company.id c) (Company.name c)
        /\ bulkScoreOf ic c = Result.score r
        /\ forall c', In c' l1 -> unlinked c' = true -> bulkScoreOf ic c' < Result.score r).
Proof.
  intros Hr Hst. apply bulkResults_In in Hr as (doc & _ & ->).
  cbv zeta. rewrite resultFor_invoiceCustomer.
  destruct (List.find (linksTo (toInvoiceCustomer doc)) companies) as [lc|] eqn:F.
  { exfalso. apply Hst. unfold resultFor. by rewrite F. }
  destruct (resultFor_search companies _ F)
    as [[-> Hle]|(l1 & c & l2 & E & Hu & Hv & -> & H1 & H2)]; simpl.
  - split; [done|]. intros m [=].
  - split.
    + intros c' Hin Hu'. rewrite E in Hin. apply in_app_or in Hin as [Hin|[<-|Hin]].
      * specialize (H1 c' Hin Hu'). lia.
      * lia.
      * by apply H2.
    + intros m [= <-]. exists l1, c, l2. done.
Qed.

Lemma X3_witness :
  exists r, bulkResults SampleBulk.companies SampleBulk.customers !! 0%nat = Some r
    /\ forall c, In c SampleBulk.companies -> unlinked c = true ->
                 bulkScoreOf (Result.invoiceCustomer r) c <= Result.score r.
Proof.
  eexists. split; [reflexivity|].
  apply (X3_bulk_candidate_is_first_best SampleBulk.companies SampleBulk.customers).
  - simpl. tauto.
  - discriminate.
Defined.

(** ** More on the single-company match *)

Lemma matchCompany_search (fs : Firestore.t) (id : string) (s : Store) (company : Company.t) :
  Supabase.hasCompany s id company -> noLiveLink fs company ->
  run (matchCompany (Some fs) id) s = (searchAnswer company (Firestore.customers fs), s).
Proof.
  intros Hs Hl. unfold matchCompany, run, mbind, M_bind, Supabase.selectCompany, searchAnswer.
  unfold Supabase.hasCompany in Hs. rewrite Hs.
  destruct (bestCustomer company (Firestore.customers fs)) as [[cid|] sc].
  - destruct Hl as [->| ->].
    + by destruct (sc <? 60).
    + destruct (Js.truthy _); by destruct (sc <? 60).
  - destruct Hl as [->| ->]; [done|]. by destruct (Js.truthy _).
Qed.

(** X4.  For a company without a live link the single-company match
    answers "not matched" exactly when every customer scores 0.  Otherwise
    it answers with the first customer of the highest score, and that score
    is at least 70: the threshold of 60 rejects no customer that scores at
    all.  The table is left as it is. *)
Theorem X4_match_answers_first_best_customer
    (fs : Firestore.t) (id : string) (s : Store) (company : Company.t) :
  Supabase.hasCompany s id company -> noLiveLink fs company ->
  let customers := Firestore.customers fs in
  let answer := run (matchCompany (Some fs) id) s in
  answer.2 = s
  /\ ((forall doc, In doc customers -> matchScoreOf company doc.2 = 0)
      /\ answer.1 = json (NotMatched (Company.name company))
      \/ exists l1 doc l2,
           customers = l1 ++ doc :: l2
           /\ 70 <= matchScoreOf company doc.2 <= 100
           /\ answer.1 = json (Matched (matchScoreOf company doc.2) doc.1 false)
           /\ (forall d, In d l1 -> matchScoreOf company d.2 < matchScoreOf company doc.2)
           /\ (forall d, In d l2 -> matchScoreOf company d.2 <= matchScoreOf company doc.2)).
Proof.
  intros Hs Hl. cbv zeta. rewrite (matchCompany_search fs id s company Hs Hl).
  split; [done|]. cbn [fst snd]. unfold searchAnswer, bestCustomer.
  rewrite match_fold_is_best.
  destruct (best_fold (fun doc : string * Customer.t => matchScoreOf company doc.2)
              (fun _ => false) fst (Firestore.customers fs) None 0)
    as [[-> Hle]|(l1 & doc & l2 & E & _ & Hpos & -> & H1 & H2)].
  - left. split; [|done]. intros doc Hin. specialize (Hle doc Hin eq_refl). simpl in Hle.
    destruct (matchScoreOf_values company doc.2); lia.
  - right. exists l1, doc, l2. simpl in Hpos.
    assert (70 <= matchScoreOf company doc.2 <= 100) as Hv
      by (destruct (matchScoreOf_values company doc.2); lia).
    split; [done|]. split; [done|]. split.
    + destruct (Z.ltb_spec (matchScoreOf company doc.2) 60); [lia|done].
    + split; intros d Hin; [by apply H1|by apply H2].
Qed.

Lemma X4_witness :
  (run (matchCompany (Some SampleMore.store) "c2") SampleMore.table).2 = SampleMore.table
  /\ ((forall doc, In doc SampleMore.customers -> matchScoreOf Sample.acmeCompany doc.2 = 0)
      /\ (run (matchCompany (Some SampleMore.store) "c2") SampleMore.table).1
         = json (NotMatched (Company.name Sample.acmeCompany))
      \/ exists l1 doc l2,
           SampleMore.customers = l1 ++ doc :: l2
           /\ 70 <= matchScoreOf Sample.acmeCompany doc.2 <= 100
           /\ (run (matchCompany (Some SampleMore.store) "c2") SampleMore.table).1
              = json (Matched (matchScoreOf Sample.acmeCompany doc.2) doc.1 false)
           /\ (forall d, In d l1 ->
                 matchScoreOf Sample.acmeCompany d.2 < matchScoreOf Sample.acmeCompany doc.2)
           /\ (forall d, In d l2 ->
                 matchScoreOf Sample.acmeCompany d.2 <= matchScoreOf Sample.acmeCompany doc.2)).
Proof.
  apply (X4_match_answers_first_best_customer SampleMore.store "c2" SampleMore.table
           Sample.acmeCompany); [reflexivity|by left].
Defined.

Example match_sample :
  (run (matchCompany (Some SampleMore.store) "c2") SampleMore.table).1
  = json (Matched 100 "k3" false).
Proof. reflexivity. Qed.

(** X5.  After a link with a customer that the invoicing store has, the
    single-company match of the company answers with that customer, score
    100 and the linked flag, whatever the names and phones are. *)
Theorem X5_match_after_link_is_linked
    (fs : Firestore.t) (now cid icid : string) (s : Store) (company : Company.t)
    (d : Customer.t) :
  Js.nonEmpty cid = true -> Js.nonEmpty icid = true -> Supabase.hasCompany s cid company ->
  Firestore.getCustomer fs icid = Some d ->
  (run (matchCompany (Some fs) cid)
     (run (link (Some fs) now (Some cid) (Some icid)) s).2).1
  = json (Matched 100 icid true).
Proof.
  intros Hc Hi Hs Hd.
  rewrite (link_run (Some fs) now cid icid s company Hc Hi Hs). cbn [snd].
  pose proof (updateRows_hasCompany s cid
                (applyUpdates (buildUpdates (Some fs) now company icid)) company
                (fun _ => eq_refl) Hs) as Hs1.
  unfold matchCompany, run, mbind, M_bind, Supabase.selectCompany.
  unfold Supabase.hasCompany in Hs1. rewrite Hs1.
  cbn [applyUpdates Company.invoice_customer_id].
  rewrite buildUpdates_Some. cbn [Updates.invoice_customer_id].
  rewrite (nonEmpty_truthy _ Hi), orEmpty_Some, Hd. reflexivity.
Qed.

Lemma X5_witness :
  (run (matchCompany (Some SampleLink.store) "c6")
     (run (link (Some SampleLink.store) SampleLink.now (Some "c6") (Some "k5"))
        [SampleLink.bare]).2).1
  = json (Matched 100 "k5" true).
Proof.
  apply (X5_match_after_link_is_linked SampleLink.store SampleLink.now "c6" "k5"
           [SampleLink.bare] SampleLink.bare SampleLink.doverCustomer); reflexivity.
Defined.

(** ** More on the link *)

(** X6.  A link without a company id or without a customer id answers 400,
    and a link of a company id that the table does not have exactly once
    answers 500; neither writes anything. *)
Theorem X6_link_rejects_without_writing
    (firestore : option Firestore.t) (now : string)
    (companyId invoiceCustomerId : option string) (s : Store) :
  (Js.truthy companyId = false \/ Js.truthy invoiceCustomerId = false ->
   run (link firestore now companyId invoiceCustomerId) s
   = (mkResponse 400 (Error "companyId and invoiceCustomerId required"), s))
  /\ (Js.truthy companyId = true -> Js.truthy invoiceCustomerId = true ->
      (forall c, ~ Supabase.hasCompany s (Js.orEmpty companyId) c) ->
      run (link firestore now companyId invoiceCustomerId) s
      = (mkResponse 500 (Error Supabase.singleError), s)).
Proof.
  split.
  - intros H. unfold link, run.
    replace (negb (Js.truthy companyId) || negb (Js.truthy invoiceCustomerId)) with true;
      [done|]. by destruct H as [-> | ->]; rewrite ?orb_true_r.
  - intros Hc Hi Hno. unfold link, run. rewrite Hc, Hi. simpl.
    unfold mbind, M_bind, Supabase.selectCompany, Supabase.hasCompany in *.
    destruct (List.filter _ s) as [|c [|c' l]]; [done| |done].
    exfalso. by apply (Hno c).
Qed.

Lemma X6_witness :
  run (link (Some SampleLink.store) SampleLink.now (Some "c404") (Some "k5"))
    [SampleLink.bare]
  = (mkResponse 500 (Error Supabase.singleError), [SampleLink.bare]).
Proof.
  apply (proj2 (X6_link_rejects_without_writing (Some SampleLink.store) SampleLink.now
                  (Some "c404"%string) (Some "k5"%string) [SampleLink.bare]));
    [reflexivity | reflexivity |].
  intros c H. discriminate H.
Defined.

Lemma updateRows_others (cid : string) (f : Company.t -> Company.t) (s : Store) :
  (forall c, Company.id (f c) = Company.id c) ->
  List.filter (fun c => negb (String.eqb (Company.id c) cid)) (Supabase.updateRows cid f s)
  = List.filter (fun c => negb (String.eqb (Company.id c) cid)) s.
Proof.
  intros Hid. unfold Supabase.updateRows. induction s as [|c s IH]; simpl; [done|].
  destruct (String.eqb (Company.id c) cid) eqn:E; simpl.
  - by rewrite Hid, E.
  - by rewrite E, IH.
Qed.

(** X7.  A link changes the row of its company and no other: the rows of
    the other companies are the same rows in the same order, the table
    keeps its length, and the row of the company carries the new customer
    id, whatever customer id it had before. *)
Theorem X7_link_writes_one_row
    (firestore : option Firestore.t) (now cid icid : string)
    (s : Store) (company : Company.t) :
  Js.nonEmpty cid = true -> Js.nonEmpty icid = true -> Supabase.hasCompany s cid company ->
  let s' := (run (link firestore now (Some cid) (Some icid)) s).2 in
  List.filter (fun c => negb (String.eqb (Company.id c) cid)) s'
  = List.filter (fun c => negb (String.eqb (Company.id c) cid)) s
  /\ List.length s' = List.length s
  /\ List.map Company.id s' = List.map Company.id s
  /\ exists row, Supabase.hasCompany s' cid row
                 /\ Company.invoice_customer_id row = Some icid
                 /\ Company.name row = Company.name company.
Proof.
  intros Hc Hi Hs. cbv zeta.
  rewrite (link_run firestore now cid icid s company Hc Hi Hs). cbn [snd].
  split; [by apply updateRows_others|]. split; [apply List.length_map|]. split.
  - unfold Supabase.updateRows. rewrite List.map_map. apply List.map_ext.
    intros c. by destruct (String.eqb (Company.id c) cid).
  - eexists. split; [by apply updateRows_hasCompany|].
    split; [|done]. cbn [applyUpdates Company.invoice_customer_id].
    destruct firestore; [by rewrite buildUpdates_Some|done].
Qed.

Lemma X7_witness :
  List.length
    (run (link (Some SampleLink.store) SampleLink.now (Some "c6") (Some "k5"))
       [SampleLink.mainStreet; SampleLink.bare]).2 = 2%nat.
Proof.
  destruct (X7_link_writes_one_row (Some SampleLink.store) SampleLink.now "c6" "k5"
              [SampleLink.mainStreet; SampleLink.bare] SampleLink.bare
              eq_refl eq_refl eq_refl) as (_ & H & _).
  exact H.
Defined.

(** X8.  The type of a company only moves towards "Customer": the link
    sets it to "Customer" when the invoicing store has an invoice of the
    customer, and leaves it as it is otherwise; so a company of type
    "Customer" keeps its type through every link. *)
Theorem X8_link_type_moves_to_customer_only
    (firestore : option Firestore.t) (now : string) (company : Company.t) (icid : string) :
  let row := linkedRow firestore now company icid in
  (forall fs, firestore = Some fs -> Sync.invSnap fs icid <> [] ->
              Company.type row = Some "Customer"%string)
  /\ ((firestore = None \/ exists fs, firestore = Some fs /\ Sync.invSnap fs icid = []) ->
      Company.type row = Company.type company)
  /\ (Company.type company = Some "Customer"%string ->
      Company.type row = Some "Customer"%string).
Proof.
  unfold linkedRow. destruct firestore as [fs|]; cbv zeta.
  - rewrite buildUpdates_Some. cbn [applyUpdates Company.type Updates.type].
    unfold Sync.type, notCustomer.
    destruct (Sync.invSnap fs icid) as [|doc docs] eqn:E; simpl.
    + split; [intros fs' [= <-]; by rewrite E|]. done.
    + split; [|split].
      * intros _ _ _. case_bool_decide as Hty; simpl; [by rewrite Hty|done].
      * intros [[=]|(fs' & [= <-] & E')]. by rewrite E in E'.
      * intros ->. by rewrite bool_decide_eq_true_2.
  - simpl. split; [intros fs [=]|done].
Qed.

Lemma X8_witness :
  Company.type (linkedRow (Some SampleLink.store) SampleLink.now SampleLink.bare "k5")
  = Some "Customer"%string.
Proof.
  refine (proj1 (X8_link_type_moves_to_customer_only (Some SampleLink.store) SampleLink.now
                   SampleLink.bare "k5"%string) SampleLink.store eq_refl _).
  discriminate.
Defined.

(** ** The latest date *)

Lemma ltb_leb (a b : string) : String.ltb a b = true -> String.leb a b = true.
Proof. unfold String.ltb, String.leb. by destruct (String.compare a b). Qed.

Lemma not_ltb_leb (a b : string) : String.ltb a b = false -> String.leb b a = true.
Proof.
  unfold String.ltb, String.leb. rewrite (String.compare_antisym a b).
  by destruct (String.compare b a).
Qed.

Lemma leb_trans (a b c : string) :
  String.leb a b = true -> String.leb b c = true -> String.leb a c = true.
Proof.
  intros H1 H2. apply Is_true_true_1. change (String.le a c).
  transitivity b; unfold String.le; by apply Is_true_true_2.
Qed.

Lemma leb_refl (a : string) : String.leb a a = true.
Proof. by destruct (String.leb_total a a). Qed.

(** One round of the search for the latest date. *)
Lemma latestStep_spec (latest : option string) (doc : Doc.t) :
  latest = None \/ Js.truthy latest = true ->
  let l' := latestStep latest doc in
  (l' = None \/ Js.truthy l' = true)
  /\ (l' = latest \/ l' = Doc.date doc)
  /\ (Js.truthy latest = true ->
      Js.truthy l' = true /\ String.leb (Js.orEmpty latest) (Js.orEmpty l') = true)
  /\ (Js.truthy (Doc.date doc) = true ->
      Js.truthy l' = true /\ String.leb (Js.orEmpty (Doc.date doc)) (Js.orEmpty l') = true).
Proof.
  intros Hl. unfold latestStep, Js.gtb. cbv zeta.
  destruct (Js.truthy (Doc.date doc)) eqn:Hd; simpl.
  - destruct (Js.truthy latest) eqn:Ht; simpl.
    + destruct (String.ltb (Js.orEmpty latest) (Js.orEmpty (Doc.date doc))) eqn:Hgt.
      * split; [by right|]. split; [by right|].
        split; [intros _; split; [done|by apply ltb_leb]|].
        intros _. split; [done|apply leb_refl].
      * split; [by right|]. split; [by left|].
        split; [intros _; split; [done|apply leb_refl]|].
        intros _. split; [done|by apply not_ltb_leb].
    + split; [by right|]. split; [by right|]. split; [done|].
      intros _. split; [done|apply leb_refl].
  - split; [done|]. split; [by left|]. split; [|done].
    intros Ht. split; [done|apply leb_refl].
Qed.

(** The date the fold ends on, from a start value that is absent or
    truthy. *)
Lemma latest_fold (docs : list Doc.t) (latest : option string) :
  latest = None \/ Js.truthy latest = true ->
  (fold_left latestStep docs latest = None
   \/ Js.truthy (fold_left latestStep docs latest) = true)
  /\ (fold_left latestStep docs latest = latest
      \/ exists doc, In doc docs /\ Doc.date doc = fold_left latestStep docs latest)
  /\ (Js.truthy latest = true ->
      Js.truthy (fold_left latestStep docs latest) = true
      /\ String.leb (Js.orEmpty latest)
           (Js.orEmpty (fold_left latestStep docs latest)) = true)
  /\ (forall doc, In doc docs -> Js.truthy (Doc.date doc) = true ->
      Js.truthy (fold_left latestStep docs latest) = true
      /\ String.leb (Js.orEmpty (Doc.date doc))
           (Js.orEmpty (fold_left latestStep docs latest)) = true).
Proof.
  revert latest. induction docs as [|doc docs IH]; intros latest Hl; simpl.
  - split; [done|]. split; [by left|]. split; [intros Ht; split; [done|apply leb_refl]|].
    intros doc [].
  - destruct (latestStep_spec latest doc Hl) as (S1 & S2 & S3 & S4).
    destruct (IH (latestStep latest doc) S1) as (I1 & I2 & I3 & I4).
    split; [done|]. split; [|split].
    + destruct I2 as [E|(d & Hin & E)]; [|right; exists d; auto].
      rewrite E. destruct S2 as [->| ->]; [by left|right; exists doc; auto].
    + intros Ht. destruct (S3 Ht) as [Ht' Hle]. destruct (I3 Ht') as [Hr Hle'].
      split; [done|]. by apply (leb_trans _ (Js.orEmpty (latestStep latest doc))).
    + intros d [<-|Hin] Hdt; [|by apply I4].
      destruct (S4 Hdt) as [Ht' Hle]. destruct (I3 Ht') as [Hr Hle'].
      split; [done|]. by apply (leb_trans _ (Js.orEmpty (latestStep latest doc))).
Qed.

(** X9.  The latest date of a list of estimates or invoices is absent
    exactly when no document has a date; otherwise it is the date of one of
    the documents, it is not empty, and no document has a date that follows
    it in the order of strings. *)
Theorem X9_latestDate_is_the_greatest_date (docs : list Doc.t) :
  (latestDate docs = None <-> forall doc, In doc docs -> Js.truthy (Doc.date doc) = false)
  /\ (forall d, latestDate docs = Some d ->
      d <> EmptyString
      /\ (exists doc, In doc docs /\ Doc.date doc = Some d)
      /\ forall doc d', In doc docs -> Doc.date doc = Some d' -> d' <> EmptyString ->
                        String.leb d' d = true /\ Js.gtb d' d = false).
Proof.
  destruct (latest_fold docs None (or_introl eq_refl)) as (I1 & I2 & _ & I4).
  fold (latestDate docs) in *. split.
  - split.
    + intros E doc Hin. destruct (Js.truthy (Doc.date doc)) eqn:Hd; [|done].
      destruct (I4 doc Hin Hd) as [Ht _]. by rewrite E in Ht.
    + intros Hno. destruct I2 as [E|(doc & Hin & E)]; [done|].
      destruct I1 as [E'|Ht]; [done|]. rewrite <- E, (Hno doc Hin) in Ht. done.
  - intros d E. rewrite E in *. destruct I1 as [[=]|Ht].
    split; [by destruct d|]. split.
    { destruct I2 as [[=]|(doc & Hin & Hd)]; eauto. }
    intros doc d' Hin Hd' Hne.
    assert (Js.truthy (Doc.date doc) = true) as Hdt by (rewrite Hd'; by destruct d').
    destruct (I4 doc Hin Hdt) as [_ Hle]. rewrite Hd', !orEmpty_Some in Hle.
    split; [done|]. unfold Js.gtb.
    destruct (String.ltb d d') eqn:Hlt; [|done].
    pose proof (String.leb_antisym _ _ Hle (ltb_leb _ _ Hlt)) as ->.
    unfold String.ltb in Hlt.
    pose proof (String.compare_antisym d d) as Hc.
    by destruct (String.compare d d).
Qed.

Lemma X9_witness :
  latestDate SampleMore.estimates = Some "2024-03-02"%string
  /\ String.leb "2024-01-15" "2024-03-02" = true.
Proof.
  split; [reflexivity|].
  refine (proj1 (proj2 (proj2 (proj2 (X9_latestDate_is_the_greatest_date SampleMore.estimates)
            "2024-03-02"%string eq_refl))
            (Doc.mk "e1" "k5" (Some "2024-01-15"%string)) "2024-01-15"%string _ eq_refl _)).
  - simpl. tauto.
  - discriminate.
Defined.

(** ** Unlink and sync *)

Lemma updateRows_absent (cid : string) (f : Company.t -> Company.t) (s : Store) :
  (forall c, In c s -> Company.id c <> cid) -> Supabase.updateRows cid f s = s.
Proof.
  intros Hno. unfold Supabase.updateRows. induction s as [|c s IH]; simpl; [done|].
  destruct (String.eqb_spec (Company.id c) cid) as [E|_].
  - exfalso. apply (Hno c); [by left|done].
  - f_equal. apply IH. intros c' Hin. apply Hno. by right.
Qed.

(** X10.  An unlink without a company id answers 400 and writes nothing.
    With a company id it always answers success: the rows of that id lose
    their customer id and keep every other column except the time of the
    change, the other rows stay, and when no row has the id the table is
    left as it is. *)
Theorem X10_unlink_clears_the_link_only (now : string) (companyId : option string) (s : Store) :
  (Js.truthy companyId = false ->
   unlink now companyId s = (Fail 400 "companyId required", s))
  /\ (Js.truthy companyId = true ->
      let cid := Js.orEmpty companyId in
      let s' := (unlink now companyId s).2 in
      (unlink now companyId s).1 = Ok "Unlinked successfully"%string
      /\ (forall c, Supabase.hasCompany s cid c ->
          exists row, Supabase.hasCompany s' cid row
                      /\ Company.invoice_customer_id row = None
                      /\ Company.updated_at row = Some now
                      /\ sameProfile row c /\ sameDates row c)
      /\ List.filter (fun c => negb (String.eqb (Company.id c) cid)) s'
         = List.filter (fun c => negb (String.eqb (Company.id c) cid)) s
      /\ ((forall c, In c s -> Company.id c <> cid) -> s' = s)).
Proof.
  unfold unlink. split; [by intros ->|]. intros ->. cbv zeta. cbn [negb fst snd].
  split; [done|]. split; [|split].
  - intros c Hs. exists (clearLink now c). split; [by apply updateRows_hasCompany|].
    unfold sameProfile, sameDates. done.
  - by apply updateRows_others.
  - apply updateRows_absent.
Qed.

Lemma X10_witness :
  unlink SampleLink.later None [SampleBulk.leeCompany]
  = (Fail 400 "companyId required", [SampleBulk.leeCompany])
  /\ (unlink SampleLink.later (Some "c404") [SampleBulk.leeCompany]).2
     = [SampleBulk.leeCompany].
Proof.
  split.
  - exact (proj1 (X10_unlink_clears_the_link_only SampleLink.later None
                    [SampleBulk.leeCompany]) eq_refl).
  - refine (proj2 (proj2 (proj2 (proj2
               (X10_unlink_clears_the_link_only SampleLink.later (Some "c404"%string)
                  [SampleBulk.leeCompany]) eq_refl))) _).
    intros c [<-|[]]. discriminate.
Defined.

(** X11.  An unlink after a link takes the customer id off the row and
    nothing else: the phone, e-mail, contact name, address, dates and type
    that the link wrote stay on the row, and the company is an unlinked
    company again. *)
Theorem X11_unlink_keeps_the_enrichment
    (firestore : option Firestore.t) (now now' cid icid : string)
    (s : Store) (company : Company.t) :
  Js.nonEmpty cid = true -> Js.nonEmpty icid = true -> Supabase.hasCompany s cid company ->
  let linkedTable := (run (link firestore now (Some cid) (Some icid)) s).2 in
  let enriched := linkedRow firestore now company icid in
  exists row,
    Supabase.hasCompany (unlink now' (Some cid) linkedTable).2 cid row
    /\ unlinked row = true
    /\ sameProfile row enriched /\ sameDates row enriched.
Proof.
  intros Hc Hi Hs. cbv zeta.
  rewrite (link_run firestore now cid icid s company Hc Hi Hs). cbn [snd].
  exists (clearLink now' (linkedRow firestore now company icid)).
  split; [|unfold sameProfile, sameDates; done].
  unfold unlink. rewrite (nonEmpty_truthy _ Hc), orEmpty_Some. cbn [negb snd].
  apply updateRows_hasCompany; [done|]. by apply updateRows_hasCompany.
Qed.

Lemma X11_witness :
  exists row,
    Supabase.hasCompany
      (unlink SampleLink.later (Some "c6")
         (run (link (Some SampleLink.store) SampleLink.now (Some "c6") (Some "k5"))
            [SampleLink.bare]).2).2 "c6" row
    /\ unlinked row = true
    /\ Company.phone row = Some "302-555-0000"%string.
Proof.
  destruct (X11_unlink_keeps_the_enrichment (Some SampleLink.store) SampleLink.now
              SampleLink.later "c6" "k5" [SampleLink.bare] SampleLink.bare
              eq_refl eq_refl eq_refl)
    as (row & H1 & H2 & (_ & _ & _ & _ & _ & _ & _ & _ & H3 & _) & _).
  exists row. split; [exact H1|]. split; [exact H2|]. rewrite H3. reflexivity.
Defined.

(** X12.  When the store accepts the update, the sync of dates answers
    success: on the row of the company it replaces a date only by a
    non-empty date of the request, so it never clears a date; it leaves the
    link and every contact column; the other rows stay, and when no row has
    the id nothing changes.  When the store refuses the update (the dates
    of the request go unchecked into its [TIMESTAMP] columns), the sync
    answers 500 with the message of the store, or with its own message when
    the error has none, and the table is as it was. *)
Theorem X12_sync_never_clears_a_date
    (error : option (option string)) (now cid : string)
    (last_estimate_date last_order_date : option string) (s : Store) :
  let answer := sync error now cid last_estimate_date last_order_date s in
  let s' := answer.2 in
  (forall message, error = Some message ->
     s' = s
     /\ (Js.truthy message = true -> answer.1 = Fail 500 (Js.orEmpty message))
     /\ (Js.truthy message = false -> answer.1 = Fail 500 "Failed to sync dates"))
  /\ (error = None ->
      answer.1 = Ok "Dates synced successfully"%string
      /\ (forall c, Supabase.hasCompany s cid c ->
          exists row,
            Supabase.hasCompany s' cid row
            /\ (Js.truthy (Company.last_estimate_date c) = true ->
                Js.truthy (Company.last_estimate_date row) = true)
            /\ (Js.truthy (Company.last_order_date c) = true ->
                Js.truthy (Company.last_order_date row) = true)
            /\ (Js.truthy last_estimate_date = false ->
                Company.last_estimate_date row = Company.last_estimate_date c)
            /\ (Js.truthy last_order_date = false ->
                Company.last_order_date row = Company.last_order_date c)
            /\ (Js.truthy last_estimate_date = true ->
                Company.last_estimate_date row = last_estimate_date)
            /\ (Js.truthy last_order_date = true ->
                Company.last_order_date row = last_order_date)
            /\ sameProfile row c
            /\ Company.invoice_customer_id row = Company.invoice_customer_id c)
      /\ List.filter (fun c => negb (String.eqb (Company.id c) cid)) s'
         = List.filter (fun c => negb (String.eqb (Company.id c) cid)) s
      /\ ((forall c, In c s -> Company.id c <> cid) -> s' = s)).
Proof.
  cbv zeta. unfold sync. split.
  - intros message ->. cbn [fst snd]. split; [done|]. split; by intros ->.
  - intros ->. cbn [fst snd]. split; [done|]. split; [|split].
    + intros c Hs. exists (syncRow now last_estimate_date last_order_date c).
      split; [by apply updateRows_hasCompany|].
      unfold syncRow, sameProfile. cbn [Company.last_estimate_date Company.last_order_date].
      destruct (Js.truthy last_estimate_date) eqn:E1, (Js.truthy last_order_date) eqn:E2;
        repeat split; done.
    + by apply updateRows_others.
    + apply updateRows_absent.
Qed.

Lemma X12_witness :
  (exists row,
     Supabase.hasCompany
       (sync None SampleLink.now "c6" (Some "") (Some "2024-05-01") [SampleLink.bare]).2
       "c6" row
     /\ Company.last_order_date row = Some "2024-05-01"%string
     /\ Company.last_estimate_date row = None)
  /\ sync (Some (Some "invalid input syntax for type timestamp: soon"%string))
       SampleLink.now "c6" None (Some "soon") [SampleLink.bare]
     = (Fail 500 "invalid input syntax for type timestamp: soon", [SampleLink.bare]).
Proof.
  split.
  - destruct (proj1 (proj2 (proj2 (X12_sync_never_clears_a_date None SampleLink.now "c6"
                              (Some ""%string) (Some "2024-05-01"%string) [SampleLink.bare])
                             eq_refl))
                    SampleLink.bare eq_refl)
      as (row & H & _ & _ & He & _ & _ & Ho & _).
    exists row. split; [exact H|]. split; [exact (Ho eq_refl)|exact (He eq_refl)].
  - destruct (proj1 (X12_sync_never_clears_a_date
                       (Some (Some "invalid input syntax for type timestamp: soon"%string))
                       SampleLink.now "c6" None (Some "soon"%string) [SampleLink.bare])
                    _ eq_refl) as (Hs & Hm & _).
    apply injective_projections; [exact (Hm eq_refl)|exact Hs].
Defined.

(** ** The list of invoice customers *)

Lemma lowerChar_idem (c : ascii) : Js.lowerChar (Js.lowerChar c) = Js.lowerChar c.
Proof. destruct c as [[] [] [] [] [] [] [] []]; reflexivity. Qed.

Lemma toLowerCase_idem (s : string) : Js.toLowerCase (Js.toLowerCase s) = Js.toLowerCase s.
Proof. induction s as [|c s IH]; simpl; [done|]. by rewrite lowerChar_idem, IH. Qed.

Lemma truthy_toLowerCase (s : string) :
  Js.truthy (Some (Js.toLowerCase s)) = Js.truthy (Some s).
Proof. by destruct s. Qed.

(** X13.  The list of invoice customers fails with 503 without the
    invoicing store.  Without a search term, or with an empty one, it has an
    entry for every customer document, in the order of the store.  A search
    does not depend on the case of the term, and every entry it returns is
    the entry of a customer document whose lower-cased full name or company
    name contains the lower-cased term. *)
Theorem X13_invoice_customers_search (fs : Firestore.t) :
  (forall search, invoiceCustomers None search = Fail 503 "Invoice integration not configured")
  /\ (forall search, Js.truthy search = false ->
      invoiceCustomers (Some fs) search
      = Ok (List.map toCustomerEntry (Firestore.customers fs)))
  /\ (forall term,
      invoiceCustomers (Some fs) (Some term)
      = invoiceCustomers (Some fs) (Some (Js.toLowerCase term)))
  /\ (forall term entries e,
      term <> EmptyString ->
      invoiceCustomers (Some fs) (Some term) = Ok entries -> In e entries ->
      exists doc, In doc (Firestore.customers fs) /\ e = toCustomerEntry doc
        /\ (Js.includes
              (Js.toLowerCase (Js.joinNames (Customer.firstName doc.2) (Customer.lastName doc.2)))
              (Js.toLowerCase term) = true
            \/ Js.includes (Js.toLowerCase (Js.orEmpty (Customer.companyName doc.2)))
                 (Js.toLowerCase term) = true)).
Proof.
  split; [done|]. split; [|split].
  - intros search Hf. unfold invoiceCustomers, searchHit. rewrite Hf. do 2 f_equal.
    induction (Firestore.customers fs) as [|doc l IH]; simpl; [done|]. by rewrite IH.
  - intros term. unfold invoiceCustomers. do 2 f_equal.
    apply List.filter_ext. intros doc. unfold searchHit.
    by rewrite truthy_toLowerCase, !orEmpty_Some, toLowerCase_idem.
  - intros term entries e Hne [= <-] Hin.
    apply in_map_iff in Hin as (doc & <- & Hin). apply filter_In in Hin as [Hin Hhit].
    exists doc. split; [done|]. split; [done|].
    unfold searchHit in Hhit. rewrite orEmpty_Some in Hhit.
    destruct term as [|ch term]; [done|]. cbn [Js.truthy] in Hhit. cbv zeta in Hhit.
    destruct (Js.includes (Js.toLowerCase (Js.joinNames _ _)) _); [by left|].
    destruct (Js.includes (Js.toLowerCase (Js.orEmpty _)) _); [by right|done].
Qed.

Lemma X13_witness :
  exists doc, In doc SampleMore.customers
    /\ CustomerEntry.mk "k2" None None (Some "Acme Fencing LLC") (Some "(302) 555-1212")
         None [] None = toCustomerEntry doc.
Proof.
  destruct (proj2 (proj2 (proj2 (X13_invoice_customers_search SampleMore.store)))
              "FENC"%string
              [CustomerEntry.mk "k2" None None (Some "Acme Fencing LLC"%string)
                 (Some "(302) 555-1212"%string) None [] None]
              (CustomerEntry.mk "k2" None None (Some "Acme Fencing LLC"%string)
                 (Some "(302) 555-1212"%string) None [] None))
    as (doc & H1 & H2 & _).
  - discriminate.
  - reflexivity.
  - by left.
  - exists doc. by split.
Defined.

(** ** The groupings of the activity report *)

Lemma group_fold_lookup (key : Activity.t -> string) (activities : list Activity.t)
    (m : gmap string Counters.t) (k : string) :
  fold_left (groupStep key) activities m !! k =
  match List.filter (fun a => String.eqb (key a) k) activities with
  | [] => m !! k
  | l => Some (fold_left (fun c a => Counters.count a c) l (default Counters.zero (m !! k)))
  end.
Proof.
  revert m. induction activities as [|a l IH]; intros m; simpl; [done|].
  rewrite IH. unfold groupStep.
  destruct (String.eqb_spec (key a) k) as [->|Hne].
  - rewrite lookup_insert_eq. simpl.
    by destruct (List.filter (fun a => String.eqb (key a) k) l).
  - by rewrite lookup_insert_ne.
Qed.

Lemma group_lookup (key : Activity.t -> string) (activities : list Activity.t) (k : string) :
  fold_left (groupStep key) activities ∅ !! k = bucketOf key activities k.
Proof.
  rewrite group_fold_lookup, lookup_empty. unfold bucketOf, tally.
  by destruct (List.filter _ activities).
Qed.

(** The week grouping succeeds exactly when every row has a week key, and
    is then the grouping by the week keys. *)
Lemma byWeek_fold_None (tz : Z) (activities : list Activity.t) :
  fold_left (byWeekStep tz) activities None = None.
Proof. induction activities as [|a l IH]; simpl; [done|]. exact IH. Qed.

Lemma byWeek_fold (tz : Z) (activities : list Activity.t) (m : gmap string Counters.t) :
  fold_left (byWeekStep tz) activities (Some m) =
  if forallb (validDate tz) activities
  then Some (fold_left (groupStep (weekKeyOr tz)) activities m)
  else None.
Proof.
  revert m. induction activities as [|a l IH]; intros m; [done|].
  cbn [fold_left forallb].
  assert (byWeekStep tz (Some m) a
          = if validDate tz a then Some (groupStep (weekKeyOr tz) m a) else None) as ->.
  { unfold byWeekStep, validDate, groupStep, weekKeyOr.
    by destruct (weekKey tz (Activity.date a)). }
  destruct (validDate tz a); cbn [andb]; [apply IH|apply byWeek_fold_None].
Qed.

(** X14.  When the activity report answers, each of its three groupings
    holds, under a key, exactly the counters of the activities that have
    this key (the day of the date, the week key, the first seven characters
    of the date) and has no bucket for a key that no activity has; the total
    is the number of activities. *)
Theorem X14_activity_report_buckets
    (tz : Z) (activities : list Activity.t) (r : ActivityReport.t) :
  activityReport tz activities = Some r ->
  (forall k, ActivityReport.byDate r !! k = bucketOf dateKey activities k)
  /\ (forall k, ActivityReport.byWeek r !! k = bucketOf (weekKeyOr tz) activities k)
  /\ (forall k, ActivityReport.byMonth r !! k = bucketOf monthKey activities k)
  /\ ActivityReport.total r = List.length activities.
Proof.
  unfold activityReport, byWeek. rewrite byWeek_fold.
  destruct (forallb _ activities); [|done]. intros [= <-]. simpl.
  repeat split; intros k; apply group_lookup.
Qed.

Lemma X14_witness :
  exists r, activityReport 0 SampleMore.activities = Some r
    /\ ActivityReport.total r = 4%nat.
Proof.
  destruct (activityReport 0 SampleMore.activities) as [r|] eqn:E;
    [|vm_compute in E; discriminate E].
  exists r. split; [reflexivity|].
  exact (proj2 (proj2 (proj2 (X14_activity_report_buckets 0 SampleMore.activities r E)))).
Defined.

Example activity_report_sample :
  (ActivityReport.byMonth <$> activityReport 0 SampleMore.activities)
  = Some {[ "2024-03"%string := Counters.mk 1 1 1 0;
            "2024-04"%string := Counters.mk 1 0 1 2 ]}
  /\ (ActivityReport.byDate <$> activityReport 0 SampleMore.activities)
     = Some {[ "2024-03-05"%string := Counters.mk 1 0 1 0;
               "2024-03-07"%string := Counters.mk 0 1 0 0;
               "2024-04-01"%string := Counters.mk 1 0 1 2 ]}.
Proof. split; vm_compute; reflexivity. Qed.

Lemma sumOf_insert {A : Type} (f : A -> Z) (k : string) (v : A) (m : gmap string A) :
  sumOf f (<[k:=v]> m) = f v + sumOf f m - from_option f 0 (m !! k).
Proof.
  unfold sumOf. destruct (m !! k) as [old|] eqn:E; simpl.
  - rewrite <- (insert_delete_eq m k v).
    rewrite map_fold_insert_L; [|intros; lia|apply lookup_delete_eq].
    rewrite (map_fold_delete_L _ 0 k old m); [lia|intros; lia|done].
  - rewrite map_fold_insert_L; [lia|intros; lia|done].
Qed.

Section Conservation.
Context (f : Counters.t -> Z) (p : Activity.t -> bool).
Hypothesis f_zero : f Counters.zero = 0.
Hypothesis f_count : forall a k, f (Counters.count a k) = f k + (if p a then 1 else 0).

Lemma groupStep_sum (key : Activity.t -> string) (m : gmap string Counters.t)
    (a : Activity.t) :
  sumOf f (groupStep key m a) = sumOf f m + (if p a then 1 else 0).
Proof.
  unfold groupStep. rewrite sumOf_insert, f_count.
  destruct (m !! key a); simpl; [lia|]. rewrite f_zero. lia.
Qed.

Lemma group_fold_sum (key : Activity.t -> string) (activities : list Activity.t)
    (m : gmap string Counters.t) :
  sumOf f (fold_left (groupStep key) activities m) = sumOf f m + countIf p activities.
Proof.
  revert m. unfold countIf. induction activities as [|a l IH]; intros m; simpl; [lia|].
  rewrite IH, groupStep_sum. destruct (p a); simpl; lia.
Qed.
End Conservation.

Lemma group_accounts (key : Activity.t -> string) (activities : list Activity.t) :
  accountsFor (fold_left (groupStep key) activities ∅) activities.
Proof.
  unfold accountsFor.
  rewrite (group_fold_sum Counters.calls isCall), (group_fold_sum Counters.emails isEmail),
    (group_fold_sum Counters.answered isAnswered),
    (group_fold_sum Counters.interested isInterested);
    try done; intros a k; simpl.
  - unfold isInterested, flagSet. destruct (Activity.interested a =? 0); simpl; lia.
  - unfold isAnswered, flagSet. destruct (Activity.answered a =? 0); simpl; lia.
  - unfold isEmail. destruct (String.eqb _ _); lia.
  - unfold isCall. destruct (String.eqb _ _); lia.
Qed.

(** X15.  When the activity report answers, each of its three groupings
    accounts for every activity once: over the buckets of a grouping the
    calls sum to the number of activities of type "call", the e-mails to the
    number of type "email", and the answered and interested counters to the
    numbers of activities with that flag, of whatever type. *)
Theorem X15_activity_report_accounts_for_every_activity
    (tz : Z) (activities : list Activity.t) (r : ActivityReport.t) :
  activityReport tz activities = Some r ->
  accountsFor (ActivityReport.byDate r) activities
  /\ accountsFor (ActivityReport.byWeek r) activities
  /\ accountsFor (ActivityReport.byMonth r) activities.
Proof.
  unfold activityReport, byWeek. rewrite byWeek_fold.
  destruct (forallb _ activities); [|done]. intros [= <-]. simpl.
  repeat split; apply group_accounts.
Qed.

Lemma X15_witness :
  exists r, activityReport 0 SampleMore.activities = Some r
    /\ sumOf Counters.interested (ActivityReport.byWeek r)
       = countIf isInterested SampleMore.activities.
Proof.
  destruct (activityReport 0 SampleMore.activities) as [r|] eqn:E;
    [|vm_compute in E; discriminate E].
  exists r. split; [reflexivity|].
  destruct (X15_activity_report_accounts_for_every_activity 0 SampleMore.activities r E)
    as (_ & (_ & _ & _ & H) & _).
  exact H.
Defined.

(** X16.  The activity report answers over the rows as the store gives
    them.  When the date of every row is a date and time as a [TIMESTAMP]
    column gives it back, with or without a fraction of the second, every
    row has a week key in a host of any time zone, so the week grouping
    does not throw, and the report holds the groupings and the number of
    the rows.  The week key of such a row is the UTC date of the local time
    of the row moved back to the Sunday of its local week. *)
Theorem X16_activity_report_answers_on_timestamp_rows
    (tz : Z) (activities : list Activity.t) :
  (forall a, In a activities ->
     exists ts, Timestamp.valid ts = true /\ Activity.date a = Timestamp.print ts) ->
  (exists r, activityReport tz activities = Some r
             /\ ActivityReport.total r = List.length activities)
  /\ (forall a ts, In a activities -> Timestamp.valid ts = true ->
        Activity.date a = Timestamp.print ts ->
        let sunday := Timestamp.dayNumber ts - (Timestamp.dayNumber ts + 4) mod 7 in
        weekKey tz (Activity.date a)
        = Some (JsDate.isoDate (sunday * JsDate.msPerDay + Timestamp.timeOfDay ts
                                - tz * JsDate.msPerMinute))).
Proof.
  intros Hrows.
  assert (forall a ts, In a activities -> Timestamp.valid ts = true ->
            Activity.date a = Timestamp.print ts ->
            weekKey tz (Activity.date a)
            = Some (JsDate.isoDate
                      ((Timestamp.dayNumber ts - (Timestamp.dayNumber ts + 4) mod 7)
                       * JsDate.msPerDay + Timestamp.timeOfDay ts
                       - tz * JsDate.msPerMinute))) as Hkey.
  { intros a ts _ Hv ->.
    exact (weekKey_local tz _ _ _ (read_print ts Hv) (timeOfDay_range ts Hv)). }
  split; [|exact Hkey].
  unfold activityReport, byWeek. rewrite byWeek_fold.
  replace (forallb (validDate tz) activities) with true; [eauto|].
  symmetry. apply forallb_forall. intros a Hin.
  destruct (Hrows a Hin) as (ts & Hv & E).
  unfold validDate. by rewrite (Hkey a ts Hin Hv E).
Qed.

Lemma SampleMore_activities_are_rows (a : Activity.t) :
  In a SampleMore.activities ->
  exists ts, Timestamp.valid ts = true /\ Activity.date a = Timestamp.print ts.
Proof.
  intros [<-|[<-|[<-|[<-|[]]]]].
  - by exists (Timestamp.mk 2024 3 5 9 30 0 "").
  - by exists (Timestamp.mk 2024 3 7 10 0 0 "").
  - by exists (Timestamp.mk 2024 4 1 14 5 10 "25").
  - by exists (Timestamp.mk 2024 4 1 16 0 0 "").
Defined.

Lemma X16_witness :
  exists r, activityReport SampleReport.eastern SampleMore.activities = Some r
            /\ ActivityReport.total r = 4%nat.
Proof.
  exact (proj1 (X16_activity_report_answers_on_timestamp_rows SampleReport.eastern
                  SampleMore.activities SampleMore_activities_are_rows)).
Defined.

(** ** The funnel *)

Lemma size_list_to_set_le (l : list string) :
  (size (list_to_set l : gset string) <= List.length l)%nat.
Proof.
  induction l as [|x l IH].
  - by rewrite list_to_set_nil, size_empty.
  - rewrite list_to_set_cons, size_union_alt, size_singleton. cbn [List.length].
    assert (size (list_to_set l ∖ {[x]} : gset string) <= size (list_to_set l : gset string))%nat
      as Hle by (apply subseteq_size, subseteq_difference_l; reflexivity).
    lia.
Qed.

Lemma list_to_set_filter_subseteq {A : Type} (f : A -> string) (p : A -> bool) (l : list A) :
  (list_to_set (List.map f (List.filter p l)) : gset string) ⊆ list_to_set (List.map f l).
Proof.
  intros x. rewrite !elem_of_list_to_set, !list_elem_of_In, !in_map_iff.
  intros (a & <- & Hin). apply filter_In in Hin as [Hin _]. eauto.
Qed.

(** X17.  In the funnel the answered and the interested companies are
    among the contacted ones, so their numbers do not exceed the number of
    contacted companies; a company counts once however many activities it
    has, so the contacted number does not exceed the number of activities
    and is 0 without activities; the customers do not exceed the companies,
    and with unique ids their number is the number of companies flagged as
    customer, whatever the activities are. *)
Theorem X17_funnel_steps
    (companies : list FunnelCompany.t) (activities : list FunnelActivity.t) :
  let f := funnel companies activities in
  (Funnel.answered f <= Funnel.contacted f)%nat
  /\ (Funnel.interested f <= Funnel.contacted f)%nat
  /\ (Funnel.contacted f <= List.length activities)%nat
  /\ (Funnel.customers f <= Funnel.totalCompanies f)%nat
  /\ Funnel.totalCompanies f = List.length companies
  /\ (NoDup (List.map FunnelCompany.id companies) ->
      Funnel.customers f
      = List.length (List.filter (fun c => flagSet (FunnelCompany.is_customer c)) companies)).
Proof.
  cbv zeta. unfold funnel. simpl. repeat split.
  - apply subseteq_size, list_to_set_filter_subseteq.
  - apply subseteq_size, list_to_set_filter_subseteq.
  - etrans; [apply size_list_to_set_le|]. by rewrite List.length_map.
  - etrans; [apply size_list_to_set_le|]. rewrite List.length_map.
    induction companies as [|c l IH]; simpl; [done|].
    destruct (flagSet (FunnelCompany.is_customer c)); simpl; lia.
  - intros Hnd. rewrite size_list_to_set.
    + by rewrite List.length_map.
    + clear -Hnd. induction companies as [|c l IH]; simpl; [constructor|].
      apply NoDup_cons in Hnd as [Hc Hnd].
      destruct (flagSet (FunnelCompany.is_customer c)); simpl; [|by apply IH].
      apply NoDup_cons. split; [|by apply IH].
      intros Hin. apply Hc. apply list_elem_of_In in Hin. apply list_elem_of_In.
      apply in_map_iff in Hin as (c' & E & Hin). apply filter_In in Hin as [Hin _].
      apply in_map_iff. eauto.
Qed.

Lemma SampleMore_funnel_ids_unique :
  NoDup (List.map FunnelCompany.id SampleMore.funnelCompanies).
Proof. compute_done. Defined.

Lemma X17_witness :
  Funnel.customers (funnel SampleMore.funnelCompanies SampleMore.funnelActivities)
  = List.length (List.filter (fun c => flagSet (FunnelCompany.is_customer c))
                   SampleMore.funnelCompanies).
Proof.
  exact (proj2 (proj2 (proj2 (proj2 (proj2
           (X17_funnel_steps SampleMore.funnelCompanies SampleMore.funnelActivities)))))
           SampleMore_funnel_ids_unique).
Defined.

Example funnel_sample :
  funnel SampleMore.funnelCompanies SampleMore.funnelActivities = Funnel.mk 3 2 1 2 1.
Proof. vm_compute. reflexivity. Qed.

(** ** The pipeline *)

Section Accumulate.
Context {V A : Type} (key : A -> string) (upd : A -> V -> V) (init : V).

(** After the fold, the value under a key is the value of the elements
    with that key, folded in their order from the value that was there. *)
Lemma acc_fold_lookup (l : list A) (m : gmap string V) (k : string) :
  fold_left (accStep key upd init) l m !! k =
  match List.filter (fun x => String.eqb (key x) k) l with
  | [] => m !! k
  | l' => Some (fold_left (fun v x => upd x v) l' (default init (m !! k)))
  end.
Proof.
  revert m. induction l as [|a l IH]; intros m; simpl; [done|].
  rewrite IH. unfold accStep.
  destruct (String.eqb_spec (key a) k) as [->|Hne].
  - rewrite lookup_insert_eq. simpl.
    by destruct (List.filter (fun x => String.eqb (key x) k) l).
  - by rewrite lookup_insert_ne.
Qed.
End Accumulate.

Lemma flags_fold (mine : list PipelineActivity.t) (v : Flags.t) :
  mine <> [] ->
  fold_left (fun v a => flagsUpd a v) mine v =
  Flags.mk true
    (Flags.interested v || existsb (fun a => flagSet (PipelineActivity.interested a)) mine)
    (Flags.followUp v || existsb (fun a => flagSet (PipelineActivity.follow_up a)) mine).
Proof.
  revert v. induction mine as [|a l IH]; intros v Hne; [done|]. simpl.
  destruct l as [|b l].
  - simpl. unfold flagsUpd.
    destruct (flagSet (PipelineActivity.interested a)),
      (flagSet (PipelineActivity.follow_up a)); simpl; by rewrite ?orb_true_r, ?orb_false_r.
  - rewrite IH by done. unfold flagsUpd at 1 2. cbn [Flags.interested Flags.followUp].
    destruct (flagSet (PipelineActivity.interested a)),
      (flagSet (PipelineActivity.follow_up a)), (Flags.interested v), (Flags.followUp v);
      reflexivity.
Qed.

(** The flags of a company after all activities. *)
Lemma companyStatuses_lookup (activities : list PipelineActivity.t) (id : string) :
  companyStatuses activities !! id =
  match activitiesOf activities id with
  | [] => None
  | mine =>
      Some (Flags.mk true
              (existsb (fun a => flagSet (PipelineActivity.interested a)) mine)
              (existsb (fun a => flagSet (PipelineActivity.follow_up a)) mine))
  end.
Proof.
  unfold companyStatuses.
  rewrite (fold_left_ext statusStep
             (accStep PipelineActivity.company_id flagsUpd (Flags.mk false false false)))
    by done.
  rewrite acc_fold_lookup, lookup_empty. unfold activitiesOf.
  destruct (List.filter _ activities) as [|a l] eqn:E; [done|].
  by rewrite flags_fold.
Qed.

(** The count of one status goes up with a company of that status. *)
Lemma byStatusStep_status (activities : list PipelineActivity.t) (acc : ByStatus.t)
    (c : PipelineCompany.t) :
  byStatusStep (companyStatuses activities) acc c =
  let bump (st : PipelineStatus) (n : nat) : nat :=
    if bool_decide (statusOf activities c = st) then S n else n in
  ByStatus.mk (bump NotContacted (ByStatus.notContacted acc))
    (bump Contacted (ByStatus.contacted acc))
    (bump Interested (ByStatus.interested acc))
    (bump NeedsFollowUp (ByStatus.needsFollowUp acc))
    (bump Customers (ByStatus.customers acc)).
Proof.
  unfold byStatusStep, statusOf. destruct acc as [n co i f cu].
  rewrite companyStatuses_lookup. cbv zeta.
  destruct (flagSet (PipelineCompany.is_customer c)); [done|].
  destruct (activitiesOf activities (PipelineCompany.id c)) as [|a l]; [done|].
  cbn [Flags.interested Flags.followUp].
  destruct (existsb _ (a :: l)); [done|]. by destruct (existsb _ (a :: l)).
Qed.

Lemma byStatus_fold (activities : list PipelineActivity.t)
    (companies : list PipelineCompany.t) (acc : ByStatus.t) :
  fold_left (byStatusStep (companyStatuses activities)) companies acc =
  ByStatus.mk
    (ByStatus.notContacted acc + countStatus NotContacted companies activities)
    (ByStatus.contacted acc + countStatus Contacted companies activities)
    (ByStatus.interested acc + countStatus Interested companies activities)
    (ByStatus.needsFollowUp acc + countStatus NeedsFollowUp companies activities)
    (ByStatus.customers acc + countStatus Customers companies activities).
Proof.
  revert acc. unfold countStatus.
  induction companies as [|c l IH]; intros acc; simpl.
  - destruct acc. by rewrite !Nat.add_0_r.
  - rewrite IH, byStatusStep_status. cbv zeta. cbn [ByStatus.notContacted
      ByStatus.contacted ByStatus.interested ByStatus.needsFollowUp ByStatus.customers].
    destruct (statusOf activities c); simpl; f_equal; lia.
Qed.

(** X18.  For company ids that are plain keys of an object, the pipeline
    counts each company under exactly one status, the one that its own
    activities give it: "customers" for a company flagged
    as customer, whatever its activities; else "notContacted" without any
    activity, "interested" with an interested activity, "needsFollowUp" with
    a follow-up and no interested activity, and "contacted" otherwise.  The
    five counts add up to the number of companies. *)
Theorem X18_pipeline_status_counts
    (companies : list PipelineCompany.t) (activities : list PipelineActivity.t) :
  Forall (fun a => plainKey (PipelineActivity.company_id a) = true) activities ->
  Forall (fun c => plainKey (PipelineCompany.id c) = true) companies ->
  let s := byStatus companies activities in
  s = ByStatus.mk (countStatus NotContacted companies activities)
        (countStatus Contacted companies activities)
        (countStatus Interested companies activities)
        (countStatus NeedsFollowUp companies activities)
        (countStatus Customers companies activities)
  /\ (ByStatus.notContacted s + ByStatus.contacted s + ByStatus.interested s
      + ByStatus.needsFollowUp s + ByStatus.customers s = List.length companies)%nat.
Proof.
  intros _ _. cbv zeta. unfold byStatus. rewrite byStatus_fold. simpl. split; [done|].
  unfold countStatus. induction companies as [|c l IH]; simpl; [done|].
  destruct (statusOf activities c); simpl; lia.
Qed.

Lemma X18_witness :
  byStatus SampleMore.pipelineCompanies SampleMore.pipelineActivities
  = ByStatus.mk 1 1 1 0 1.
Proof.
  refine (eq_trans (proj1 (X18_pipeline_status_counts SampleMore.pipelineCompanies
                             SampleMore.pipelineActivities _ _)) _).
  - repeat constructor.
  - repeat constructor.
  - reflexivity.
Defined.

Lemma type_fold (l : list PipelineCompany.t) (v : TypeCount.t) :
  fold_left (fun v c => typeUpd c v) l v =
  TypeCount.mk (TypeCount.total v + List.length l)
    (TypeCount.customers v + List.length (List.filter isCustomer l))
    (TypeCount.prospects v + List.length (List.filter (fun c => negb (isCustomer c)) l)).
Proof.
  revert v. induction l as [|c l IH]; intros v; simpl.
  - destruct v. by rewrite !Nat.add_0_r.
  - rewrite IH. unfold typeUpd, isCustomer. simpl.
    destruct (flagSet (PipelineCompany.is_customer c)); simpl; f_equal; lia.
Qed.

Lemma filter_split_length {A : Type} (p : A -> bool) (l : list A) :
  (List.length (List.filter p l) + List.length (List.filter (fun x => negb (p x)) l)
   = List.length l)%nat.
Proof.
  induction l as [|x l IH]; [reflexivity|]. simpl.
  destruct (p x); simpl; lia.
Qed.

(** X19.  For type names that are plain keys of an object, the grouping
    of the pipeline by type has, under a type, the
    number of companies of that type, how many of them are flagged as
    customer and how many are not, and it has no entry for a type without
    companies; a company without a type counts under "Unknown".  So in
    every entry the customers and the prospects add up to the total, which
    is at least 1. *)
Theorem X19_pipeline_by_type_counts (companies : list PipelineCompany.t) :
  Forall (fun c => plainKey (typeKey c) = true) companies ->
  (forall k,
      byType companies !! k =
      match ofType k companies with
      | [] => None
      | l => Some (TypeCount.mk (List.length l) (List.length (List.filter isCustomer l))
                     (List.length (List.filter (fun c => negb (isCustomer c)) l)))
      end)
  /\ (forall k tc, byType companies !! k = Some tc ->
      (TypeCount.customers tc + TypeCount.prospects tc = TypeCount.total tc)%nat
      /\ (1 <= TypeCount.total tc)%nat)
  /\ (forall c, In c companies -> Js.truthy (PipelineCompany.type c) = false ->
      exists tc, byType companies !! "Unknown"%string = Some tc).
Proof.
  intros _.
  assert (forall k,
      byType companies !! k =
      match ofType k companies with
      | [] => None
      | l => Some (TypeCount.mk (List.length l) (List.length (List.filter isCustomer l))
                     (List.length (List.filter (fun c => negb (isCustomer c)) l)))
      end) as Hlookup.
  { intros k. unfold byType.
    rewrite (fold_left_ext byTypeStep (accStep typeKey typeUpd (TypeCount.mk 0 0 0)))
      by done.
    rewrite acc_fold_lookup, lookup_empty. unfold ofType.
    destruct (List.filter _ companies) as [|c l]; [done|]. by rewrite type_fold. }
  split; [exact Hlookup|]. split.
  - intros k tc. rewrite Hlookup. destruct (ofType k companies) as [|c l]; [done|].
    intros [= <-]. cbv zeta. cbn [TypeCount.customers TypeCount.prospects TypeCount.total].
    split; [exact (filter_split_length isCustomer (c :: l))|simpl; lia].
  - intros c Hin Hty. rewrite Hlookup.
    assert (In c (ofType "Unknown" companies)) as Hc.
    { apply filter_In. split; [done|]. unfold typeKey. by rewrite Hty. }
    destruct (ofType "Unknown" companies); [done|eauto].
Qed.

Lemma X19_witness :
  byType SampleMore.pipelineCompanies !! "Unknown"%string = Some (TypeCount.mk 2 0 2).
Proof.
  refine (eq_trans (proj1 (X19_pipeline_by_type_counts SampleMore.pipelineCompanies _)
                      "Unknown"%string) _).
  - repeat constructor.
  - reflexivity.
Defined.

(** ** The follow-ups *)

(** X20.  The follow-up lists put every company that has a follow-up date
    into exactly one of "overdue" and "upcoming", by the day of the date
    against today, and keep the order of the query in both; a company
    without a follow-up date is in neither. *)
Theorem X20_follow_ups_partition (now : string) (data : list FollowUp.t) (c : FollowUp.t) :
  let overdue := (followUps now data).1 in
  let upcoming := (followUps now data).2 in
  (In c overdue -> ~ In c upcoming)
  /\ (In c overdue \/ In c upcoming
      <-> In c data /\ Js.truthy (FollowUp.follow_up_date c) = true)
  /\ (In c overdue ->
      String.ltb (beforeT (Js.orEmpty (FollowUp.follow_up_date c))) now = true)
  /\ (In c upcoming ->
      String.leb now (beforeT (Js.orEmpty (FollowUp.follow_up_date c))) = true)
  /\ sublist overdue data /\ sublist upcoming data
  /\ (List.length overdue + List.length upcoming
      = List.length (List.filter (fun c => Js.truthy (FollowUp.follow_up_date c)) data))%nat.
Proof.
  cbv zeta. unfold followUps, isOverdue, isUpcoming. cbn [fst snd]. rewrite !filter_In.
  split; [|split; [|split; [|split; [|split; [|split]]]]].
  - intros [_ H1] [_ H2]. destruct (Js.truthy _); [|done].
    simpl in *. by rewrite H1 in H2.
  - split.
    + intros [[Hin H]|[Hin H]]; (split; [done|]); by destruct (Js.truthy _).
    + intros [Hin ->]. simpl. destruct (String.ltb _ now); auto.
  - intros [_ H]. by destruct (Js.truthy _).
  - intros [_ H]. destruct (Js.truthy _); [|done]. simpl in H.
    apply not_ltb_leb. by destruct (String.ltb _ now).
  - induction data as [|x l IH]; simpl; [constructor|].
    destruct (_ && _); [by constructor|by apply sublist_cons].
  - induction data as [|x l IH]; simpl; [constructor|].
    destruct (_ && _); [by constructor|by apply sublist_cons].
  - induction data as [|x l IH]; simpl; [done|].
    destruct (Js.truthy (FollowUp.follow_up_date x)); simpl; [|done].
    destruct (String.ltb _ now); simpl; lia.
Qed.

Lemma X20_witness :
  (List.length (followUps "2026-02-04" SampleMore.followUps).1
   + List.length (followUps "2026-02-04" SampleMore.followUps).2 = 3)%nat.
Proof.
  exact (proj2 (proj2 (proj2 (proj2 (proj2 (proj2
           (X20_follow_ups_partition "2026-02-04" SampleMore.followUps
              (FollowUp.mk "c1" (Some "A"%string) None
                 (Some "2026-02-01T00:00:00"%string) None)))))))).
Defined.

Example follow_ups_sample :
  List.map FollowUp.id (followUps "2026-02-04" SampleMore.followUps).1 = ["c1"%string]
  /\ List.map FollowUp.id (followUps "2026-02-04" SampleMore.followUps).2
     = ["c2"; "c3"]%string.
Proof. split; reflexivity. Qed.

(** ** The two scores, rule by rule *)

(** X21.  In the bulk reconciliation a pair whose last-10-digit phones are
    equal and not empty scores at least 90, and scores 100 when the
    normalized company names are equal as well. *)
Theorem X21_bulk_phone_match_scores_at_least_90 (ic : InvoiceCustomer.t) (c : Company.t) :
  Rules.phone ic c = true ->
  90 <= bulkScoreOf ic c /\ (Rules.exact ic c = true -> bulkScoreOf ic c = 100).
Proof. apply bulkScoreOf_phone_at_least_90. Qed.

Lemma X21_witness :
  90 <= bulkScoreOf (toInvoiceCustomer ("k2"%string, Sample.acmeCustomer)) Sample.acmeCompany.
Proof.
  exact (proj1 (X21_bulk_phone_match_scores_at_least_90
                  (toInvoiceCustomer ("k2"%string, Sample.acmeCustomer)) Sample.acmeCompany
                  eq_refl)).
Defined.

(** X22.  The score of the single-company match is that of the first rule
    that applies, in the order: equal normalized company names 100, one
    name contained in the other 80, full name equal to the contact name 70,
    equal last-10-digit phones 90, and 0 when none applies; so an exact
    name scores 100 whatever the other fields are, and the phones count
    only when no name rule applies. *)
Theorem X22_match_score_first_rule (id : string) (company : Company.t) (data : Customer.t) :
  let ic := toInvoiceCustomer (id, data) in
  matchScoreOf company data =
    (if Rules.exact ic company then 100
     else if Rules.substring ic company then 80
     else if Rules.contact ic company then 70
     else if Rules.phone ic company then 90 else 0)
  /\ (Rules.exact ic company = true -> matchScoreOf company data = 100)
  /\ (Rules.exact ic company = false -> Rules.substring ic company = false ->
      Rules.contact ic company = false -> Rules.phone ic company = true ->
      matchScoreOf company data = 90).
Proof.
  cbv zeta. rewrite (matchScoreOf_chain id). cbv zeta. split; [done|]. split.
  - by intros ->.
  - by intros -> -> -> ->.
Qed.

Lemma X22_witness :
  matchScoreOf Sample.acmeCompany (Sample.customer None None (Some "ACME") None) = 100.
Proof.
  exact (proj1 (proj2 (X22_match_score_first_rule "k3" Sample.acmeCompany
                         (Sample.customer None None (Some "ACME"%string) None))) eq_refl).
Defined.

(** ** The week bucket in a host of fixed offset *)

(** X23.  In a host on UTC or east of it (an offset of less than a day) the
    week bucket of an activity with a date-only date is the Sunday of the
    week of that date. *)
Theorem X23_week_bucket_is_sunday_east_of_utc (tz : Z) (date : string) :
  0 <= tz < 1440 -> String.length date = 10%nat ->
  weekKey tz date = sundayOfWeek date.
Proof. apply weekKey_date_only_east. Qed.

Lemma X23_witness :
  weekKey SampleReport.centralEuropean "2024-03-06" = sundayOfWeek "2024-03-06".
Proof.
  apply (X23_week_bucket_is_sunday_east_of_utc SampleReport.centralEuropean "2024-03-06");
    [unfold SampleReport.centralEuropean; lia|reflexivity].
Defined.

(** X24.  In a host west of UTC (an offset of less than a day) the week
    bucket of an activity with a date-only date is always a Monday: the day
    after the Sunday of the week of the day before the date. *)
Theorem X24_week_bucket_is_monday_west_of_utc (tz : Z) (date : string) (d : Z) :
  -1440 < tz < 0 -> String.length date = 10%nat -> JsDate.parseDay date = Some d ->
  let monday := (d - (d + 3) mod 7) * JsDate.msPerDay in
  weekKey tz date = Some (JsDate.isoDate monday) /\ JsDate.weekDay monday = 1.
Proof. apply weekKey_date_only_west. Qed.

Lemma X24_witness :
  weekKey SampleReport.eastern "2024-03-03"
    = Some (JsDate.isoDate ((19785 - (19785 + 3) mod 7) * JsDate.msPerDay))
  /\ JsDate.weekDay ((19785 - (19785 + 3) mod 7) * JsDate.msPerDay) = 1.
Proof.
  apply (X24_week_bucket_is_monday_west_of_utc SampleReport.eastern "2024-03-03" 19785);
    [unfold SampleReport.eastern; lia|reflexivity|reflexivity].
Defined.

Example sunday_activity_west_of_utc :
  weekKey SampleReport.eastern "2024-03-03" = Some "2024-02-26"%string.
Proof. vm_compute. reflexivity. Qed.
